(** * Storefront client: cart, wishlist, price utilities and configuration sync

    A shallow embedding of the session-local state and the configuration
    synchronisation code of [frontend/lib/services/api_service.dart]:
    [PriceUtils], [CartItem], [CartManager], [WishlistManager],
    [DynamicAppSync], [loadDynamicProductData], [startRealTimeUpdates] and
    the home page's [_loadDynamicAppConfig] / [_buildHomeWidgetFromConfig].

    Dart [double] is IEEE 754 binary64 and is embedded as Rocq's primitive
    [float]; Dart [int] is a 64-bit two's complement integer, embedded as
    [Z] with the wrap-around written out; a Dart [String] is a sequence of
    UTF-16 code units, embedded as [list N]. *)

From Stdlib Require Import ZArith NArith List Bool Lia String Ascii.
From Stdlib Require Import Floats.
From Stdlib Require Import Permutation.
Import ListNotations.

#[local] Set Warnings "-inexact-float,-register-all".
Local Open Scope list_scope.
Local Open Scope Z_scope.

(** ** Dart strings *)

Module DartString.

(** A string is its list of UTF-16 code units. *)
Definition t := list N.

(** ASCII literals. *)
Definition str (s : string) : t :=
  List.map N_of_ascii (list_ascii_of_string s).

Definition eqb (a b : t) : bool :=
  if list_eq_dec N.eq_dec a b then true else false.

Definition isEmpty (s : t) : bool :=
  match s with [] => true | _ :: _ => false end.

(** [s.startsWith(p)] *)
Fixpoint startsWith (p s : t) : bool :=
  match p, s with
  | [], _ => true
  | _ :: _, [] => false
  | a :: p', b :: s' => N.eqb a b && startsWith p' s'
  end.

(** [s.contains(p)]: [p] occurs as a contiguous run of code units. *)
Fixpoint contains (s p : t) : bool :=
  startsWith p s ||
  match s with
  | [] => false
  | _ :: s' => contains s' p
  end.

(** [s.toLowerCase()] on the ASCII letters, every other code unit kept:
    what the realtime page and the subscription check need, which only
    compare the result with ASCII constants. The SDK's mapping of the
    letters outside ASCII is not part of this definition; the home
    page's search, which shows it, takes the SDK's function as it is. *)
Definition lowerUnit (c : N) : N :=
  if (65 <=? c)%N && (c <=? 90)%N then (c + 32)%N else c.

Definition toLowerCase (s : t) : t := List.map lowerUnit s.

(** [s.toUpperCase()], likewise on the ASCII letters. *)
Definition upperUnit (c : N) : N :=
  if (97 <=? c)%N && (c <=? 122)%N then (c - 32)%N else c.

Definition toUpperCase (s : t) : t := List.map upperUnit s.

(** [s.split(sep)] for a separator of one code unit: the runs between
    its occurrences, of which there is always at least one. *)
Fixpoint split (sep : N) (s : t) : list t :=
  match s with
  | [] => [[]]
  | c :: s' =>
      if N.eqb c sep then [] :: split sep s'
      else
        match split sep s' with
        | [] => [[c]]
        | part :: parts => (c :: part) :: parts
        end
  end.

End DartString.

Definition DString : Type := DartString.t.
Definition str : string -> DString := DartString.str.

(** ** Dart numbers *)

Module DartNum.

(** 64-bit two's complement wrap-around of Dart's [int]. *)
Definition wrap64 (z : Z) : Z := (z + 2 ^ 63) mod 2 ^ 64 - 2 ^ 63.

Definition int_add (a b : Z) : Z := wrap64 (a + b).
Definition int_sub (a b : Z) : Z := wrap64 (a - b).

(** [int.toDouble()], the conversion [double * int] applies to its
    right operand: the nearest binary64 value, ties to even. *)
Definition int_to_double (z : Z) : float :=
  SF2Prim (SpecFloat.binary_normalize 53 1024 z 0 false).

(** [a > b] on doubles. *)
Definition double_gt (a b : float) : bool := PrimFloat.ltb b a.

End DartNum.

Import DartNum.

(** ** [double.tryParse]

    The SDK's parser of double literals, by its documented grammar:
    surrounding whitespace is ignored; an optional sign; then [Infinity],
    [NaN], or a mantissa (digits with an optional point and more digits,
    or a point followed by digits) with an optional exponent. *)

Module DoubleParse.

Definition isDigit (c : N) : bool := ((48 <=? c) && (c <=? 57))%N.

(** The code units [String.trim] removes. *)
Definition isWhitespace (c : N) : bool :=
  (((9 <=? c) && (c <=? 13)) || (c =? 32) || (c =? 0x85) || (c =? 0xA0)
   || (c =? 0x1680) || ((0x2000 <=? c) && (c <=? 0x200A))
   || (c =? 0x2028) || (c =? 0x2029) || (c =? 0x202F) || (c =? 0x205F)
   || (c =? 0x3000) || (c =? 0xFEFF))%N.

Fixpoint dropWhile (f : N -> bool) (s : DString) : DString :=
  match s with
  | [] => []
  | c :: s' => if f c then dropWhile f s' else s
  end.

Definition trim (s : DString) : DString :=
  rev (dropWhile isWhitespace (rev (dropWhile isWhitespace s))).

(** The leading digits and what follows them. *)
Fixpoint spanDigits (s : DString) : list N * DString :=
  match s with
  | [] => ([], [])
  | c :: s' =>
      if isDigit c
      then let (ds, r) := spanDigits s' in (c :: ds, r)
      else ([], s)
  end.

Definition digitsValue (ds : list N) : Z :=
  fold_left (fun acc d => 10 * acc + (Z.of_N d - 48)) ds 0.

(** The double nearest to [m * 10 ^ e10] (ties to even), with the sign
    [neg]. A negative [e10] is a division: the quotient is taken with 64
    spare bits and a sticky bit for the remainder, then rounded once. *)
Definition decimalToDouble (neg : bool) (m e10 : Z) : float :=
  let signed (z : Z) := if neg then - z else z in
  if 0 <=? e10
  then SF2Prim
         (SpecFloat.binary_normalize 53 1024 (signed (m * 10 ^ e10)) 0 neg)
  else
    let den := 10 ^ (- e10) in
    let sh := Z.log2_up den + 64 in
    let num := m * 2 ^ sh in
    let sticky := if num mod den =? 0 then 0 else 1 in
    SF2Prim
      (SpecFloat.binary_normalize 53 1024
         (signed (2 * (num / den) + sticky)) (- (sh + 1)) neg).

(** An optional sign: whether it is [-], and the rest. *)
Definition parseSign (s : DString) : bool * DString :=
  match s with
  | 45%N :: r => (true, r)
  | 43%N :: r => (false, r)
  | _ => (false, s)
  end.

(** The mantissa: its digits as an integer, the number of digits after
    the point, and the rest. *)
Definition parseMantissa (s : DString) : option (Z * Z * DString) :=
  let (ip, r1) := spanDigits s in
  match r1 with
  | 46%N :: r2 =>
      let (fp, r3) := spanDigits r2 in
      match ip, fp with
      | [], [] => None
      | _, _ => Some (digitsValue (ip ++ fp), Z.of_nat (List.length fp), r3)
      end
  | _ =>
      match ip with
      | [] => None
      | _ => Some (digitsValue ip, 0, r1)
      end
  end.

(** The exponent part, 0 when there is none; [None] when an [e] is not
    followed by digits or something is left over. *)
Definition parseExponent (s : DString) : option Z :=
  match s with
  | [] => Some 0
  | c :: r =>
      if ((c =? 101) || (c =? 69))%N
      then
        let (neg, r1) := parseSign r in
        let (ds, r2) := spanDigits r1 in
        match ds, r2 with
        | _ :: _, [] => Some (if neg then - digitsValue ds else digitsValue ds)
        | _, _ => None
        end
      else None
  end.

Definition tryParse (source : DString) : option float :=
  let (neg, body) := parseSign (trim source) in
  if DartString.eqb body (str "Infinity")
  then Some (if neg then neg_infinity else infinity)
  else if DartString.eqb body (str "NaN") then Some nan
  else
    match parseMantissa body with
    | None => None
    | Some (m, frac, r) =>
        match parseExponent r with
        | None => None
        | Some e => Some (decimalToDouble neg m (e - frac))
        end
    end.

End DoubleParse.

(** ** PriceUtils *)

Module PriceUtils.

(** The code units [RegExp(r'[^d.]')] does not match: the letter [d] and
    the point. *)
Definition keptByPattern (c : N) : bool := ((c =? 100) || (c =? 46))%N.

(** [parsePrice]: "Remove all currency symbols and non-numeric characters
    except decimal point", with the pattern as it is written, then
    [double.tryParse(numericString) ?? 0.0]. *)
Definition parsePrice (priceString : DString) : float :=
  if DartString.isEmpty priceString then 0%float
  else
    let numericString := filter keptByPattern priceString in
    match DoubleParse.tryParse numericString with
    | Some v => v
    | None => 0%float
    end.

Definition rupee : DString := [0x20B9%N].
Definition dollar : DString := str "$".
Definition euro : DString := [0x20AC%N].
Definition pound : DString := [0xA3%N].
Definition yen : DString := [0xA5%N].
Definition won : DString := [0x20A9%N].
Definition ruble : DString := [0x20BD%N].
Definition naira : DString := [0x20A6%N].
Definition rupeeSign : DString := [0x20A8%N].

(** The symbols [detectCurrency] looks for, in its order. *)
Definition currencySymbols : list DString :=
  [rupee; dollar; euro; pound; yen; won; ruble; naira; rupeeSign].

(** [detectCurrency]: the first symbol of the list the string contains,
    "Default to dollar". *)
Definition detectCurrency (priceString : DString) : DString :=
  if DartString.contains priceString rupee then rupee
  else if DartString.contains priceString dollar then dollar
  else if DartString.contains priceString euro then euro
  else if DartString.contains priceString pound then pound
  else if DartString.contains priceString yen then yen
  else if DartString.contains priceString won then won
  else if DartString.contains priceString ruble then ruble
  else if DartString.contains priceString naira then naira
  else if DartString.contains priceString rupeeSign then rupeeSign
  else dollar.

(** [calculateTax]: [subtotal * (taxRate / 100)]. *)
Definition calculateTax (subtotal taxRate : float) : float :=
  (subtotal * (taxRate / 100))%float.

(** [calculateDiscountPrice] *)
Definition calculateDiscountPrice (originalPrice discountPercentage : float)
  : float :=
  (originalPrice * (1 - discountPercentage / 100))%float.

(** [calculateTotal]: [prices.fold(0.0, (sum, price) => sum + price)]. *)
Definition calculateTotal (prices : list float) : float :=
  fold_left (fun sum price => (sum + price)%float) prices 0%float.

(** [applyShipping] with [freeShippingThreshold = 100.0]. *)
Definition applyShipping (total shippingFee : float) : float :=
  if PrimFloat.leb 100 total then total else (total + shippingFee)%float.

End PriceUtils.

(** ** Results of calls *)

(** What a call that can throw does: the errors are the ones the modelled
    code raises. *)
Inductive DartError :=
| StateError_NoElement
| StateError_StreamClosed
| TypeError
| NoSuchMethodError
| RangeError
| FormatException
| ClientException
| Exception_InvalidResponseFormat
| Exception_HTTP (statusCode : Z).

Inductive Outcome (A : Type) :=
| Returns (a : A)
| Throws (e : DartError).

Arguments Returns {A} a.
Arguments Throws {A} e.

Definition bind {A B : Type} (r : Outcome A) (k : A -> Outcome B)
  : Outcome B :=
  match r with
  | Returns a => k a
  | Throws e => Throws e
  end.

Notation "x <- r ;; k" := (bind r (fun x => k))
  (at level 61, r at next level, right associativity).

(** A loop body run over a list, stopping at the first throw. *)
Fixpoint forEach {A S : Type} (body : S -> A -> Outcome S) (l : list A)
  (acc : S) : Outcome S :=
  match l with
  | [] => Returns acc
  | a :: l' => acc' <- body acc a ;; forEach body l' acc'
  end.

(** ** Cart *)

Module CartItem.

(** [class CartItem]. *)
Record t := mk {
  id : DString;
  name : DString;
  price : float;
  discountPrice : float;
  quantity : Z;
  image : option DString
}.

(** [effectivePrice => discountPrice > 0 ? discountPrice : price] *)
Definition effectivePrice (i : t) : float :=
  if double_gt (discountPrice i) 0 then discountPrice i else price i.

(** [totalPrice => effectivePrice * quantity] *)
Definition totalPrice (i : t) : float :=
  (effectivePrice i * int_to_double (quantity i))%float.

(** The same object after [quantity = q]. *)
Definition set_quantity (q : Z) (i : t) : t :=
  mk (id i) (name i) (price i) (discountPrice i) q (image i).

End CartItem.

Module CartManager.

(** The fields of [class CartManager]; [notifyListeners()] only runs the
    registered UI callbacks and is not part of the manager's state. *)
Record t := mk {
  items : list CartItem.t;
  gstPercentage : float;
  discountPercentage : float
}.

(** A fresh manager: [_items = []], [_gstPercentage = 18.0],
    [_discountPercentage = 0.0]. *)
Definition init : t := mk [] 18 0.

Definition with_items (m : t) (l : list CartItem.t) : t :=
  mk l (gstPercentage m) (discountPercentage m).

(** [updateGSTPercentage] *)
Definition updateGSTPercentage (percentage : float) (m : t) : t :=
  mk (items m) percentage (discountPercentage m).

(** [updateDiscountPercentage] *)
Definition updateDiscountPercentage (percentage : float) (m : t) : t :=
  mk (items m) (gstPercentage m) percentage.

(** [_items.indexWhere((i) => i.id == id)], as the position of the first
    match if there is one (Dart returns -1 for none). *)
Fixpoint indexWhere (key : DString) (l : list CartItem.t) : option nat :=
  match l with
  | [] => None
  | i :: l' =>
      if DartString.eqb (CartItem.id i) key then Some O
      else option_map S (indexWhere key l')
  end.

(** [_items[k].quantity += n] *)
Fixpoint add_quantity_at (k : nat) (n : Z) (l : list CartItem.t)
  : list CartItem.t :=
  match l, k with
  | [], _ => []
  | i :: l', O =>
      CartItem.set_quantity (int_add (CartItem.quantity i) n) i :: l'
  | i :: l', S k' => i :: add_quantity_at k' n l'
  end.

(** [addItem]: no test on the quantity already in the cart. *)
Definition addItem (item : CartItem.t) (m : t) : t :=
  match indexWhere (CartItem.id item) (items m) with
  | Some existingIndex =>
      with_items m
        (add_quantity_at existingIndex (CartItem.quantity item) (items m))
  | None => with_items m (items m ++ [item])
  end.

(** [removeItem]: [_items.removeWhere((item) => item.id == id)]. *)
Definition removeItem (key : DString) (m : t) : t :=
  with_items m
    (filter (fun i => negb (DartString.eqb (CartItem.id i) key)) (items m)).

(** The list after [firstWhere((i) => i.id == id).quantity = q], or
    [None] when no line matches. *)
Fixpoint set_first (key : DString) (q : Z) (l : list CartItem.t)
  : option (list CartItem.t) :=
  match l with
  | [] => None
  | i :: l' =>
      if DartString.eqb (CartItem.id i) key
      then Some (CartItem.set_quantity q i :: l')
      else option_map (cons i) (set_first key q l')
  end.

(** [updateQuantity]: [firstWhere] without [orElse] throws a
    [StateError] when no line has the id, before anything is written. *)
Definition updateQuantity (key : DString) (q : Z) (m : t) : Outcome t :=
  match set_first key q (items m) with
  | Some l => Returns (with_items m l)
  | None => Throws StateError_NoElement
  end.

(** [clear] and [clearCart] *)
Definition clear (m : t) : t := with_items m [].
Definition clearCart (m : t) : t := clear m.

(** [subtotal]: [_items.fold(0.0, (sum, item) => sum + item.totalPrice)] *)
Definition subtotal (m : t) : float :=
  fold_left (fun sum item => (sum + CartItem.totalPrice item)%float)
    (items m) 0%float.

(** [totalDiscount] *)
Definition totalDiscount (m : t) : float :=
  fold_left
    (fun sum item =>
       (sum + (CartItem.price item - CartItem.effectivePrice item)
              * int_to_double (CartItem.quantity item))%float)
    (items m) 0%float.

(** [gstAmount] *)
Definition gstAmount (m : t) : float :=
  PriceUtils.calculateTax (subtotal m) (gstPercentage m).

(** [finalTotal] *)
Definition finalTotal (m : t) : float := (subtotal m + gstAmount m)%float.

(** [totalWithTax], with its fixed 8% rate. *)
Definition totalWithTax (m : t) : float :=
  (subtotal m + PriceUtils.calculateTax (subtotal m) 8)%float.

(** Modelled from the spec: the getter [totalQuantity], which the cart
    page reads but [class CartManager] does not declare; the spec's
    aggregate quantity across all lines. *)
Definition totalQuantity (m : t) : Z :=
  fold_left (fun sum item => int_add sum (CartItem.quantity item))
    (items m) 0.

End CartManager.

(** ** Wishlist *)

Module WishlistItem.

(** [class WishlistItem]. *)
Record t := mk {
  id : DString;
  name : DString;
  price : float;
  discountPrice : float;
  image : option DString;
  currencySymbol : DString
}.

End WishlistItem.

Module WishlistManager.

(** [_items] of [class WishlistManager]. *)
Definition t := list WishlistItem.t.

Definition init : t := [].

(** [isInWishlist]: [_items.any((item) => item.id == id)]. *)
Definition isInWishlist (key : DString) (w : t) : bool :=
  existsb (fun i => DartString.eqb (WishlistItem.id i) key) w.

(** [addItem]: appended only when no entry has the id. *)
Definition addItem (item : WishlistItem.t) (w : t) : t :=
  if negb (existsb (fun i =>
                      DartString.eqb (WishlistItem.id i) (WishlistItem.id item))
             w)
  then w ++ [item]
  else w.

(** [removeItem]: [_items.removeWhere((item) => item.id == id)]. *)
Definition removeItem (key : DString) (w : t) : t :=
  filter (fun i => negb (DartString.eqb (WishlistItem.id i) key)) w.

(** [clear], [clearCart] and [clearWishlist] *)
Definition clear (w : t) : t := [].
Definition clearWishlist (w : t) : t := clear w.

(** Modelled from the spec: [toggleWishlist], the heart button's handler,
    which is not among the source files; "add if absent, remove if
    present", over the manager's own operations. *)
Definition toggleWishlist (item : WishlistItem.t) (w : t) : t :=
  if isInWishlist (WishlistItem.id item) w
  then removeItem (WishlistItem.id item) w
  else addItem item w.

(** The operations a session applies to its wishlist. *)
Inductive op :=
| Add (item : WishlistItem.t)
| Remove (key : DString)
| Clear
| Toggle (item : WishlistItem.t).

Definition apply (o : op) (w : t) : t :=
  match o with
  | Add item => addItem item w
  | Remove key => removeItem key w
  | Clear => clear w
  | Toggle item => toggleWishlist item w
  end.

(** The wishlist after a session's operations, oldest first, from the
    empty list the manager is created with. *)
Definition run (ops : list op) : t :=
  fold_left (fun w o => apply o w) ops init.

Definition ids (w : t) : list DString := List.map WishlistItem.id w.

End WishlistManager.

(** ** The cart page's quantity controls and the wishlist page's cart
    button ([_buildCartPage], [_buildWishlistPage]) *)

Module CartPage.

Definition removedMessage : DString := str "Item removed from cart".
Definition limitMessage : DString := str "Only have 10 products allowed".
Definition addedMessage : DString := str "Added to cart".

(** A handler's effect: the manager afterwards and the snack bar shown. *)
Definition Effect : Type := (CartManager.t * option DString)%type.

Definition silently (r : Outcome CartManager.t) : Outcome Effect :=
  match r with
  | Returns m => Returns (m, None)
  | Throws e => Throws e
  end.

(** The decrease button of the line [item]. *)
Definition onDecreaseTap (item : CartItem.t) (m : CartManager.t)
  : Outcome Effect :=
  if 1 <? CartItem.quantity item
  then silently
         (CartManager.updateQuantity (CartItem.id item)
            (int_sub (CartItem.quantity item) 1) m)
  else Returns (CartManager.removeItem (CartItem.id item) m,
                Some removedMessage).

(** The increase button of the line [item]: "Check if adding this item
    would exceed the 10 product limit". *)
Definition onIncreaseTap (item : CartItem.t) (m : CartManager.t)
  : Outcome Effect :=
  if CartManager.totalQuantity m <? 10
  then silently
         (CartManager.updateQuantity (CartItem.id item)
            (int_add (CartItem.quantity item) 1) m)
  else Returns (m, Some limitMessage).

(** The cart button of a wishlist entry: a [CartItem] with the default
    quantity 1 goes to [addItem]. *)
Definition onMoveToCartTap (item : WishlistItem.t) (m : CartManager.t)
  : Effect :=
  (CartManager.addItem
     (CartItem.mk (WishlistItem.id item) (WishlistItem.name item)
        (WishlistItem.price item) (WishlistItem.discountPrice item) 1
        (WishlistItem.image item)) m,
   Some addedMessage).

End CartPage.

(** ** Dynamic values *)

Module Dyn.

(** What [json.decode] produces and socket payloads carry. A number
    keeps the text its [toString()] gives; a map keeps its entries in
    order, and its keys are strings. *)
Inductive t :=
| DNull
| DBool (b : bool)
| DNum (shown : DString)
| DStr (s : DString)
| DList (l : list t)
| DMap (m : list (DString * t)).

(** [Map<String, dynamic>] *)
Definition map : Type := list (DString * t).

(** [m[key]] on a map: the value of the entry, [null] without one. *)
Fixpoint lookup (key : DString) (m : map) : t :=
  match m with
  | [] => DNull
  | (k, v) :: m' => if DartString.eqb k key then v else lookup key m'
  end.

(** [d[key]] on a [dynamic] receiver with a string key: a map answers
    it; a list and a string have [operator []] for an [int] index and
    reject the key with a [TypeError]; [null], a number and a bool have
    no [operator []], a [NoSuchMethodError]. *)
Definition index (d : t) (key : DString) : Outcome t :=
  match d with
  | DMap m => Returns (lookup key m)
  | DList _ | DStr _ => Throws TypeError
  | DNull | DBool _ | DNum _ => Throws NoSuchMethodError
  end.

Definition isNull (d : t) : bool :=
  match d with DNull => true | _ => false end.

(** [d is Map] and [d is List] *)
Definition isMap (d : t) : bool :=
  match d with DMap _ => true | _ => false end.

Definition isList (d : t) : bool :=
  match d with DList _ => true | _ => false end.

(** [d == true] *)
Definition isTrue (d : t) : bool :=
  match d with DBool true => true | _ => false end.

(** [a ?? b] *)
Definition orElse (a b : t) : t :=
  match a with DNull => b | _ => a end.

(** [d == s] for a string [s]. *)
Definition eqStr (d : t) (s : DString) : bool :=
  match d with DStr s' => DartString.eqb s' s | _ => false end.

(** [d.toString()] *)
Fixpoint toString (d : t) : DString :=
  match d with
  | DNull => str "null"
  | DBool b => if b then str "true" else str "false"
  | DNum shown => shown
  | DStr s => s
  | DList l =>
      str "["
      ++ (fix elements (l : list t) : DString :=
            match l with
            | [] => []
            | x :: l' =>
                match l' with
                | [] => toString x
                | _ :: _ => toString x ++ str ", " ++ elements l'
                end
            end) l
      ++ str "]"
  | DMap m =>
      str "{"
      ++ (fix entries (m : list (DString * t)) : DString :=
            match m with
            | [] => []
            | (k, v) :: m' =>
                match m' with
                | [] => k ++ str ": " ++ toString v
                | _ :: _ => k ++ str ": " ++ toString v ++ str ", "
                              ++ entries m'
                end
            end) m
      ++ str "}"
  end.

(** [Map<String, dynamic>.from(d)] *)
Definition mapFrom (d : t) : Outcome map :=
  match d with
  | DMap m => Returns m
  | _ => Throws TypeError
  end.

(** [List<Map<String, dynamic>>.from(d)]: [d] must be a list and every
    element a map. *)
Definition listOfMapsFrom (d : t) : Outcome (list map) :=
  match d with
  | DList l =>
      forEach (fun acc x => match x with
                            | DMap m => Returns (acc ++ [m])
                            | _ => Throws TypeError
                            end) l []
  | _ => Throws TypeError
  end.

(** The elements a [for (var x in d)] visits. *)
Definition iterate (d : t) : Outcome (list t) :=
  match d with
  | DList l => Returns l
  | _ => Throws TypeError
  end.

End Dyn.

Import Dyn.

(** ** Realtime transport *)

(** What the socket delivers to its listeners. *)
Inductive SocketInput :=
| SocketConnect
| SocketDisconnect
| SocketEvent (kind : DString) (data : Dyn.t).

Module ApiService.

(** The realtime part of [class ApiService]: whether a socket exists,
    [_isConnected], whether [_realTimeUpdateController] has been closed
    (by [dispose]), and what has been added to it. *)
Record t := mk {
  socket : bool;
  isConnected : bool;
  controllerClosed : bool;
  realTimeUpdates : list Dyn.t
}.

(** [_realTimeUpdateController.add(update)]: a closed controller throws
    "Cannot add new events after calling close". *)
Definition add (update : Dyn.t) (s : t) : Outcome t :=
  if controllerClosed s then Throws StateError_StreamClosed
  else Returns (mk (socket s) (isConnected s) (controllerClosed s)
                  (realTimeUpdates s ++ [update])).

(** The event kinds [_setupSocketListeners] forwards to the stream. *)
Definition forwardedKinds : list DString :=
  [ str "dynamic-update"; str "admin-specific-update"; str "splash-screen";
    str "home-page"; str "app-info"; str "test-update";
    str "configuration-update" ].

Definition forwards (kind : DString) : bool :=
  existsb (DartString.eqb kind) forwardedKinds.

(** The listeners of [_setupSocketListeners]: the seven kinds add
    [Map<String, dynamic>.from(data)] to the stream; [room-joined] and
    [test-response] only print. *)
Definition onSocket (i : SocketInput) (s : t) : Outcome t :=
  if negb (socket s) then Returns s
  else
    match i with
    | SocketConnect =>
        Returns (mk (socket s) true (controllerClosed s) (realTimeUpdates s))
    | SocketDisconnect =>
        Returns (mk (socket s) false (controllerClosed s) (realTimeUpdates s))
    | SocketEvent kind data =>
        if forwards kind
        then m <- Dyn.mapFrom data ;; add (DMap m) s
        else Returns s
    end.

End ApiService.

Module DynamicAppSync.

(** [class DynamicAppSync]: whether [_socket] is set, [_isConnected],
    [_adminId], and whether [_updateController] is closed. *)
Record t := mk {
  socket : bool;
  isConnected : bool;
  adminId : option DString;
  controllerClosed : bool
}.

Definition init : t := mk false false None false.

(** [connect]: a socket is created and [_setupSocketListeners] runs,
    unless one is connected already. *)
Definition connect (admin : option DString) (s : t) : t :=
  if isConnected s && socket s then s
  else mk true (isConnected s) admin (controllerClosed s).

(** [_handleUpdate] *)
Definition handleUpdate (update : Dyn.t) (s : t) : option Dyn.t :=
  if negb (controllerClosed s) then Some update else None.

(** The listeners of [_setupSocketListeners]: the state afterwards and
    the update added to [_updateController], if any. Only
    [dynamic-update] and [home-page] have a listener. *)
Definition onSocket (i : SocketInput) (s : t)
  : Outcome (t * option Dyn.t) :=
  if negb (socket s) then Returns (s, None)
  else
    match i with
    | SocketConnect =>
        Returns (mk (socket s) true (adminId s) (controllerClosed s), None)
    | SocketDisconnect =>
        Returns (mk (socket s) false (adminId s) (controllerClosed s), None)
    | SocketEvent kind data =>
        if DartString.eqb kind (str "dynamic-update")
        then
          if negb (controllerClosed s)
          then m <- Dyn.mapFrom data ;; Returns (s, Some (DMap m))
          else Returns (s, None)
        else if DartString.eqb kind (str "home-page")
        then Returns (s, handleUpdate
                           (DMap [(str "type", DStr (str "home-page"));
                                  (str "data", data)]) s)
        else Returns (s, None)
    end.

(** [disconnect] and [dispose] *)
Definition disconnect (s : t) : t :=
  mk false false (adminId s) (controllerClosed s).

Definition dispose (s : t) : t :=
  mk false false (adminId s) true.

End DynamicAppSync.

(** ** Product data reload ([loadDynamicProductData],
    [startRealTimeUpdates]) *)

(** How a [GET /api/get-form] ends: [http.get] throws, or a response
    arrives with a status code and a body; the body is given as the value
    [json.decode] makes of it, [None] when it is not JSON. *)
Inductive HttpResult :=
| RequestFails
| Response (statusCode : Z) (body : option Dyn.t).

Module Sync.

(** The top-level variables [productCards], [isLoading] and
    [errorMessage], the [DynamicAppSync] singleton, whether
    [_updateSubscription] listens, [mounted], and the requests: how many
    are waiting for their response and how many were sent in all. *)
Record t := mk {
  productCards : list Dyn.map;
  isLoading : bool;
  errorMessage : option DartError;
  appSync : DynamicAppSync.t;
  subscribed : bool;
  mounted : bool;
  inFlight : nat;
  requestsSent : nat
}.

Definition created : t :=
  mk [] true None DynamicAppSync.init false true 0 0.

Definition with_appSync (a : DynamicAppSync.t) (s : t) : t :=
  mk (productCards s) (isLoading s) (errorMessage s) a (subscribed s)
    (mounted s) (inFlight s) (requestsSent s).

(** [loadDynamicProductData] up to its request: [isLoading = true],
    [errorMessage = null], and the [GET] is sent. Nothing is tested
    before sending. *)
Definition loadDynamicProductData (s : t) : t :=
  mk (productCards s) true None (appSync s) (subscribed s) (mounted s)
    (S (inFlight s)) (S (requestsSent s)).

(** The product cards of the widgets of one page. *)
Definition productsOfPage (acc : list Dyn.map) (page : Dyn.t)
  : Outcome (list Dyn.map) :=
  widgets <- Dyn.index page (str "widgets") ;;
  if Dyn.isNull widgets then Returns acc
  else
    ws <- Dyn.iterate widgets ;;
    forEach
      (fun acc widget =>
         properties <- Dyn.index widget (str "properties") ;;
         if Dyn.isNull properties then Returns acc
         else
           cards <- Dyn.index properties (str "productCards") ;;
           if Dyn.isNull cards then Returns acc
           else
             products <- Dyn.listOfMapsFrom cards ;;
             Returns (acc ++ products))
      ws acc.

(** The body of the [try] after the response: the new product list, or
    what is thrown. *)
Definition newProducts (r : HttpResult) : Outcome (list Dyn.map) :=
  match r with
  | RequestFails => Throws ClientException
  | Response statusCode body =>
      if statusCode =? 200
      then
        match body with
        | None => Throws FormatException
        | Some data =>
            success <- Dyn.index data (str "success") ;;
            if Dyn.isTrue success
            then
              pages <- Dyn.index data (str "pages") ;;
              match pages with
              | DNull => Throws Exception_InvalidResponseFormat
              | DList l => forEach productsOfPage l []
              | _ => Throws TypeError
              end
            else Throws Exception_InvalidResponseFormat
        end
      else Throws (Exception_HTTP statusCode)
  end.

(** The rest of [loadDynamicProductData] when its response is there:
    the products are replaced, or the [catch] records the error. A
    response without a waiting request does not occur. *)
Definition completeLoad (r : HttpResult) (s : t) : t :=
  match inFlight s with
  | O => s
  | S n =>
      match newProducts r with
      | Returns products =>
          mk products false (errorMessage s) (appSync s) (subscribed s)
            (mounted s) n (requestsSent s)
      | Throws e =>
          mk (productCards s) false (Some e) (appSync s) (subscribed s)
            (mounted s) n (requestsSent s)
      end
  end.

(** [update['type']?.toString().toLowerCase()] *)
Definition updateType (update : Dyn.t) : option DString :=
  match update with
  | DMap m =>
      match Dyn.lookup (str "type") m with
      | DNull => None
      | v => Some (DartString.toLowerCase (Dyn.toString v))
      end
  | _ => None
  end.

(** The [switch (type)] of the subscription: the two cases that call
    [loadDynamicProductData]. *)
Definition reloads (type : option DString) : bool :=
  match type with
  | Some ty =>
      DartString.eqb ty (str "home-page")
      || DartString.eqb ty (str "dynamic-update")
  | None => false
  end.

(** The listener of [_appSync.updates]. *)
Definition onUpdate (update : Dyn.t) (s : t) : t :=
  if negb (mounted s) then s
  else if reloads (updateType update) then loadDynamicProductData s
  else s.

(** [startRealTimeUpdates]: [getCurrentAdminId] gives the admin id built
    into the app, the singleton connects, and the listener is
    registered. *)
Definition startRealTimeUpdates (admin : DString) (s : t) : t :=
  mk (productCards s) (isLoading s) (errorMessage s)
    (DynamicAppSync.connect (Some admin) (appSync s)) true (mounted s)
    (inFlight s) (requestsSent s).

(** [initState] *)
Definition initState (admin : DString) (s : t) : t :=
  startRealTimeUpdates admin (loadDynamicProductData s).

(** [dispose] *)
Definition dispose (s : t) : t :=
  mk (productCards s) (isLoading s) (errorMessage s)
    (DynamicAppSync.dispose (appSync s)) false false (inFlight s)
    (requestsSent s).

(** What happens to the page from outside. *)
Inductive Input :=
| FromSocket (i : SocketInput)
| FromServer (r : HttpResult).

(** One input: a socket input goes through [DynamicAppSync]'s listeners
    and, when they add an update to the stream and the page listens, to
    [onUpdate]; a listener that throws leaves everything as it was. *)
Definition step (s : t) (i : Input) : t :=
  match i with
  | FromSocket si =>
      match DynamicAppSync.onSocket si (appSync s) with
      | Throws _ => s
      | Returns (a, None) => with_appSync a s
      | Returns (a, Some update) =>
          if subscribed s then onUpdate update (with_appSync a s)
          else with_appSync a s
      end
  | FromServer r => completeLoad r s
  end.

Definition run (s : t) (inputs : list Input) : t :=
  fold_left step inputs s.

(** The socket event of a kind, with a payload. *)
Definition event (kind : DString) (data : Dyn.t) : Input :=
  FromSocket (SocketEvent kind data).

End Sync.

(** ** The home page ([_HomePageState]) *)

(** [Color], as its 32-bit ARGB value. *)
Definition Color : Type := Z.

Definition Colors_blue : Color := 0xFF2196F3.
Definition Colors_white : Color := 0xFFFFFFFF.
Definition Colors_white70 : Color := 0xB3FFFFFF.
Definition Colors_black : Color := 0xFF000000.
Definition Colors_orange : Color := 0xFFFF9800.
Definition Colors_grey_shade300 : Color := 0xFFE0E0E0.
Definition Colors_grey_shade600 : Color := 0xFF757575.
Definition Colors_grey_shade700 : Color := 0xFF616161.

(** What a widget descriptor resolves to when its case returns. For the
    names the [switch] knows, the [Container] the case returns is kept
    as the case and the property bag it was built from;
    [SizedBoxShrink] is [SizedBox.shrink()], the empty box. *)
Inductive RenderUnit :=
| SizedBoxShrink
| HeaderWidget (props : Dyn.map)
| HeroBannerWidget (props : Dyn.map)
| ProductSearchBarWidget (props : Dyn.map)
| DynamicProductGrid (props : Dyn.map)
| StoreInfoWidget (props : Dyn.map)
| ImageSliderWidget (props : Dyn.map)
| ProductDescriptionWidget (props : Dyn.map)
| SmallCardWidget (props : Dyn.map).

(** The session-local fields and the configuration fields of
    [_HomePageState]. *)
Record HomePageState := mkHomePageState {
  currentPageIndex : Z;
  cartManager : CartManager.t;
  wishlistManager : WishlistManager.t;
  cartNotificationCount : Z;
  wishlistNotificationCount : Z;
  searchQuery : DString;
  filteredProducts : list Dyn.map;
  dynamicProductCards : list Dyn.map;
  homeIsLoading : bool;
  homeWidgets : list Dyn.map;
  dynamicStoreInfo : Dyn.map;
  dynamicDesignSettings : Dyn.map;
  pageBackgroundColor : Color;
  homeMounted : bool
}.

(** What [_loadDynamicAppConfig] takes from a successful response. *)
Record ConfigDocument := mkConfigDocument {
  extractedProducts : list Dyn.map;
  extractedWidgets : list Dyn.map;
  storeInfo : Dyn.map;
  designSettings : Dyn.map;
  pageProps : Dyn.map
}.

Section HomePage.

(** The SDK's [int.parse], [None] for its [FormatException]. *)
Variable intParse : DString -> option Z.

(** The top-level [productCards], the fallback product list. *)
Variable productCards : list Dyn.map.

(** The SDK's [List.sort], from the comparator and the list to the
    sorted list. *)
Variable listSort :
  (Dyn.map -> Dyn.map -> Z) -> list Dyn.map -> list Dyn.map.

(** The SDK's [String.toLowerCase]. *)
Variable toLowerCase : DString -> DString.

(** The SDK's [base64Decode], [None] for its [FormatException]. *)
Variable base64Decode : DString -> option (list N).

(** The fields of a new [_HomePageState] after [initState], before the
    first load answers. *)
Definition homeCreated : HomePageState :=
  mkHomePageState 0 CartManager.init WishlistManager.init 0 0 []
    productCards productCards true [] [] [] Colors_white true.

(** [_colorFromHex] *)
Definition colorFromHex (hexColor : option DString) : Color :=
  match hexColor with
  | None => Colors_blue
  | Some hex =>
      if DartString.isEmpty hex then Colors_blue
      else
        let stripped :=
          filter (fun c => negb (c =? 35)%N) (DartString.toUpperCase hex) in
        let parse (digits : DString) :=
          match intParse (str "0x" ++ digits) with
          | Some v => v
          | None => Colors_blue
          end in
        if (List.length stripped =? 6)%nat then parse (str "FF" ++ stripped)
        else if (List.length stripped =? 8)%nat then parse stripped
        else Colors_blue
  end.

(** [(product[key] ?? '').toString().toLowerCase()] *)
Definition fieldLower (key : DString) (product : Dyn.map) : DString :=
  toLowerCase
    (Dyn.toString (Dyn.orElse (Dyn.lookup key product) (DStr []))).

(** The test of [_filterProducts] on one product. *)
Definition matchesQuery (query : DString) (product : Dyn.map) : bool :=
  let searchLower := toLowerCase query in
  DartString.contains (fieldLower (str "productName") product) searchLower
  || DartString.contains (fieldLower (str "price") product) searchLower
  || DartString.contains (fieldLower (str "discountPrice") product)
       searchLower.

Definition with_products (cards filtered : list Dyn.map) (query : DString)
  (st : HomePageState) : HomePageState :=
  mkHomePageState (currentPageIndex st) (cartManager st)
    (wishlistManager st) (cartNotificationCount st)
    (wishlistNotificationCount st) query filtered cards (homeIsLoading st)
    (homeWidgets st) (dynamicStoreInfo st) (dynamicDesignSettings st)
    (pageBackgroundColor st) (homeMounted st).

(** [_filterProducts] *)
Definition filterProducts (query : DString) (st : HomePageState)
  : HomePageState :=
  with_products (dynamicProductCards st)
    (if DartString.isEmpty query then dynamicProductCards st
     else filter (matchesQuery query) (dynamicProductCards st))
    query st.

Definition with_isLoading (b : bool) (st : HomePageState) : HomePageState :=
  mkHomePageState (currentPageIndex st) (cartManager st)
    (wishlistManager st) (cartNotificationCount st)
    (wishlistNotificationCount st) (searchQuery st) (filteredProducts st)
    (dynamicProductCards st) b (homeWidgets st) (dynamicStoreInfo st)
    (dynamicDesignSettings st) (pageBackgroundColor st) (homeMounted st).

(** [(w['name'] ?? '').toString()] *)
Definition widgetName (w : Dyn.map) : DString :=
  Dyn.toString (Dyn.orElse (Dyn.lookup (str "name") w) (DStr [])).

(** The widgets whose product cards are collected. *)
Definition carriesProducts (w : Dyn.map) : bool :=
  let name := widgetName w in
  DartString.eqb name (str "ProductGridWidget")
  || DartString.eqb name (str "Catalog View Card")
  || DartString.eqb name (str "Product Detail Card").

(** [a['name'] == 'HeaderWidget'] *)
Definition isHeader (w : Dyn.map) : bool :=
  Dyn.eqStr (Dyn.lookup (str "name") w) (str "HeaderWidget").

(** The comparator given to [extractedWidgets.sort], "to ensure
    HeaderWidget appears first". *)
Definition compareHeaderFirst (a b : Dyn.map) : Z :=
  let aIsHeader := isHeader a in
  let bIsHeader := isHeader b in
  if aIsHeader && negb bIsHeader then -1
  else if negb aIsHeader && bIsHeader then 1
  else 0.

(** The first page, when there is one and it is a map. *)
Definition firstPage (pages : list Dyn.t) : option Dyn.map :=
  match pages with
  | DMap page :: _ => Some page
  | _ => None
  end.

Definition mapOrEmpty (d : Dyn.t) : Dyn.map :=
  match d with DMap m => m | _ => [] end.

(** The [try] of [_loadDynamicAppConfig] from the response to its
    [setState]: [None] when the status is not 200 or [success] is not
    true, where the function does nothing. *)
Definition decodeConfig (r : HttpResult) : Outcome (option ConfigDocument) :=
  match r with
  | RequestFails => Throws ClientException
  | Response statusCode body =>
      if statusCode =? 200
      then
        match body with
        | None => Throws FormatException
        | Some data =>
            success <- Dyn.index data (str "success") ;;
            if Dyn.isTrue success
            then
              pagesRaw <- Dyn.index data (str "pages") ;;
              let pages :=
                match pagesRaw with DList l => l | _ => [] end in
              let props :=
                match firstPage pages with
                | Some page => mapOrEmpty (Dyn.lookup (str "properties") page)
                | None => []
                end in
              widgets <-
                match firstPage pages with
                | Some page =>
                    match Dyn.lookup (str "widgets") page with
                    | DList l => Dyn.listOfMapsFrom (DList l)
                    | _ => Returns []
                    end
                | None => Returns []
                end ;;
              products <-
                forEach
                  (fun acc w =>
                     if carriesProducts w
                     then
                       match Dyn.lookup (str "properties") w with
                       | DMap wprops =>
                           match Dyn.lookup (str "productCards") wprops with
                           | DList l =>
                               cards <- Dyn.listOfMapsFrom (DList l) ;;
                               Returns (acc ++ cards)
                           | _ => Returns acc
                           end
                       | _ => Returns acc
                       end
                     else Returns acc)
                  widgets [] ;;
              info <- Dyn.index data (str "storeInfo") ;;
              design <- Dyn.index data (str "designSettings") ;;
              Returns
                (Some (mkConfigDocument products
                         (listSort compareHeaderFirst widgets)
                         (mapOrEmpty info) (mapOrEmpty design) props))
            else Returns None
        end
      else Returns None
  end.

(** [props['backgroundColor']?.toString()] *)
Definition backgroundOf (props : Dyn.map) : option DString :=
  match Dyn.lookup (str "backgroundColor") props with
  | DNull => None
  | v => Some (Dyn.toString v)
  end.

(** The [setState] of a successful load: the configuration fields are
    replaced and the current filter is applied again. *)
Definition replaceConfig (doc : ConfigDocument) (st : HomePageState)
  : HomePageState :=
  let cards :=
    match extractedProducts doc with
    | [] => productCards
    | _ :: _ => extractedProducts doc
    end in
  let st1 :=
    filterProducts (searchQuery st)
      (with_products cards (filteredProducts st) (searchQuery st) st) in
  mkHomePageState (currentPageIndex st1) (cartManager st1)
    (wishlistManager st1) (cartNotificationCount st1)
    (wishlistNotificationCount st1) (searchQuery st1) (filteredProducts st1)
    (dynamicProductCards st1) false (extractedWidgets doc) (storeInfo doc)
    (designSettings doc) (colorFromHex (backgroundOf (pageProps doc)))
    (homeMounted st1).

(** [_loadDynamicAppConfig] once the response is there. *)
Definition loadDynamicAppConfig (r : HttpResult) (st : HomePageState)
  : HomePageState :=
  match decodeConfig r with
  | Returns (Some doc) => replaceConfig doc st
  | Returns None => st
  | Throws _ => with_isLoading false st
  end.

(** [_loadDynamicData], before and after the request. *)
Definition loadDynamicDataStart (st : HomePageState) : HomePageState :=
  with_isLoading true st.

Definition loadDynamicDataFinish (r : HttpResult) (st : HomePageState)
  : HomePageState :=
  let st' := loadDynamicAppConfig r st in
  if homeMounted st' then with_isLoading false st' else st'.

Definition loadDynamicData (r : HttpResult) (st : HomePageState)
  : HomePageState :=
  loadDynamicDataFinish r (loadDynamicDataStart st).

(** The names the [switch] of [_buildHomeWidgetFromConfig] has a case
    for. *)
Definition knownWidgetNames : list DString :=
  [ str "HeaderWidget"; str "HeroBannerWidget";
    str "ProductSearchBarWidget"; str "Catalog View Card";
    str "Product Detail Card"; str "StoreInfoWidget";
    str "ImageSliderWidget"; str "ProductDescriptionWidget";
    str "SmallCardWidget" ].

(** A [dynamic] value given where a [String] is declared (the parameter
    of [_colorFromHex], the text of [Text], the source of
    [Image.network], [hintText]): the implicit cast. *)
Definition asString (d : Dyn.t) : Outcome DString :=
  match d with
  | DStr s => Returns s
  | _ => Throws TypeError
  end.

(** A [dynamic] value given where a [bool] is declared (the condition of
    an [if], an operand of [&&], [autoPlay]). *)
Definition asBool (d : Dyn.t) : Outcome bool :=
  match d with
  | DBool b => Returns b
  | _ => Throws TypeError
  end.

(** [d.isNotEmpty] on a [dynamic] receiver: strings, lists and maps have
    the getter. *)
Definition isNotEmptyOf (d : Dyn.t) : Outcome bool :=
  match d with
  | DStr s => Returns (negb (DartString.isEmpty s))
  | DList l => Returns (match l with [] => false | _ :: _ => true end)
  | DMap m => Returns (match m with [] => false | _ :: _ => true end)
  | DNull | DBool _ | DNum _ => Throws NoSuchMethodError
  end.

(** [props[key] != null ? _colorFromHex(props[key]) : fallback] *)
Definition colorOr (key : DString) (fallback : Color) (props : Dyn.map)
  : Outcome Color :=
  match Dyn.lookup key props with
  | DNull => Returns fallback
  | d => hex <- asString d ;; Returns (colorFromHex (Some hex))
  end.

(** What an image of a case shows. *)
Inductive Picture :=
| NoPicture
| ImageMemory (bytes : list N)
| ImageNetwork (src : DString).

(** [Image.memory(base64Decode(text.split(',')[1]), ...)]: the index is
    out of range when [text] has no comma. *)
Definition imageMemory (text : DString) : Outcome Picture :=
  match DartString.split 44 text with
  | _ :: part :: _ =>
      match base64Decode part with
      | Some bytes => Returns (ImageMemory bytes)
      | None => Throws FormatException
      end
  | _ => Throws RangeError
  end.

Definition isDataImage (text : DString) : bool :=
  DartString.startsWith (str "data:image/") text.

(** The logo of the header, from the string [logoAsset]. *)
Definition headerLogo (logoAsset : DString) : Outcome Picture :=
  if negb (DartString.isEmpty logoAsset)
  then
    if isDataImage logoAsset then imageMemory logoAsset
    else Returns (ImageNetwork logoAsset)
  else Returns NoPicture.

(** [d.toString().startsWith('data:image/') ? Image.memory(...)
    : Image.network(d, ...)] for a [dynamic] [d]. *)
Definition imageOf (d : Dyn.t) : Outcome Picture :=
  if isDataImage (Dyn.toString d) then imageMemory (Dyn.toString d)
  else src <- asString d ;; Returns (ImageNetwork src).

(** The same behind [d != null && d.toString().isNotEmpty]. *)
Definition imageIfGiven (d : Dyn.t) : Outcome Picture :=
  match d with
  | DNull => Returns NoPicture
  | _ =>
      if negb (DartString.isEmpty (Dyn.toString d)) then imageOf d
      else Returns NoPicture
  end.

(** The loop of the [ImageSliderWidget] case over [_homeWidgets]: the
    [sliderImages] of the first slider widget that has some. *)
Fixpoint sliderImagesOf (widgets : list Dyn.map) : Outcome (list Dyn.map) :=
  match widgets with
  | [] => Returns []
  | widget :: rest =>
      if Dyn.eqStr (Dyn.lookup (str "name") widget) (str "ImageSliderWidget")
      then
        let widgetProps :=
          Dyn.orElse (Dyn.lookup (str "properties") widget) (DMap []) in
        images <- Dyn.index widgetProps (str "sliderImages") ;;
        match images with
        | DNull => sliderImagesOf rest
        | _ => Dyn.listOfMapsFrom images
        end
      else sliderImagesOf rest
  end.

(** [_buildHomeWidgetFromConfig]: the name, the property bag (empty when
    [properties] is not a map), and the [switch]. Each case is followed
    in the order it evaluates, through everything in it that can throw:
    a [dynamic] property given where a [String] or a [bool] is declared,
    [isNotEmpty] on one, the index [1] of a [split], [base64Decode], and
    [List<Map<String, dynamic>>.from]. The locals a case reads through
    [toString()] and [tryParse] only cannot throw; the [builder]
    closures of the slider's items run later, when the framework builds
    them, and the [assert]s of the framework's constructors run in debug
    builds only: neither is part of the call. *)
Definition buildHomeWidgetFromConfig (st : HomePageState)
  (widgetData : Dyn.map) : Outcome RenderUnit :=
  let name := widgetName widgetData in
  let props := mapOrEmpty (Dyn.lookup (str "properties") widgetData) in
  if DartString.eqb name (str "HeaderWidget")
  then
    let logoAsset :=
      Dyn.toString (Dyn.orElse (Dyn.lookup (str "logoAsset") props)
                      (DStr [])) in
    _ <- colorOr (str "textColor") Colors_white props ;;
    _ <- headerLogo logoAsset ;;
    Returns (HeaderWidget props)
  else if DartString.eqb name (str "HeroBannerWidget")
  then
    let imageAsset := Dyn.lookup (str "imageAsset") props in
    let title :=
      Dyn.orElse (Dyn.lookup (str "title") props)
        (DStr (str "Welcome to Our Store!")) in
    let subtitle :=
      Dyn.orElse (Dyn.lookup (str "subtitle") props)
        (DStr (str "Shop the latest products")) in
    let buttonText :=
      Dyn.orElse (Dyn.lookup (str "buttonText") props)
        (DStr (str "Shop Now")) in
    _ <- colorOr (str "backgroundColor") Colors_blue props ;;
    _ <- colorOr (str "buttonColor") Colors_orange props ;;
    _ <- colorOr (str "buttonTextColor") Colors_white props ;;
    _ <- colorOr (str "titleColor") Colors_white props ;;
    _ <- colorOr (str "subtitleColor") Colors_white70 props ;;
    let showButton :=
      Dyn.orElse (Dyn.lookup (str "showButton") props) (DBool true) in
    let showSubtitle :=
      Dyn.orElse (Dyn.lookup (str "showSubtitle") props) (DBool true) in
    _ <- match imageAsset with
         | DNull => Returns NoPicture
         | _ => imageOf imageAsset
         end ;;
    _ <- asString title ;;
    wanted <- asBool showSubtitle ;;
    shown <- (if wanted then isNotEmptyOf subtitle else Returns false) ;;
    _ <- (if shown then asString subtitle else Returns []) ;;
    button <- asBool showButton ;;
    _ <- (if button then asString buttonText else Returns []) ;;
    Returns (HeroBannerWidget props)
  else if DartString.eqb name (str "ProductSearchBarWidget")
  then
    let placeholder :=
      Dyn.orElse (Dyn.lookup (str "placeholder") props)
        (DStr (str "Search products")) in
    _ <- colorOr (str "iconColor") Colors_grey_shade600 props ;;
    _ <- colorOr (str "textColor") Colors_black props ;;
    _ <- colorOr (str "borderColor") Colors_grey_shade300 props ;;
    _ <- colorOr (str "backgroundColor") Colors_white props ;;
    _ <- asString placeholder ;;
    Returns (ProductSearchBarWidget props)
  else if DartString.eqb name (str "Catalog View Card")
  then Returns (DynamicProductGrid props)
  else if DartString.eqb name (str "Product Detail Card")
  then Returns (DynamicProductGrid props)
  else if DartString.eqb name (str "StoreInfoWidget")
  then
    let storeLogo :=
      Dyn.orElse (Dyn.lookup (str "storeLogo") props)
        (Dyn.lookup (str "storeLogo") (dynamicStoreInfo st)) in
    _ <- colorOr (str "textColor") Colors_black props ;;
    _ <- colorOr (str "iconColor") Colors_blue props ;;
    _ <- colorOr (str "backgroundColor") 0xFFE3F2FD props ;;
    _ <- imageIfGiven storeLogo ;;
    Returns (StoreInfoWidget props)
  else if DartString.eqb name (str "ImageSliderWidget")
  then
    let autoPlay :=
      Dyn.orElse (Dyn.lookup (str "autoPlay") props) (DBool true) in
    let showIndicators :=
      Dyn.orElse (Dyn.lookup (str "showIndicators") props) (DBool true) in
    found <- sliderImagesOf (homeWidgets st) ;;
    sliderImages <-
      match found, Dyn.lookup (str "sliderImages") props with
      | _ :: _, _ | [], DNull => Returns found
      | [], images => Dyn.listOfMapsFrom images
      end ;;
    match sliderImages with
    | _ :: _ =>
        _ <- asBool autoPlay ;;
        _ <- asBool showIndicators ;;
        Returns (ImageSliderWidget props)
    | [] => Returns (ImageSliderWidget props)
    end
  else if DartString.eqb name (str "ProductDescriptionWidget")
  then
    let title :=
      Dyn.orElse (Dyn.lookup (str "descriptionTitle") props)
        (DStr (str "Description")) in
    let content :=
      Dyn.orElse (Dyn.lookup (str "descriptionContent") props) (DStr []) in
    let productImage := Dyn.lookup (str "productImage") props in
    _ <- colorOr (str "titleColor") Colors_black props ;;
    _ <- colorOr (str "contentColor") Colors_grey_shade700 props ;;
    _ <- colorOr (str "backgroundColor") Colors_white props ;;
    _ <- asString title ;;
    _ <- imageIfGiven productImage ;;
    written <- isNotEmptyOf content ;;
    _ <- (if written then asString content else Returns []) ;;
    Returns (ProductDescriptionWidget props)
  else if DartString.eqb name (str "SmallCardWidget")
  then Returns (SmallCardWidget props)
  else Returns SizedBoxShrink.

End HomePage.

(** ** The whole client: realtime reloads and home page loads *)

(** The realtime page's state and the home page's state side by side;
    the home page reads the top-level [productCards] as its fallback. *)
Record App := mkApp {
  sync : Sync.t;
  home : HomePageState
}.

(** The configuration traffic: realtime inputs, and the end of a home
    page load ([_loadDynamicData], at start-up or by pull-to-refresh). *)
Inductive AppInput :=
| Realtime (i : Sync.Input)
| HomeLoad (r : HttpResult).

Section Client.

Variable intParse : DString -> option Z.
Variable listSort :
  (Dyn.map -> Dyn.map -> Z) -> list Dyn.map -> list Dyn.map.
Variable toLowerCase : DString -> DString.

Definition appStep (a : App) (i : AppInput) : App :=
  match i with
  | Realtime ri => mkApp (Sync.step (sync a) ri) (home a)
  | HomeLoad r =>
      mkApp (sync a)
        (loadDynamicData intParse (Sync.productCards (sync a)) listSort
           toLowerCase r (home a))
  end.

Definition appRun (a : App) (inputs : list AppInput) : App :=
  fold_left appStep inputs a.

End Client.

(** ** SDK functions of the examples *)

(** The value of a hexadecimal digit. *)
Definition hexDigit (c : N) : option Z :=
  if (48 <=? c)%N && (c <=? 57)%N then Some (Z.of_N c - 48)
  else if (65 <=? c)%N && (c <=? 70)%N then Some (Z.of_N c - 55)
  else if (97 <=? c)%N && (c <=? 102)%N then Some (Z.of_N c - 87)
  else None.

(** [int.parse] on [0x] followed by hexadecimal digits, which is what
    [_colorFromHex] gives it for a well-formed colour; [None], the
    [FormatException], where a code unit is no such digit. *)
Definition parseHex (s : DString) : option Z :=
  match s with
  | 48%N :: 120%N :: d :: digits =>
      fold_left
        (fun acc c =>
           match acc, hexDigit c with
           | Some v, Some h => Some (16 * v + h)
           | _, _ => None
           end)
        (d :: digits) (Some 0)
  | _ => None
  end.

(** The examples hold no [data:] image, so that [base64Decode] is not
    called in them; this takes its place. *)
Definition base64Unused (source : DString) : option (list N) := None.

(** [Sort._insertionSort], which the SDK's [List.sort] runs on a list
    of at most 32 elements: each element moves down past the elements
    before it that compare greater. The sorted part is kept last
    element first. *)
Fixpoint insertFromRight {A : Type} (compare : A -> A -> Z) (el : A)
  (sortedRev : list A) : list A :=
  match sortedRev with
  | [] => [el]
  | x :: rest =>
      if compare x el >? 0 then x :: insertFromRight compare el rest
      else el :: x :: rest
  end.

Definition insertionSort {A : Type} (compare : A -> A -> Z) (l : list A)
  : list A :=
  rev (fold_left (fun sortedRev el => insertFromRight compare el sortedRev)
         l []).

(** ** Example data *)

(** A cart line with an id and a quantity. *)
Definition line (key : string) (q : Z) : CartItem.t :=
  CartItem.mk (str key) (str key) 10 0 q None.

Definition cartOf (l : list CartItem.t) : CartManager.t :=
  CartManager.with_items CartManager.init l.

(** A wishlist entry. *)
Definition wished (key : string) : WishlistItem.t :=
  WishlistItem.mk (str key) (str key) 10 0 None (str "$").

(** The cart after [n] taps on the cart button of a wishlist entry. *)
Definition tapsOnCartButton (n : nat) (item : WishlistItem.t)
  : CartManager.t :=
  Nat.iter n (fun m => fst (CartPage.onMoveToCartTap item m))
    CartManager.init.

(** The two cart lines of the billing example. *)
Definition billing_lines : list CartItem.t :=
  [ CartItem.mk (str "product_0") (str "A") 10 0 2 None;
    CartItem.mk (str "product_1") (str "B") 20 15 1 None ].

Definition billing_cart : CartManager.t :=
  CartManager.updateGSTPercentage 18 (cartOf billing_lines).

(** The admin id built into the app ([ApiConfig.adminObjectId]). *)
Definition adminObjectId : DString := str "695b5a25b24bc8867b77f3df".

(** A payload with a [type] field. *)
Definition payload (type : string) : Dyn.t :=
  DMap [(str "type", DStr (str type))].

(** The realtime page after [initState] and the answer to its first
    request: it listens, and no request is waiting. *)
Definition idlePage : Sync.t :=
  Sync.completeLoad
    (Response 200
       (Some (DMap [(str "success", DBool true); (str "pages", DList [])])))
    (Sync.initState adminObjectId Sync.created).

(** ** Predicates of the statements *)

(** The page receives socket events and reacts to updates. *)
Definition listening (s : Sync.t) : Prop :=
  DynamicAppSync.socket (Sync.appSync s) = true /\
  DynamicAppSync.controllerClosed (Sync.appSync s) = false /\
  Sync.subscribed s = true /\
  Sync.mounted s = true.

(** The events that end in [loadDynamicProductData]: [home-page], and
    [dynamic-update] with a map payload whose [type], in lower case, is
    [home-page] or [dynamic-update]. *)
Definition triggersReload (kind : DString) (data : Dyn.t) : bool :=
  DartString.eqb kind (str "home-page")
  || (DartString.eqb kind (str "dynamic-update")
      && Dyn.isMap data && Sync.reloads (Sync.updateType data)).

(** A socket event that triggers a reload. *)
Definition reloadEvent (i : Sync.Input) : Prop :=
  exists kind data, i = Sync.event kind data /\ triggersReload kind data = true.

(** No currency symbol of the list occurs in the string. *)
Definition noCurrencySymbol (s : DString) : Prop :=
  forall sym, In sym PriceUtils.currencySymbols ->
              DartString.contains s sym = false.

(** The quantities of the lines, added without wrap-around. *)
Definition quantitySum (l : list CartItem.t) : Z :=
  fold_right (fun i acc => CartItem.quantity i + acc) 0 l.

(** The session-local part of the home page: cart, wishlist and search
    query. *)
Definition sessionState (st : HomePageState)
  : CartManager.t * WishlistManager.t * DString :=
  (cartManager st, wishlistManager st, searchQuery st).

(** ** Sessions on the cart *)

(** The calls a session makes on its [CartManager]. *)
Inductive CartOp :=
| CartAdd (item : CartItem.t)
| CartRemove (key : DString)
| CartUpdate (key : DString) (q : Z)
| CartClear.

(** One call; an [updateQuantity] that throws has written nothing, and
    the manager is as before. *)
Definition cartApply (m : CartManager.t) (o : CartOp) : CartManager.t :=
  match o with
  | CartAdd item => CartManager.addItem item m
  | CartRemove key => CartManager.removeItem key m
  | CartUpdate key q =>
      match CartManager.updateQuantity key q m with
      | Returns m' => m'
      | Throws _ => m
      end
  | CartClear => CartManager.clear m
  end.

Definition cartRun (ops : list CartOp) : CartManager.t :=
  fold_left cartApply ops CartManager.init.

Definition cartIds (m : CartManager.t) : list DString :=
  List.map CartItem.id (CartManager.items m).

(** The first line with the id, as [firstWhere] finds it. *)
Definition firstLine (key : DString) (m : CartManager.t)
  : option CartItem.t :=
  find (fun i => DartString.eqb (CartItem.id i) key) (CartManager.items m).

(** The carts the cart page keeps to: distinct ids, every line with a
    quantity of at least 1, and at most 10 units in all. *)
Definition withinLimit (m : CartManager.t) : Prop :=
  NoDup (cartIds m) /\
  Forall (fun i => 1 <= CartItem.quantity i) (CartManager.items m) /\
  quantitySum (CartManager.items m) <= 10.

(** ** The quantity selectors of the product cards
    ([_productQuantities], [_getProductQuantity], [_incrementQuantity],
    [_decrementQuantity], [_getTotalCartQuantity], [_canAddToCart]) *)

Module Quantities.

(** [Map<String, int>], with its entries in insertion order. *)
Definition t : Type := list (DString * Z).

Fixpoint get (productId : DString) (m : t) : option Z :=
  match m with
  | [] => None
  | (k, v) :: m' => if DartString.eqb k productId then Some v
                    else get productId m'
  end.

(** [m[productId] = v]: the entry is overwritten where it stands, or
    added at the end. *)
Fixpoint put (productId : DString) (v : Z) (m : t) : t :=
  match m with
  | [] => [(productId, v)]
  | (k, w) :: m' =>
      if DartString.eqb k productId then (k, v) :: m'
      else (k, w) :: put productId v m'
  end.

(** [_getProductQuantity]: [_productQuantities[productId] ?? 1]. *)
Definition getProductQuantity (productId : DString) (m : t) : Z :=
  match get productId m with
  | Some q => q
  | None => 1
  end.

(** [_incrementQuantity] *)
Definition incrementQuantity (productId : DString) (m : t) : t :=
  let currentQuantity := getProductQuantity productId m in
  if currentQuantity <? 10
  then put productId (int_add currentQuantity 1) m
  else m.

(** [_decrementQuantity] *)
Definition decrementQuantity (productId : DString) (m : t) : t :=
  let currentQuantity := getProductQuantity productId m in
  if 1 <? currentQuantity
  then put productId (int_sub currentQuantity 1) m
  else m.

(** [_getTotalCartQuantity]:
    [_productQuantities.values.fold(0, (sum, quantity) => sum + quantity)] *)
Definition getTotalCartQuantity (m : t) : Z :=
  fold_left (fun sum quantity => int_add sum quantity) (List.map snd m) 0.

(** [_canAddToCart] *)
Definition canAddToCart (m : t) : bool := getTotalCartQuantity m <? 10.

(** A tap on a selector's plus or minus. *)
Inductive tap :=
| Increment (productId : DString)
| Decrement (productId : DString).

Definition apply (m : t) (o : tap) : t :=
  match o with
  | Increment p => incrementQuantity p m
  | Decrement p => decrementQuantity p m
  end.

(** The map after the taps of a session, from the empty map. *)
Definition run (taps : list tap) : t := fold_left apply taps [].

(** The stored quantities, added without wrap-around. *)
Definition valuesSum (m : t) : Z :=
  fold_right (fun e acc => snd e + acc) 0 m.

End Quantities.

(** Every stored quantity is between 1 and 10. *)
Definition selectorBounds (m : Quantities.t) : Prop :=
  Forall (fun e => 1 <= snd e <= 10) m.

(** ** Configuration documents, as the server sends them *)

(** A widget with a name and product cards, a page of widgets, and the
    body of a successful [get-form] response with these pages. *)
Definition widgetOf (name : DString) (cards : list Dyn.map) : Dyn.map :=
  [ (str "name", DStr name);
    (str "properties",
     DMap [(str "productCards", DList (List.map DMap cards))]) ].

Definition pageOf (widgets : list (DString * list Dyn.map)) : Dyn.t :=
  DMap [(str "widgets",
         DList (List.map (fun w => DMap (widgetOf (fst w) (snd w))) widgets))].

Definition formResponse (pages : list (list (DString * list Dyn.map)))
  : HttpResult :=
  Response 200
    (Some (DMap [ (str "success", DBool true);
                  (str "pages", DList (List.map pageOf pages)) ])).

(** The cards of all widgets of a page, in order. *)
Definition cardsOfPage (widgets : list (DString * list Dyn.map))
  : list Dyn.map :=
  List.concat (List.map snd widgets).


(** ** Sessions on the home page *)

(** What changes the product lists of the home page: a search, and the
    end of a load. *)
Inductive HomeOp :=
| Search (query : DString)
| Loaded (r : HttpResult).

(** The configuration fields of the home page. *)
Definition configFields (st : HomePageState)
  : list Dyn.map * list Dyn.map * list Dyn.map * Dyn.map * Dyn.map * Color :=
  (dynamicProductCards st, filteredProducts st, homeWidgets st,
   dynamicStoreInfo st, dynamicDesignSettings st, pageBackgroundColor st).

(** The products shown are the current products, all of them for the
    empty query and otherwise the ones the query matches. *)
Definition showsTheFilter (toLowerCase : DString -> DString)
  (st : HomePageState) : Prop :=
  filteredProducts st
  = if DartString.isEmpty (searchQuery st) then dynamicProductCards st
    else filter (matchesQuery toLowerCase (searchQuery st))
           (dynamicProductCards st).

Section HomeSession.

Variable intParse : DString -> option Z.
Variable productCards : list Dyn.map.
Variable listSort :
  (Dyn.map -> Dyn.map -> Z) -> list Dyn.map -> list Dyn.map.
Variable toLowerCase : DString -> DString.

Definition homeApply (st : HomePageState) (o : HomeOp) : HomePageState :=
  match o with
  | Search query => filterProducts toLowerCase query st
  | Loaded r =>
      loadDynamicData intParse productCards listSort toLowerCase r st
  end.

Definition homeRun (ops : list HomeOp) : HomePageState :=
  fold_left homeApply ops (homeCreated productCards).

End HomeSession.

(** ** [ApiService]'s socket over time *)

Module ApiRealtime.

(** [initializeRealTimeUpdates]: an existing socket is dropped, a new
    one is made and the listeners are set up on it. *)
Definition initializeRealTimeUpdates (s : ApiService.t) : ApiService.t :=
  ApiService.mk true (ApiService.isConnected s)
    (ApiService.controllerClosed s) (ApiService.realTimeUpdates s).

(** [disconnectRealTimeUpdates] *)
Definition disconnectRealTimeUpdates (s : ApiService.t) : ApiService.t :=
  if ApiService.socket s
  then ApiService.mk false false (ApiService.controllerClosed s)
         (ApiService.realTimeUpdates s)
  else s.

(** [dispose]: the socket is dropped and the controller closed. *)
Definition dispose (s : ApiService.t) : ApiService.t :=
  let s' := disconnectRealTimeUpdates s in
  ApiService.mk (ApiService.socket s') (ApiService.isConnected s') true
    (ApiService.realTimeUpdates s').

(** One socket input; a listener that throws leaves the service as it
    was. *)
Definition step (s : ApiService.t) (i : SocketInput) : ApiService.t :=
  match ApiService.onSocket i s with
  | Returns s' => s'
  | Throws _ => s
  end.

Definition run (s : ApiService.t) (inputs : list SocketInput)
  : ApiService.t :=
  fold_left step inputs s.

(** What an input adds to the stream: the payload of an event of a
    forwarded kind, when it is a map. *)
Definition forwarded (i : SocketInput) : list Dyn.t :=
  match i with
  | SocketEvent kind (DMap m) =>
      if ApiService.forwards kind then [DMap m] else []
  | _ => []
  end.

End ApiRealtime.

(** ** The checks of the account form ([_validateEmail],
    [_validatePhone], [_validatePassword], [_createAccount]) *)

Module Regex.

(** The patterns the form uses: one code unit of a class, a sequence, a
    class repeated once or more, and a class repeated between two
    bounds. *)
Inductive t :=
| Class (accepts : N -> bool)
| Seq (r1 r2 : t)
| Plus (accepts : N -> bool)
| Repeat (accepts : N -> bool) (lo hi : nat).

(** A backtracking matcher: [k] is what has to match the rest. *)
Fixpoint plus (c : N -> bool) (s : DString) (k : DString -> bool) : bool :=
  match s with
  | [] => false
  | x :: s' => c x && (plus c s' k || k s')
  end.

Fixpoint exactly (c : N -> bool) (n : nat) (s : DString)
  (k : DString -> bool) : bool :=
  match n with
  | O => k s
  | S n' =>
      match s with
      | [] => false
      | x :: s' => c x && exactly c n' s' k
      end
  end.

Fixpoint atMost (c : N -> bool) (n : nat) (s : DString)
  (k : DString -> bool) : bool :=
  match n with
  | O => k s
  | S n' =>
      match s with
      | [] => k s
      | x :: s' => (c x && atMost c n' s' k) || k s
      end
  end.

Fixpoint matchK (r : t) (s : DString) (k : DString -> bool) : bool :=
  match r with
  | Class c =>
      match s with
      | [] => false
      | x :: s' => c x && k s'
      end
  | Seq r1 r2 => matchK r1 s (fun s' => matchK r2 s' k)
  | Plus c => plus c s k
  | Repeat c lo hi => exactly c lo s (fun s' => atMost c (hi - lo) s' k)
  end.

(** [RegExp(r'^...$').hasMatch(s)]: the whole string has to match. *)
Definition hasFullMatch (r : t) (s : DString) : bool :=
  matchK r s DartString.isEmpty.

(** The strings a pattern stands for. *)
Fixpoint lang (r : t) (w : DString) : Prop :=
  match r with
  | Class c => exists x, w = [x] /\ c x = true
  | Seq r1 r2 => exists w1 w2, w = w1 ++ w2 /\ lang r1 w1 /\ lang r2 w2
  | Plus c => w <> [] /\ Forall (fun x => c x = true) w
  | Repeat c lo hi =>
      (lo <= List.length w <= lo + (hi - lo))%nat
      /\ Forall (fun x => c x = true) w
  end.

Definition inRange (lo hi c : N) : bool := ((lo <=? c) && (c <=? hi))%N.

(** [[a-zA-Z]], [[0-9]] *)
Definition letter (c : N) : bool := inRange 97 122 c || inRange 65 90 c.
Definition digit (c : N) : bool := inRange 48 57 c.

(** [[a-zA-Z0-9._-]] *)
Definition localUnit (c : N) : bool :=
  (letter c || digit c || (c =? 46) || (c =? 95) || (c =? 45))%N.

(** [[a-zA-Z0-9.-]] *)
Definition domainUnit (c : N) : bool :=
  (letter c || digit c || (c =? 46) || (c =? 45))%N.

(** The point outside a class: any code unit but a line terminator. *)
Definition anyUnit (c : N) : bool :=
  negb ((c =? 10) || (c =? 13) || (c =? 0x2028) || (c =? 0x2029))%N.

Definition isAt (c : N) : bool := (c =? 64)%N.

End Regex.

Module CreateAccount.

(** [r'^[a-zA-Z0-9._-]+@[a-zA-Z0-9.-]+.[a-zA-Z]{2,4}$'] *)
Definition emailPattern : Regex.t :=
  Regex.Seq (Regex.Plus Regex.localUnit)
    (Regex.Seq (Regex.Class Regex.isAt)
       (Regex.Seq (Regex.Plus Regex.domainUnit)
          (Regex.Seq (Regex.Class Regex.anyUnit)
             (Regex.Repeat Regex.letter 2 4)))).

(** [r'^[0-9]{10}$'] *)
Definition phonePattern : Regex.t := Regex.Repeat Regex.digit 10 10.

(** [_validateEmail], [_validatePhone], [_validatePassword] *)
Definition validateEmail (email : DString) : bool :=
  Regex.hasFullMatch emailPattern email.

Definition validatePhone (phone : DString) : bool :=
  Regex.hasFullMatch phonePattern phone.

Definition validatePassword (password : DString) : bool :=
  (6 <=? List.length password)%nat.

(** The text of the form's fields. *)
Record Form := mkForm {
  firstNameText : DString;
  lastNameText : DString;
  emailText : DString;
  phoneText : DString;
  passwordText : DString
}.

(** What the sign-up request carries. *)
Record Signup := mkSignup {
  firstName : DString;
  lastName : DString;
  email : DString;
  phone : DString;
  password : DString
}.

(** The checks of [_createAccount] before its request: the snack bar of
    the first check that fails, or the request that is sent. *)
Definition check (f : Form) : Signup + DString :=
  let firstName := DoubleParse.trim (firstNameText f) in
  let lastName := DoubleParse.trim (lastNameText f) in
  let email := DoubleParse.trim (emailText f) in
  let phone := DoubleParse.trim (phoneText f) in
  let password := passwordText f in
  if DartString.isEmpty firstName || DartString.isEmpty lastName
     || DartString.isEmpty email || DartString.isEmpty phone
     || DartString.isEmpty password
  then inr (str "Please fill all fields")
  else if negb (validateEmail email)
  then inr (str "Please enter a valid email")
  else if negb (validatePhone phone)
  then inr (str "Please enter a valid 10-digit phone number")
  else if negb (validatePassword password)
  then inr (str "Password must be at least 6 characters")
  else inl (mkSignup firstName lastName email phone password).

End CreateAccount.

(** ** The subscription check ([ApiService.get],
    [ApiService.hasActiveSubscription]) *)

(** What the loop over the subscriptions does with one of them: return
    true, go on to the next, or throw. *)
Inductive Verdict :=
| CountsAsActive
| NotActive
| Thrown.

Section Subscription.

(** [DateTime.parse], [None] for its [FormatException], and
    [DateTime.now()], as instants on one scale. *)
Variable parseDate : DString -> option Z.
Variable now : Z.

(** [get]: the status and the decoded body of the response; [None] when
    it throws, which it does without a stored token, when the request
    fails, and for status 401. *)
Definition authorizedGet (token : option DString) (r : HttpResult)
  : option (Z * option Dyn.t) :=
  match token with
  | None => None
  | Some _ =>
      match r with
      | RequestFails => None
      | Response statusCode body =>
          if statusCode =? 401 then None else Some (statusCode, body)
      end
  end.

(** [subscription['status']?.toString().toLowerCase()] on a map. *)
Definition statusOf (subscription : Dyn.map) : option DString :=
  match Dyn.lookup (str "status") subscription with
  | DNull => None
  | v => Some (DartString.toLowerCase (Dyn.toString v))
  end.

(** [status == 'active' || status == 'approved'] *)
Definition activeOrApproved (status : option DString) : bool :=
  match status with
  | Some s =>
      DartString.eqb s (str "active") || DartString.eqb s (str "approved")
  | None => false
  end.

(** The body of the loop: a subscription that is active or approved
    counts unless its end date parses and is not after now; an end date
    that does not parse, or is not a string, ends in the inner [catch],
    which returns true. *)
Definition verdict (subscription : Dyn.t) : Verdict :=
  match subscription with
  | DMap m =>
      if activeOrApproved (statusOf m)
      then
        match Dyn.orElse (Dyn.lookup (str "endDate") m)
                (Dyn.lookup (str "end_date") m) with
        | DNull => CountsAsActive
        | DStr text =>
            match parseDate text with
            | Some endDate =>
                if now <? endDate then CountsAsActive else NotActive
            | None => CountsAsActive
            end
        | _ => CountsAsActive
        end
      else NotActive
  | _ => Thrown
  end.

(** The loop; [None] when it throws. *)
Fixpoint anyActive (subscriptions : list Dyn.t) : option bool :=
  match subscriptions with
  | [] => Some false
  | subscription :: rest =>
      match verdict subscription with
      | CountsAsActive => Some true
      | NotActive => anyActive rest
      | Thrown => None
      end
  end.

(** The second request, to [/api/user-subscriptions]: both response
    formats, and false for everything else; an empty body and a body
    that is not JSON end in false as the body [[]] does. *)
Definition fallbackCheck (token : option DString) (r : HttpResult) : bool :=
  match authorizedGet token r with
  | None => false
  | Some (statusCode, body) =>
      if statusCode =? 200
      then
        match body with
        | Some (DMap m) =>
            match Dyn.lookup (str "subscriptions") m with
            | DList l =>
                match anyActive l with Some b => b | None => false end
            | _ => false
            end
        | Some (DList l) =>
            match anyActive l with Some b => b | None => false end
        | _ => false
        end
      else false
  end.

(** [hasActiveSubscription], with the stored user id and token and the
    responses to its two requests; every throw ends in its [catch],
    which returns false. *)
Definition hasActiveSubscription (userId token : option DString)
  (current fallback : HttpResult) : bool :=
  match userId with
  | None => false
  | Some _ =>
      match authorizedGet token current with
      | None => false
      | Some (statusCode, body) =>
          if statusCode =? 200
          then
            match body with
            | Some (DMap m) =>
                match Dyn.lookup (str "subscription") m with
                | DNull => fallbackCheck token fallback
                | DMap subscription =>
                    match statusOf subscription with
                    | Some status =>
                        if DartString.eqb status (str "active") then true
                        else fallbackCheck token fallback
                    | None => fallbackCheck token fallback
                    end
                | _ => false
                end
            | _ => false
            end
          else if statusCode =? 404 then false
          else fallbackCheck token fallback
      end
  end.

End Subscription.

(** A subscription in the list has the status [active] or [approved], in
    any letter case. *)
Definition listedAsActive (subscriptions : list Dyn.t) : Prop :=
  exists m, In (DMap m) subscriptions /\
            activeOrApproved (statusOf m) = true.

(** The subscriptions a response to [/api/user-subscriptions] lists. *)
Definition listedSubscriptions (r : HttpResult) : list Dyn.t :=
  match r with
  | Response _ (Some (DList l)) => l
  | Response _ (Some (DMap m)) =>
      match Dyn.lookup (str "subscriptions") m with
      | DList l => l
      | _ => []
      end
  | _ => []
  end.

(** The status of the current subscription a response to
    [/api/current-subscription] gives. *)
Definition currentStatus (r : HttpResult) : option DString :=
  match r with
  | Response _ (Some (DMap m)) =>
      match Dyn.lookup (str "subscription") m with
      | DMap subscription => statusOf subscription
      | _ => None
      end
  | _ => None
  end.

(** A list is in the order of a comparator: no element compares greater
    than a later one. *)
Fixpoint inOrder {A : Type} (compare : A -> A -> Z) (l : list A) : bool :=
  match l with
  | [] => true
  | a :: rest =>
      forallb (fun b => compare a b <=? 0) rest && inOrder compare rest
  end.

(** * Properties *)

(** ** The model at work *)

Example addItem_merges_same_id :
  CartManager.addItem (line "a" 3) (cartOf [line "a" 2; line "b" 1])
  = cartOf [line "a" 5; line "b" 1].
Proof. vm_compute. reflexivity. Qed.

Example removeItem_absent_id :
  CartManager.removeItem (str "z") (cartOf [line "a" 2]) = cartOf [line "a" 2].
Proof. vm_compute. reflexivity. Qed.

Example tryParse_examples :
  DoubleParse.tryParse (str " -6.3e0 ") = Some (-6.3)%float /\
  DoubleParse.tryParse (str "0.1") = Some 0.1%float /\
  DoubleParse.tryParse (str ".5") = Some 0.5%float /\
  DoubleParse.tryParse (str "1e") = None /\
  DoubleParse.tryParse (str ".") = None.
Proof. repeat split; vm_compute; reflexivity. Qed.

Example detectCurrency_euro :
  PriceUtils.detectCurrency (PriceUtils.euro ++ str "10.00")
  = PriceUtils.euro.
Proof. vm_compute. reflexivity. Qed.

Example header_widget_is_resolved :
  buildHomeWidgetFromConfig parseHex base64Unused (homeCreated [])
    [(str "name", DStr (str "HeaderWidget"))]
  = Returns (HeaderWidget []).
Proof. vm_compute. reflexivity. Qed.

Example failed_reload_keeps_products :
  Sync.productCards (Sync.completeLoad (Response 500 None)
                       (Sync.loadDynamicProductData idlePage))
  = Sync.productCards idlePage /\
  Sync.errorMessage (Sync.completeLoad (Response 500 None)
                       (Sync.loadDynamicProductData idlePage))
  = Some (Exception_HTTP 500).
Proof. split; vm_compute; reflexivity. Qed.

(** ** Strings and integers *)

Lemma eqb_eq (a b : DString) : DartString.eqb a b = true <-> a = b.
Proof.
  unfold DartString.eqb.
  destruct (list_eq_dec N.eq_dec a b); split; congruence.
Qed.

Lemma eqb_refl (a : DString) : DartString.eqb a a = true.
Proof. now apply eqb_eq. Qed.

Lemma eqb_neq (a b : DString) : DartString.eqb a b = false <-> a <> b.
Proof.
  unfold DartString.eqb.
  destruct (list_eq_dec N.eq_dec a b); split; congruence.
Qed.

Lemma wrap64_small (z : Z) : - 2 ^ 63 <= z < 2 ^ 63 -> wrap64 z = z.
Proof.
  intros H. unfold wrap64. rewrite Z.mod_small; lia.
Qed.

Lemma wrap64_range (z : Z) : - 2 ^ 63 <= wrap64 z < 2 ^ 63.
Proof.
  unfold wrap64.
  pose proof (Z.mod_pos_bound (z + 2 ^ 63) (2 ^ 64) ltac:(lia)). lia.
Qed.

Lemma wrap64_idem (z : Z) : wrap64 (wrap64 z) = wrap64 z.
Proof. apply wrap64_small, wrap64_range. Qed.

Lemma wrap64_add_l (a b : Z) : wrap64 (wrap64 a + b) = wrap64 (a + b).
Proof.
  unfold wrap64.
  replace ((a + 2 ^ 63) mod 2 ^ 64 - 2 ^ 63 + b + 2 ^ 63)
    with ((a + 2 ^ 63) mod 2 ^ 64 + b) by ring.
  rewrite Zplus_mod_idemp_l. f_equal. f_equal. ring.
Qed.

Lemma wrap64_add_r (a b : Z) : wrap64 (a + wrap64 b) = wrap64 (a + b).
Proof.
  rewrite (Z.add_comm a), wrap64_add_l. f_equal. ring.
Qed.

(** ** Cart lines *)

Lemma fold_quantity (l : list CartItem.t) (a : Z) :
  wrap64
    (fold_left (fun sum item => int_add sum (CartItem.quantity item)) l a)
  = wrap64 (a + quantitySum l).
Proof.
  revert a. induction l as [|i l IH]; intros a; simpl.
  - f_equal. ring.
  - rewrite IH. unfold int_add. rewrite wrap64_add_l. f_equal. ring.
Qed.

Lemma totalQuantity_sum (m : CartManager.t) :
  CartManager.totalQuantity m = wrap64 (quantitySum (CartManager.items m)).
Proof.
  unfold CartManager.totalQuantity.
  destruct (CartManager.items m) as [|i l]; [reflexivity|].
  simpl. set (a := int_add 0 (CartItem.quantity i)).
  assert (Ha : wrap64 a = a).
  { unfold a, int_add. apply wrap64_idem. }
  assert (H : forall l a, wrap64 a = a ->
      wrap64 (fold_left
                (fun sum item => int_add sum (CartItem.quantity item)) l a)
      = fold_left (fun sum item => int_add sum (CartItem.quantity item)) l a).
  { clear. induction l as [|j l IH]; intros a Ha; simpl; [exact Ha|].
    apply IH. unfold int_add. apply wrap64_idem. }
  rewrite <- (H l a Ha), fold_quantity. unfold a, int_add.
  rewrite wrap64_add_l. f_equal; ring.
Qed.

Lemma quantitySum_app (l1 l2 : list CartItem.t) :
  quantitySum (l1 ++ l2) = quantitySum l1 + quantitySum l2.
Proof.
  induction l1 as [|i l1 IH]; simpl; [reflexivity|]. rewrite IH. ring.
Qed.

Lemma indexWhere_add_quantity (key : DString) (n : Z) :
  forall (l : list CartItem.t) (k : nat),
    CartManager.indexWhere key l = Some k ->
    wrap64 (quantitySum (CartManager.add_quantity_at k n l))
    = wrap64 (quantitySum l + n).
Proof.
  induction l as [|i l IH]; intros k H; simpl in H; [discriminate|].
  destruct (DartString.eqb (CartItem.id i) key).
  - injection H as <-. simpl. unfold int_add.
    rewrite wrap64_add_l. f_equal. ring.
  - destruct (CartManager.indexWhere key l) as [k'|]; [|discriminate].
    injection H as <-. simpl.
    rewrite <- wrap64_add_r, (IH k' eq_refl), wrap64_add_r.
    f_equal; ring.
Qed.

(** [addItem] always adds: the aggregate quantity afterwards is the one
    before plus the item's, whatever it was. *)
Lemma totalQuantity_addItem (item : CartItem.t) (m : CartManager.t) :
  CartManager.totalQuantity (CartManager.addItem item m)
  = int_add (CartManager.totalQuantity m) (CartItem.quantity item).
Proof.
  rewrite !totalQuantity_sum. unfold CartManager.addItem, int_add.
  rewrite wrap64_add_l.
  destruct (CartManager.indexWhere (CartItem.id item) (CartManager.items m))
    as [k|] eqn:E; simpl.
  - now apply indexWhere_add_quantity with (key := CartItem.id item).
  - rewrite quantitySum_app. simpl. f_equal. ring.
Qed.

(** [set_first] rewrites the first line with the id and nothing else. *)
Lemma set_first_spec (key : DString) (q : Z) :
  forall l l', CartManager.set_first key q l = Some l' ->
    exists pre i post,
      l = pre ++ i :: post /\
      (forall x, In x pre -> CartItem.id x <> key) /\
      CartItem.id i = key /\
      l' = pre ++ CartItem.set_quantity q i :: post.
Proof.
  induction l as [|i l IH]; intros l' H; simpl in H; [discriminate|].
  destruct (DartString.eqb (CartItem.id i) key) eqn:E.
  - injection H as <-. apply eqb_eq in E.
    exists [], i, l. repeat split; auto; try now intros x [].
  - destruct (CartManager.set_first key q l) as [l1|]; [|discriminate].
    injection H as <-.
    destruct (IH l1 eq_refl) as (pre & j & post & -> & Hpre & Hj & ->).
    exists (i :: pre), j, post. repeat split; auto.
    intros x [<-|Hx]; [now apply eqb_neq|now apply Hpre].
Qed.

Lemma set_first_present (key : DString) (q : Z) :
  forall l, (exists i, In i l /\ CartItem.id i = key) ->
    exists l', CartManager.set_first key q l = Some l'.
Proof.
  induction l as [|i l IH]; intros (x & Hin & Hx); [destruct Hin|].
  simpl. destruct (DartString.eqb (CartItem.id i) key) eqn:E; [eauto|].
  destruct Hin as [<-|Hin].
  - apply eqb_neq in E. contradiction.
  - destruct IH as (l' & ->); eauto. simpl. eauto.
Qed.

Lemma set_first_absent (key : DString) (q : Z) :
  forall l, (forall i, In i l -> CartItem.id i <> key) ->
    CartManager.set_first key q l = None.
Proof.
  induction l as [|i l IH]; intros H; simpl; [reflexivity|].
  destruct (DartString.eqb (CartItem.id i) key) eqn:E.
  - apply eqb_eq in E. exfalso. apply (H i); simpl; auto.
  - rewrite IH; [reflexivity|]. intros x Hx. apply H. simpl. auto.
Qed.

(** ** Claims on the cart *)

(** C1 (the code misses it): the aggregate quantity is meant never to
    exceed 10, but [addItem] has no test: ten taps on a wishlist entry's
    cart button fill the cart to 10, and the eleventh is accepted too and
    changes the cart, to an aggregate quantity of 11. *)
Theorem addItem_passes_the_cap :
  CartManager.totalQuantity (tapsOnCartButton 10 (wished "product_0")) = 10 /\
  CartManager.totalQuantity (tapsOnCartButton 11 (wished "product_0")) = 11 /\
  tapsOnCartButton 11 (wished "product_0")
  <> tapsOnCartButton 10 (wished "product_0").
Proof.
  split; [vm_compute; reflexivity|].
  split; [vm_compute; reflexivity|].
  intros H. apply (f_equal CartManager.totalQuantity) in H.
  vm_compute in H. discriminate.
Qed.

(** C2: for the lines [{price 10.00, discountPrice 0, qty 2},
    {price 20.00, discountPrice 15.00, qty 1}] and tax rate 18 the cart's
    derived values are subtotal 35.00, discount total 5.00, tax 6.30 and
    total 41.30, each the double nearest to the decimal. *)
Theorem billing_example :
  CartManager.subtotal billing_cart = 35%float /\
  CartManager.totalDiscount billing_cart = 5%float /\
  CartManager.gstAmount billing_cart = 6.3%float /\
  CartManager.finalTotal billing_cart = 41.3%float.
Proof.
  repeat split; vm_compute; reflexivity.
Qed.

(** C9, as the claim states it, fails: [updateQuantity] with quantity 0
    keeps the line, with quantity 0, where removing it empties the cart;
    and with quantity 11 it returns and stores 11. *)
Lemma updateQuantity_neither_removes_nor_rejects :
  CartManager.updateQuantity (str "a") 0 (cartOf [line "a" 2])
  = Returns (cartOf [line "a" 0]) /\
  CartManager.removeItem (str "a") (cartOf [line "a" 2]) = cartOf [] /\
  cartOf [line "a" 0] <> cartOf [] /\
  CartManager.updateQuantity (str "a") 11 (cartOf [line "a" 2])
  = Returns (cartOf [line "a" 11]) /\
  cartOf [line "a" 11] <> cartOf [line "a" 2].
Proof.
  split; [vm_compute; reflexivity|].
  split; [vm_compute; reflexivity|].
  split; [intros H; apply (f_equal CartManager.items) in H; discriminate|].
  split; [vm_compute; reflexivity|].
  intros H. apply (f_equal CartManager.totalQuantity) in H.
  vm_compute in H. discriminate.
Qed.

(** C9, amended: [updateQuantity] stores the quantity it is given on the
    first line with the id and touches nothing else; the cart page's
    buttons do the rest. The minus button on a line with quantity at most
    1 removes the line, and otherwise stores the quantity less one; the
    plus button leaves the cart as it is and shows the limit message
    while the aggregate quantity is 10 or more, and otherwise stores the
    quantity plus one. *)
Theorem cart_quantity_controls (m : CartManager.t) (item : CartItem.t) :
  In item (CartManager.items m) ->
  (forall q, exists pre first post,
      CartManager.items m = pre ++ first :: post /\
      (forall x, In x pre -> CartItem.id x <> CartItem.id item) /\
      CartItem.id first = CartItem.id item /\
      CartManager.updateQuantity (CartItem.id item) q m
      = Returns (CartManager.with_items m
                   (pre ++ CartItem.set_quantity q first :: post))) /\
  (CartItem.quantity item <= 1 ->
   CartPage.onDecreaseTap item m
   = Returns (CartManager.removeItem (CartItem.id item) m,
              Some CartPage.removedMessage)) /\
  (1 < CartItem.quantity item ->
   CartPage.onDecreaseTap item m
   = CartPage.silently
       (CartManager.updateQuantity (CartItem.id item)
          (int_sub (CartItem.quantity item) 1) m)) /\
  (10 <= CartManager.totalQuantity m ->
   CartPage.onIncreaseTap item m = Returns (m, Some CartPage.limitMessage)) /\
  (CartManager.totalQuantity m < 10 ->
   CartPage.onIncreaseTap item m
   = CartPage.silently
       (CartManager.updateQuantity (CartItem.id item)
          (int_add (CartItem.quantity item) 1) m)).
Proof.
  intros Hin. split; [|repeat split].
  - intros q.
    destruct (set_first_present (CartItem.id item) q (CartManager.items m))
      as (l' & Hl'); [eauto|].
    destruct (set_first_spec _ _ _ _ Hl') as (pre & i & post & E & Hpre & Hi & ->).
    exists pre, i, post. repeat split; auto.
    unfold CartManager.updateQuantity. now rewrite Hl'.
  - intros Hq. unfold CartPage.onDecreaseTap.
    destruct (Z.ltb_spec 1 (CartItem.quantity item)); [lia|reflexivity].
  - intros Hq. unfold CartPage.onDecreaseTap.
    destruct (Z.ltb_spec 1 (CartItem.quantity item)); [reflexivity|lia].
  - intros Hq. unfold CartPage.onIncreaseTap.
    destruct (Z.ltb_spec (CartManager.totalQuantity m) 10); [lia|reflexivity].
  - intros Hq. unfold CartPage.onIncreaseTap.
    destruct (Z.ltb_spec (CartManager.totalQuantity m) 10); [reflexivity|lia].
Qed.

Lemma cart_quantity_controls_witness :
  CartPage.onDecreaseTap (line "a" 1) (cartOf [line "a" 1; line "b" 9])
  = Returns (cartOf [line "b" 9], Some CartPage.removedMessage) /\
  CartPage.onIncreaseTap (line "a" 1) (cartOf [line "a" 1; line "b" 9])
  = Returns (cartOf [line "a" 1; line "b" 9], Some CartPage.limitMessage).
Proof.
  assert (Hin : In (line "a" 1)
                  (CartManager.items (cartOf [line "a" 1; line "b" 9])))
    by (simpl; auto).
  destruct (cart_quantity_controls (cartOf [line "a" 1; line "b" 9])
              (line "a" 1) Hin) as (_ & Hdec & _ & Hinc & _).
  split.
  - rewrite Hdec; [reflexivity|]. simpl. lia.
  - apply Hinc. vm_compute. discriminate.
Defined.

(** C10: when no line of the cart has the id, [updateQuantity] throws
    (the [StateError] of [firstWhere]); it returns, with a cart, exactly
    when some line has the id. *)
Theorem updateQuantity_absent_throws
  (key : DString) (q : Z) (m : CartManager.t) :
  ((forall i, In i (CartManager.items m) -> CartItem.id i <> key) ->
   CartManager.updateQuantity key q m = Throws StateError_NoElement) /\
  ((exists i, In i (CartManager.items m) /\ CartItem.id i = key) ->
   exists m', CartManager.updateQuantity key q m = Returns m').
Proof.
  unfold CartManager.updateQuantity. split.
  - intros H. now rewrite set_first_absent.
  - intros H. destruct (set_first_present key q _ H) as (l' & ->). eauto.
Qed.

Lemma updateQuantity_absent_throws_witness :
  CartManager.updateQuantity (str "b") 3 (cartOf [line "a" 2])
  = Throws StateError_NoElement.
Proof.
  apply (proj1 (updateQuantity_absent_throws (str "b") 3
                  (cartOf [line "a" 2]))).
  intros i [<-|[]]. vm_compute. discriminate.
Defined.

(** ** Wishlist *)

Lemma existsb_filter_other (key other : DString) (w : WishlistManager.t) :
  key <> other ->
  existsb (fun i => DartString.eqb (WishlistItem.id i) key)
    (filter (fun i => negb (DartString.eqb (WishlistItem.id i) other)) w)
  = existsb (fun i => DartString.eqb (WishlistItem.id i) key) w.
Proof.
  intros Hne. induction w as [|i w IH]; simpl; [reflexivity|].
  destruct (DartString.eqb (WishlistItem.id i) other) eqn:E; simpl.
  - apply eqb_eq in E.
    replace (DartString.eqb (WishlistItem.id i) key) with false; [exact IH|].
    symmetry. apply eqb_neq. congruence.
  - now rewrite IH.
Qed.

Lemma existsb_filter_same (key : DString) (w : WishlistManager.t) :
  existsb (fun i => DartString.eqb (WishlistItem.id i) key)
    (filter (fun i => negb (DartString.eqb (WishlistItem.id i) key)) w)
  = false.
Proof.
  induction w as [|i w IH]; simpl; [reflexivity|].
  destruct (DartString.eqb (WishlistItem.id i) key) eqn:E; simpl; [exact IH|].
  now rewrite E.
Qed.

Lemma filter_absent (key : DString) (w : WishlistManager.t) :
  existsb (fun i => DartString.eqb (WishlistItem.id i) key) w = false ->
  filter (fun i => negb (DartString.eqb (WishlistItem.id i) key)) w = w.
Proof.
  induction w as [|i w IH]; simpl; [reflexivity|].
  destruct (DartString.eqb (WishlistItem.id i) key); simpl; [discriminate|].
  intros H. now rewrite IH.
Qed.

Lemma ids_filter_NoDup (f : WishlistItem.t -> bool) (w : WishlistManager.t) :
  NoDup (WishlistManager.ids w) -> NoDup (WishlistManager.ids (filter f w)).
Proof.
  unfold WishlistManager.ids.
  induction w as [|i w IH]; simpl; intros H; [constructor|].
  inversion H as [|? ? Hnotin Hrest]; subst.
  destruct (f i); simpl; [|now apply IH].
  constructor; [|now apply IH].
  intros Hin. apply Hnotin. apply in_map_iff in Hin.
  destruct Hin as (x & Hx & Hin). apply filter_In in Hin.
  apply in_map_iff. exists x. tauto.
Qed.

Lemma existsb_false_not_in (key : DString) (w : WishlistManager.t) :
  existsb (fun i => DartString.eqb (WishlistItem.id i) key) w = false ->
  ~ In key (WishlistManager.ids w).
Proof.
  unfold WishlistManager.ids.
  induction w as [|i w IH]; simpl; intros H; [tauto|].
  apply orb_false_iff in H. destruct H as [E H].
  apply eqb_neq in E. intros [Hi|Hin]; [contradiction|now apply IH].
Qed.

Lemma NoDup_snoc (l : list DString) (a : DString) :
  NoDup l -> ~ In a l -> NoDup (l ++ [a]).
Proof.
  induction l as [|b l IH]; simpl; intros H Hn.
  - constructor; [tauto|constructor].
  - inversion H as [|? ? Hb Hl]; subst. constructor.
    + intros Hin. apply in_app_or in Hin.
      destruct Hin as [Hin|[<-|[]]]; [contradiction|]. apply Hn. now left.
    + apply IH; [exact Hl|]. intros Hin. apply Hn. now right.
Qed.

Lemma addItem_NoDup (item : WishlistItem.t) (w : WishlistManager.t) :
  NoDup (WishlistManager.ids w) ->
  NoDup (WishlistManager.ids (WishlistManager.addItem item w)).
Proof.
  intros H. unfold WishlistManager.addItem.
  destruct (existsb _ w) eqn:E; simpl; [exact H|].
  unfold WishlistManager.ids. rewrite map_app. simpl.
  apply NoDup_snoc; [exact H|]. now apply existsb_false_not_in.
Qed.

Lemma apply_NoDup (o : WishlistManager.op) (w : WishlistManager.t) :
  NoDup (WishlistManager.ids w) ->
  NoDup (WishlistManager.ids (WishlistManager.apply o w)).
Proof.
  intros H. destruct o as [item|key| |item]; simpl.
  - now apply addItem_NoDup.
  - now apply ids_filter_NoDup.
  - constructor.
  - unfold WishlistManager.toggleWishlist.
    destruct (WishlistManager.isInWishlist _ w).
    + now apply ids_filter_NoDup.
    + now apply addItem_NoDup.
Qed.

Lemma isInWishlist_In (key : DString) (w : WishlistManager.t) :
  WishlistManager.isInWishlist key w = true <->
  In key (WishlistManager.ids w).
Proof.
  unfold WishlistManager.isInWishlist, WishlistManager.ids.
  rewrite existsb_exists, in_map_iff.
  split; intros (i & H1 & H2); exists i.
  - split; [now apply eqb_eq|exact H1].
  - split; [exact H2|now apply eqb_eq].
Qed.

Lemma removeItem_In (key other : DString) (w : WishlistManager.t) :
  In key (WishlistManager.ids (WishlistManager.removeItem other w)) <->
  In key (WishlistManager.ids w) /\ key <> other.
Proof.
  unfold WishlistManager.ids, WishlistManager.removeItem.
  rewrite !in_map_iff. split.
  - intros (i & Hid & Hin). apply filter_In in Hin. destruct Hin as [Hin Hne].
    apply negb_true_iff, eqb_neq in Hne. split; [|congruence].
    now exists i.
  - intros [(i & Hid & Hin) Hne]. exists i. split; [exact Hid|].
    apply filter_In. split; [exact Hin|].
    apply negb_true_iff, eqb_neq. congruence.
Qed.

Lemma addItem_In (key : DString) (item : WishlistItem.t)
  (w : WishlistManager.t) :
  In key (WishlistManager.ids (WishlistManager.addItem item w)) <->
  In key (WishlistManager.ids w) \/ key = WishlistItem.id item.
Proof.
  unfold WishlistManager.addItem.
  destruct (existsb _ w) eqn:E; simpl.
  - split; [tauto|]. intros [H| ->]; [exact H|].
    now apply isInWishlist_In.
  - unfold WishlistManager.ids. rewrite map_app, in_app_iff. simpl.
    split; [intros [H|[H|[]]]|intros [H|H]]; auto.
Qed.

Lemma toggleWishlist_In (key : DString) (item : WishlistItem.t)
  (w : WishlistManager.t) :
  In key (WishlistManager.ids (WishlistManager.toggleWishlist item w)) <->
  (key = WishlistItem.id item /\ ~ In key (WishlistManager.ids w)) \/
  (key <> WishlistItem.id item /\ In key (WishlistManager.ids w)).
Proof.
  unfold WishlistManager.toggleWishlist.
  destruct (WishlistManager.isInWishlist (WishlistItem.id item) w) eqn:E.
  - apply isInWishlist_In in E. rewrite removeItem_In.
    split; [tauto|]. intros [[-> H]|[H1 H2]]; [contradiction|tauto].
  - assert (Hn : ~ In (WishlistItem.id item) (WishlistManager.ids w)).
    { intros H. apply isInWishlist_In in H. congruence. }
    rewrite addItem_In.
    destruct (list_eq_dec N.eq_dec key (WishlistItem.id item)) as [->|Hne];
      tauto.
Qed.

(** C8: with [toggleWishlist] as the spec gives it over the manager's
    operations: two toggles with the same id, whatever the other fields
    of the two entries, leave every id in the wishlist exactly when it
    was there before; one toggle changes the membership of its id and of
    no other; [isInWishlist] answers that membership; and after any
    operations on a new wishlist no id occurs twice. *)
Theorem toggleWishlist_twice :
  (forall (first second : WishlistItem.t) (w : WishlistManager.t)
          (key : DString),
      WishlistItem.id first = WishlistItem.id second ->
      (In key (WishlistManager.ids
                 (WishlistManager.toggleWishlist second
                    (WishlistManager.toggleWishlist first w)))
       <-> In key (WishlistManager.ids w))) /\
  (forall (item : WishlistItem.t) (w : WishlistManager.t),
      In (WishlistItem.id item)
        (WishlistManager.ids (WishlistManager.toggleWishlist item w))
      <-> ~ In (WishlistItem.id item) (WishlistManager.ids w)) /\
  (forall (item : WishlistItem.t) (w : WishlistManager.t) (key : DString),
      key <> WishlistItem.id item ->
      (In key (WishlistManager.ids (WishlistManager.toggleWishlist item w))
       <-> In key (WishlistManager.ids w))) /\
  (forall (key : DString) (w : WishlistManager.t),
      WishlistManager.isInWishlist key w = true
      <-> In key (WishlistManager.ids w)) /\
  (forall ops : list WishlistManager.op,
      NoDup (WishlistManager.ids (WishlistManager.run ops))).
Proof.
  split; [|split; [|split; [|split]]].
  - intros first second w key Hid.
    rewrite !toggleWishlist_In, <- Hid.
    destruct (list_eq_dec N.eq_dec key (WishlistItem.id first));
      destruct (in_dec (list_eq_dec N.eq_dec) key (WishlistManager.ids w));
      tauto.
  - intros item w. rewrite toggleWishlist_In. tauto.
  - intros item w key Hne. rewrite toggleWishlist_In. tauto.
  - apply isInWishlist_In.
  - intros ops. unfold WishlistManager.run.
    assert (H : forall (l : list WishlistManager.op) (w : WishlistManager.t),
               NoDup (WishlistManager.ids w) ->
               NoDup (WishlistManager.ids
                        (fold_left (fun w o => WishlistManager.apply o w) l w))).
    { induction l as [|o l IH]; intros w Hw; simpl; [exact Hw|].
      apply IH. now apply apply_NoDup. }
    apply H. constructor.
Qed.

Lemma toggleWishlist_twice_witness :
  In (str "b")
    (WishlistManager.ids
       (WishlistManager.toggleWishlist
          (WishlistItem.mk (str "a") (str "Teapot") 12 0 None (str "$"))
          (WishlistManager.toggleWishlist
             (WishlistItem.mk (str "a") (str "Tea pot, large") 15 10 None
                (str "$"))
             [WishlistItem.mk (str "b") (str "Cup") 4 0 None (str "$")])))
  <-> In (str "b")
        (WishlistManager.ids
           [WishlistItem.mk (str "b") (str "Cup") 4 0 None (str "$")]).
Proof.
  apply (proj1 toggleWishlist_twice
           (WishlistItem.mk (str "a") (str "Tea pot, large") 15 10 None
              (str "$"))
           (WishlistItem.mk (str "a") (str "Teapot") 12 0 None (str "$"))).
  reflexivity.
Defined.

(** ** Prices *)

Lemma kept_cases (c : N) :
  PriceUtils.keptByPattern c = true -> c = 100%N \/ c = 46%N.
Proof.
  unfold PriceUtils.keptByPattern. intros H.
  apply orb_true_iff in H. destruct H as [H|H]; apply N.eqb_eq in H; auto.
Qed.

Lemma filter_kept (s : DString) :
  Forall (fun c => PriceUtils.keptByPattern c = true)
    (filter PriceUtils.keptByPattern s).
Proof.
  apply Forall_forall. intros c Hc. now apply filter_In in Hc.
Qed.

Lemma dropWhile_kept (s : DString) :
  Forall (fun c => PriceUtils.keptByPattern c = true) s ->
  DoubleParse.dropWhile DoubleParse.isWhitespace s = s.
Proof.
  destruct s as [|c s]; [reflexivity|]. intros H.
  inversion H as [|? ? Hc _]; subst.
  destruct (kept_cases c Hc) as [-> | ->]; reflexivity.
Qed.

Lemma trim_kept (s : DString) :
  Forall (fun c => PriceUtils.keptByPattern c = true) s ->
  DoubleParse.trim s = s.
Proof.
  intros H. unfold DoubleParse.trim.
  rewrite (dropWhile_kept s H), dropWhile_kept.
  - apply rev_involutive.
  - apply Forall_forall. intros c Hc. apply in_rev in Hc.
    revert c Hc. now apply Forall_forall.
Qed.

(** A string of [d]s and points is no double literal: it has no digit. *)
Lemma tryParse_kept (s : DString) :
  Forall (fun c => PriceUtils.keptByPattern c = true) s ->
  DoubleParse.tryParse s = None.
Proof.
  intros H. unfold DoubleParse.tryParse. rewrite (trim_kept s H).
  destruct s as [|c s]; [reflexivity|].
  inversion H as [|? ? Hc Hs]; subst.
  destruct (kept_cases c Hc) as [-> | ->].
  - reflexivity.
  - assert (Hm : DoubleParse.parseMantissa (46%N :: s) = None).
    { destruct s as [|c' s']; [reflexivity|].
      inversion Hs as [|? ? Hc' _]; subst.
      destruct (kept_cases c' Hc') as [-> | ->]; reflexivity. }
    cbn [DoubleParse.parseSign].
    replace (DartString.eqb (46%N :: s) (str "Infinity")) with false
      by (symmetry; apply eqb_neq; discriminate).
    replace (DartString.eqb (46%N :: s) (str "NaN")) with false
      by (symmetry; apply eqb_neq; discriminate).
    now rewrite Hm.
Qed.

(** Whatever the price string, [parsePrice] gives zero. *)
Lemma parsePrice_zero (priceString : DString) :
  PriceUtils.parsePrice priceString = 0%float.
Proof.
  unfold PriceUtils.parsePrice.
  destruct (DartString.isEmpty priceString); [reflexivity|].
  now rewrite (tryParse_kept _ (filter_kept priceString)).
Qed.

(** Without a currency symbol in the string, [detectCurrency] gives the
    dollar sign. *)
Lemma detectCurrency_default (priceString : DString) :
  noCurrencySymbol priceString ->
  PriceUtils.detectCurrency priceString = PriceUtils.dollar.
Proof.
  intros H. unfold PriceUtils.detectCurrency.
  rewrite !H; [reflexivity|..]; unfold PriceUtils.currencySymbols; simpl;
    tauto.
Qed.

(** C3 (the code misses it): a parseable price string is meant to give
    its amount, but the pattern of [parsePrice] keeps the letter [d] and
    the point and removes the digits: ["10.00"], which [double.tryParse]
    reads as 10, becomes ["."] and [parsePrice] gives 0, and so for
    ["$10.00"]. *)
Theorem parsePrice_loses_the_digits :
  DoubleParse.tryParse (str "10.00") = Some 10%float /\
  filter PriceUtils.keptByPattern (str "10.00") = str "." /\
  PriceUtils.parsePrice (str "10.00") = 0%float /\
  PriceUtils.parsePrice (str "$10.00") = 0%float.
Proof.
  repeat split; vm_compute; reflexivity.
Qed.

(** ** Realtime events *)

(** What a socket event does to a listening page. *)
Lemma step_event (s : Sync.t) (kind : DString) (data : Dyn.t) :
  listening s ->
  Sync.step s (Sync.event kind data)
  = if triggersReload kind data then Sync.loadDynamicProductData s else s.
Proof.
  destruct s as [cards loading err [sock conn adm closed] sub mnt n sent].
  unfold listening. simpl. intros (-> & -> & -> & ->).
  unfold triggersReload, Sync.event, Sync.step, DynamicAppSync.onSocket.
  simpl.
  destruct (DartString.eqb kind (str "dynamic-update")) eqn:Kd.
  - apply eqb_eq in Kd. subst kind.
    replace (DartString.eqb (str "dynamic-update") (str "home-page"))
      with false by reflexivity.
    destruct data as [|b|shown|t|l|m]; reflexivity.
  - destruct (DartString.eqb kind (str "home-page")); reflexivity.
Qed.

Lemma listening_load (s : Sync.t) :
  listening s -> listening (Sync.loadDynamicProductData s).
Proof. intros H. exact H. Qed.

Lemma triggersReload_forwarded (kind : DString) (data : Dyn.t) :
  triggersReload kind data = true -> ApiService.forwards kind = true.
Proof.
  unfold triggersReload. intros H. apply orb_true_iff in H.
  destruct H as [H|H].
  - apply eqb_eq in H. now subst.
  - apply andb_true_iff in H. destruct H as [H _].
    apply andb_true_iff in H. destruct H as [H _].
    apply eqb_eq in H. now subst.
Qed.

Lemma forwards_iff (kind : DString) :
  ApiService.forwards kind = true <-> In kind ApiService.forwardedKinds.
Proof.
  unfold ApiService.forwards. rewrite existsb_exists. split.
  - intros (x & Hx & E). apply eqb_eq in E. now subst.
  - intros H. exists kind. split; [exact H|apply eqb_refl].
Qed.

(** C4, as the claim states it, fails: [configuration-update] is in the
    allow-list, the one [ApiService] forwards to its stream, and the
    listening page sends no request for it and stays as it is. *)
Lemma configuration_update_sends_no_request :
  In (str "configuration-update") ApiService.forwardedKinds /\
  listening idlePage /\
  Sync.step idlePage
    (Sync.event (str "configuration-update") (payload "configuration-update"))
  = idlePage /\
  Sync.requestsSent
    (Sync.step idlePage
       (Sync.event (str "configuration-update")
          (payload "configuration-update")))
  = Sync.requestsSent idlePage.
Proof.
  split; [simpl; tauto|].
  split; [repeat split|].
  split; vm_compute; reflexivity.
Qed.

(** C4, amended: on a listening page an event sends the request for the
    full configuration if and only if its kind is [home-page], or its
    kind is [dynamic-update] and its payload is a map whose [type], in
    lower case, is [home-page] or [dynamic-update]. Such an event is of
    an allow-listed kind; every other event, and so every event of a kind
    outside the allow-list, sends nothing and leaves the page's state,
    the stored products with it, unchanged. *)
Theorem reload_events (s : Sync.t) (kind : DString) (data : Dyn.t) :
  listening s ->
  (triggersReload kind data = true ->
   In kind ApiService.forwardedKinds /\
   Sync.step s (Sync.event kind data) = Sync.loadDynamicProductData s /\
   Sync.requestsSent (Sync.step s (Sync.event kind data))
   = S (Sync.requestsSent s)) /\
  (triggersReload kind data = false ->
   Sync.step s (Sync.event kind data) = s) /\
  (~ In kind ApiService.forwardedKinds ->
   Sync.step s (Sync.event kind data) = s).
Proof.
  intros Hs. pose proof (step_event s kind data Hs) as Hstep.
  split; [|split].
  - intros Ht. rewrite Ht in Hstep. rewrite Hstep.
    split; [|split; reflexivity].
    now apply forwards_iff, (triggersReload_forwarded kind data).
  - intros Ht. now rewrite Ht in Hstep.
  - intros Hk. destruct (triggersReload kind data) eqn:Ht; [|exact Hstep].
    exfalso. apply Hk.
    now apply forwards_iff, (triggersReload_forwarded kind data).
Qed.

Lemma reload_events_witness :
  Sync.requestsSent
    (Sync.step idlePage (Sync.event (str "home-page") DNull)) = 2%nat /\
  Sync.step idlePage (Sync.event (str "foo") (payload "foo")) = idlePage.
Proof.
  assert (Hs : listening idlePage) by (repeat split).
  split.
  - destruct (reload_events idlePage (str "home-page") DNull Hs)
      as (Hyes & _ & _).
    destruct (Hyes eq_refl) as (_ & _ & ->). reflexivity.
  - destruct (reload_events idlePage (str "foo") (payload "foo") Hs)
      as (_ & _ & Hno).
    apply Hno. simpl. intros H.
    repeat (destruct H as [H|H]; [discriminate|]). exact H.
Defined.

(** C5, as the claim states it, fails: three [dynamic-update] events on
    an idle page, before any answer, send three requests, and all three
    wait for their answers. *)
Lemma three_events_send_three_requests :
  Sync.inFlight idlePage = 0%nat /\
  Sync.requestsSent idlePage = 1%nat /\
  Sync.requestsSent
    (Sync.run idlePage
       (repeat (Sync.event (str "dynamic-update") (payload "dynamic-update"))
          3)) = 4%nat /\
  Sync.inFlight
    (Sync.run idlePage
       (repeat (Sync.event (str "dynamic-update") (payload "dynamic-update"))
          3)) = 3%nat.
Proof.
  repeat split; vm_compute; reflexivity.
Qed.

(** C5, amended: requests are not coalesced. On a listening page every
    reload event sends its own request, whether or not one is waiting:
    after [n] such events with no answer in between, [n] more requests
    have been sent and [n] more are waiting; one event on an idle page
    sends exactly one. *)
Theorem reloads_are_not_coalesced (s : Sync.t) (events : list Sync.Input) :
  listening s ->
  Forall reloadEvent events ->
  listening (Sync.run s events) /\
  Sync.requestsSent (Sync.run s events)
  = (Sync.requestsSent s + List.length events)%nat /\
  Sync.inFlight (Sync.run s events)
  = (Sync.inFlight s + List.length events)%nat.
Proof.
  intros Hs Hev. revert s Hs.
  induction Hev as [|e events (kind & data & -> & Ht) _ IH]; intros s Hs.
  - simpl. rewrite !Nat.add_0_r. auto.
  - change (Sync.run s (Sync.event kind data :: events))
      with (Sync.run (Sync.step s (Sync.event kind data)) events).
    rewrite (step_event s kind data Hs), Ht.
    destruct (IH _ (listening_load s Hs)) as (Hl & Hsent & Hfly).
    split; [exact Hl|]. rewrite Hsent, Hfly. simpl. lia.
Qed.

Lemma reloads_are_not_coalesced_witness :
  Sync.requestsSent
    (Sync.run idlePage
       [Sync.event (str "dynamic-update") (payload "dynamic-update")])
  = (Sync.requestsSent idlePage + 1)%nat /\
  Sync.inFlight
    (Sync.run idlePage
       (repeat (Sync.event (str "dynamic-update") (payload "dynamic-update"))
          3))
  = (Sync.inFlight idlePage + 3)%nat.
Proof.
  assert (Hs : listening idlePage) by (repeat split).
  assert (He : reloadEvent
                 (Sync.event (str "dynamic-update") (payload "dynamic-update"))).
  { exists (str "dynamic-update"), (payload "dynamic-update").
    split; reflexivity. }
  split.
  - apply (reloads_are_not_coalesced idlePage [_] Hs).
    repeat constructor; exact He.
  - apply (reloads_are_not_coalesced idlePage (repeat _ 3) Hs).
    repeat constructor; exact He.
Defined.

(** ** Configuration loads and the session's state *)

Section Frame.

Variable intParse : DString -> option Z.
Variable listSort :
  (Dyn.map -> Dyn.map -> Z) -> list Dyn.map -> list Dyn.map.
Variable toLowerCase : DString -> DString.

Lemma filterProducts_same_query (st : HomePageState) :
  sessionState (filterProducts toLowerCase (searchQuery st) st)
  = sessionState st.
Proof. reflexivity. Qed.

Lemma replaceConfig_frame (productCards : list Dyn.map)
  (doc : ConfigDocument) (st : HomePageState) :
  sessionState (replaceConfig intParse productCards toLowerCase doc st)
  = sessionState st.
Proof. reflexivity. Qed.

Lemma with_isLoading_frame (b : bool) (st : HomePageState) :
  sessionState (with_isLoading b st) = sessionState st.
Proof. reflexivity. Qed.

Lemma loadDynamicAppConfig_frame (productCards : list Dyn.map)
  (r : HttpResult) (st : HomePageState) :
  sessionState
    (loadDynamicAppConfig intParse productCards listSort toLowerCase r st)
  = sessionState st.
Proof.
  unfold loadDynamicAppConfig.
  destruct (decodeConfig listSort r) as [[doc|]|e].
  - apply replaceConfig_frame.
  - reflexivity.
  - apply with_isLoading_frame.
Qed.

Lemma loadDynamicData_frame (productCards : list Dyn.map)
  (r : HttpResult) (st : HomePageState) :
  sessionState
    (loadDynamicData intParse productCards listSort toLowerCase r st)
  = sessionState st.
Proof.
  unfold loadDynamicData, loadDynamicDataFinish, loadDynamicDataStart.
  destruct (homeMounted _).
  - rewrite with_isLoading_frame, loadDynamicAppConfig_frame.
    apply with_isLoading_frame.
  - rewrite loadDynamicAppConfig_frame. apply with_isLoading_frame.
Qed.

Lemma appStep_frame (a : App) (i : AppInput) :
  sessionState (home (appStep intParse listSort toLowerCase a i))
  = sessionState (home a).
Proof.
  destruct i as [ri|r]; simpl; [reflexivity|apply loadDynamicData_frame].
Qed.

End Frame.

(** C6: whatever realtime inputs and home page loads arrive, in any
    order and whether the fetches succeed or fail, the cart, the
    wishlist and the search query are afterwards what they were. *)
Theorem config_loads_keep_session_state
  (intParse : DString -> option Z)
  (listSort : (Dyn.map -> Dyn.map -> Z) -> list Dyn.map -> list Dyn.map)
  (toLowerCase : DString -> DString)
  (inputs : list AppInput) (a : App) :
  cartManager (home (appRun intParse listSort toLowerCase a inputs))
  = cartManager (home a) /\
  wishlistManager (home (appRun intParse listSort toLowerCase a inputs))
  = wishlistManager (home a) /\
  searchQuery (home (appRun intParse listSort toLowerCase a inputs))
  = searchQuery (home a).
Proof.
  assert (H : sessionState
                (home (appRun intParse listSort toLowerCase a inputs))
              = sessionState (home a)).
  { revert a. induction inputs as [|i inputs IH]; intros a; [reflexivity|].
    change (appRun intParse listSort toLowerCase a (i :: inputs))
      with (appRun intParse listSort toLowerCase
              (appStep intParse listSort toLowerCase a i) inputs).
    rewrite IH. apply appStep_frame. }
  unfold sessionState in H. injection H as Hc Hw Hq. auto.
Qed.

(** ** Widget resolution *)

Lemma not_known_neq (name known : DString) :
  ~ In name knownWidgetNames -> In known knownWidgetNames ->
  DartString.eqb name known = false.
Proof.
  intros Hn Hk. apply eqb_neq. intros ->. contradiction.
Qed.

Section Resolution.

Variable intParse : DString -> option Z.
Variable base64Decode : DString -> option (list N).

Lemma unknown_name_default (st : HomePageState) (widgetData : Dyn.map) :
  ~ In (widgetName widgetData) knownWidgetNames ->
  buildHomeWidgetFromConfig intParse base64Decode st widgetData
  = Returns SizedBoxShrink.
Proof.
  intros H. unfold buildHomeWidgetFromConfig.
  rewrite !(not_known_neq _ _ H); [reflexivity|..];
    unfold knownWidgetNames; simpl; tauto.
Qed.



End Resolution.




(** * Further properties of the code *)

(** ** Cart operations *)

Lemma with_items_same (m : CartManager.t) :
  CartManager.with_items m (CartManager.items m) = m.
Proof. now destruct m. Qed.

Lemma cart_filter_absent (key : DString) (l : list CartItem.t) :
  (forall i, In i l -> CartItem.id i <> key) ->
  filter (fun i => negb (DartString.eqb (CartItem.id i) key)) l = l.
Proof.
  induction l as [|i l IH]; intros H; simpl; [reflexivity|].
  replace (DartString.eqb (CartItem.id i) key) with false.
  - simpl. rewrite IH; [reflexivity|]. intros x Hx. apply H. now right.
  - symmetry. apply eqb_neq, H. now left.
Qed.

(** [removeItem] drops exactly the lines with the id and keeps the
    others; for an id no line has, the cart is left as it is; and a
    second removal changes nothing. *)
Theorem removeItem_drops_the_id (key : DString) (m : CartManager.t) :
  (forall i, In i (CartManager.items (CartManager.removeItem key m)) <->
             In i (CartManager.items m) /\ CartItem.id i <> key) /\
  ((forall i, In i (CartManager.items m) -> CartItem.id i <> key) ->
   CartManager.removeItem key m = m) /\
  CartManager.removeItem key (CartManager.removeItem key m)
  = CartManager.removeItem key m.
Proof.
  split; [|split].
  - intros i. unfold CartManager.removeItem. simpl. rewrite filter_In.
    split; intros [Hin H]; split; auto.
    + apply eqb_neq. now apply negb_true_iff.
    + apply negb_true_iff. now apply eqb_neq.
  - intros H. unfold CartManager.removeItem.
    rewrite (cart_filter_absent key _ H). apply with_items_same.
  - unfold CartManager.removeItem, CartManager.with_items. simpl.
    rewrite (cart_filter_absent key (filter _ _)); [reflexivity|].
    intros i Hi. apply filter_In in Hi.
    apply eqb_neq. now apply negb_true_iff.
Qed.

Lemma removeItem_drops_the_id_witness :
  CartManager.removeItem (str "z") (cartOf [line "a" 2; line "b" 1])
  = cartOf [line "a" 2; line "b" 1].
Proof.
  apply (proj1 (proj2 (removeItem_drops_the_id (str "z")
                         (cartOf [line "a" 2; line "b" 1])))).
  intros i [<-|[<-|[]]]; vm_compute; discriminate.
Defined.

Lemma indexWhere_none (key : DString) (l : list CartItem.t) :
  (forall i, In i l -> CartItem.id i <> key) ->
  CartManager.indexWhere key l = None.
Proof.
  induction l as [|i l IH]; intros H; simpl; [reflexivity|].
  replace (DartString.eqb (CartItem.id i) key) with false.
  - rewrite IH; [reflexivity|]. intros x Hx. apply H. now right.
  - symmetry. apply eqb_neq, H. now left.
Qed.

Lemma indexWhere_split (key : DString) (pre : list CartItem.t)
  (first : CartItem.t) (post : list CartItem.t) :
  (forall x, In x pre -> CartItem.id x <> key) ->
  CartItem.id first = key ->
  CartManager.indexWhere key (pre ++ first :: post)
  = Some (List.length pre).
Proof.
  intros Hpre Hfirst. induction pre as [|x pre IH]; simpl.
  - now rewrite (proj2 (eqb_eq _ _) Hfirst).
  - replace (DartString.eqb (CartItem.id x) key) with false.
    + rewrite IH; [reflexivity|]. intros y Hy. apply Hpre. now right.
    + symmetry. apply eqb_neq, Hpre. now left.
Qed.

Lemma add_quantity_at_split (n : Z) (pre : list CartItem.t)
  (first : CartItem.t) (post : list CartItem.t) :
  CartManager.add_quantity_at (List.length pre) n (pre ++ first :: post)
  = pre ++ CartItem.set_quantity (int_add (CartItem.quantity first) n) first
        :: post.
Proof.
  induction pre as [|x pre IH]; simpl; [reflexivity|]. now rewrite IH.
Qed.

(** [addItem] with an id no line has puts the item at the end; with an
    id some line has, the first such line gets the item's quantity added
    and keeps its own name, prices and image, and no other line changes:
    the item's prices are not looked at. *)
Theorem addItem_merges_into_first_line
  (item : CartItem.t) (m : CartManager.t) :
  ((forall i, In i (CartManager.items m) ->
              CartItem.id i <> CartItem.id item) ->
   CartManager.items (CartManager.addItem item m)
   = CartManager.items m ++ [item]) /\
  (forall pre first post,
      CartManager.items m = pre ++ first :: post ->
      (forall x, In x pre -> CartItem.id x <> CartItem.id item) ->
      CartItem.id first = CartItem.id item ->
      CartManager.items (CartManager.addItem item m)
      = pre
        ++ CartItem.mk (CartItem.id first) (CartItem.name first)
             (CartItem.price first) (CartItem.discountPrice first)
             (int_add (CartItem.quantity first) (CartItem.quantity item))
             (CartItem.image first)
        :: post).
Proof.
  unfold CartManager.addItem. split.
  - intros H. now rewrite (indexWhere_none _ _ H).
  - intros pre first post E Hpre Hfirst.
    rewrite E, (indexWhere_split _ pre first post Hpre Hfirst). simpl.
    apply add_quantity_at_split.
Qed.

Lemma addItem_merges_into_first_line_witness :
  CartManager.items
    (CartManager.addItem
       (CartItem.mk (str "b") (str "renamed") 99 1 4 None)
       (cartOf [line "a" 2; line "b" 1; line "c" 3]))
  = [line "a" 2; line "b" 5; line "c" 3].
Proof.
  apply (proj2 (addItem_merges_into_first_line
                  (CartItem.mk (str "b") (str "renamed") 99 1 4 None)
                  (cartOf [line "a" 2; line "b" 1; line "c" 3]))
           [line "a" 2] (line "b" 1) [line "c" 3]).
  - reflexivity.
  - intros x [<-|[]]. vm_compute. discriminate.
  - reflexivity.
Defined.

Lemma add_quantity_at_ids (k : nat) (n : Z) (l : list CartItem.t) :
  List.map CartItem.id (CartManager.add_quantity_at k n l)
  = List.map CartItem.id l.
Proof.
  revert k. induction l as [|i l IH]; intros k; [now destruct k|].
  destruct k as [|k]; simpl; [reflexivity|]. now rewrite IH.
Qed.

Lemma set_first_ids (key : DString) (q : Z) :
  forall l l', CartManager.set_first key q l = Some l' ->
               List.map CartItem.id l' = List.map CartItem.id l.
Proof.
  induction l as [|i l IH]; intros l' H; simpl in H; [discriminate|].
  destruct (DartString.eqb (CartItem.id i) key).
  - now injection H as <-.
  - destruct (CartManager.set_first key q l) as [l1|]; [|discriminate].
    injection H as <-. simpl. now rewrite (IH l1 eq_refl).
Qed.

Lemma cart_filter_NoDup (f : CartItem.t -> bool) (l : list CartItem.t) :
  NoDup (List.map CartItem.id l) ->
  NoDup (List.map CartItem.id (filter f l)).
Proof.
  induction l as [|i l IH]; simpl; intros H; [constructor|].
  inversion H as [|? ? Hnotin Hrest]; subst.
  destruct (f i); simpl; [|now apply IH].
  constructor; [|now apply IH].
  intros Hin. apply Hnotin. apply in_map_iff in Hin.
  destruct Hin as (x & Hx & Hin). apply filter_In in Hin.
  apply in_map_iff. exists x. tauto.
Qed.

Lemma indexWhere_none_not_in (key : DString) (l : list CartItem.t) :
  CartManager.indexWhere key l = None ->
  ~ In key (List.map CartItem.id l).
Proof.
  induction l as [|i l IH]; simpl; intros H; [tauto|].
  destruct (DartString.eqb (CartItem.id i) key) eqn:E; [discriminate|].
  destruct (CartManager.indexWhere key l); [discriminate|].
  apply eqb_neq in E. intros [Hi|Hin]; [contradiction|now apply IH].
Qed.

Lemma cartApply_NoDup (m : CartManager.t) (o : CartOp) :
  NoDup (cartIds m) -> NoDup (cartIds (cartApply m o)).
Proof.
  unfold cartIds. intros H. destruct o as [item|key|key q|]; simpl.
  - unfold CartManager.addItem.
    destruct (CartManager.indexWhere (CartItem.id item) (CartManager.items m))
      as [k|] eqn:E; simpl.
    + now rewrite add_quantity_at_ids.
    + rewrite map_app. simpl. apply NoDup_snoc; [exact H|].
      now apply indexWhere_none_not_in.
  - now apply cart_filter_NoDup.
  - unfold CartManager.updateQuantity.
    destruct (CartManager.set_first key q (CartManager.items m))
      as [l|] eqn:E; simpl; [|exact H].
    now rewrite (set_first_ids key q _ l E).
  - constructor.
Qed.

(** Whatever a session calls on a new cart ([addItem], [removeItem],
    [updateQuantity], [clear], in any order), no two lines of the cart
    have the same id. *)
Theorem cart_ids_stay_distinct (ops : list CartOp) :
  NoDup (cartIds (cartRun ops)).
Proof.
  unfold cartRun.
  assert (H : forall l m, NoDup (cartIds m) ->
                          NoDup (cartIds (fold_left cartApply l m))).
  { induction l as [|o l IH]; intros m Hm; simpl; [exact Hm|].
    apply IH. now apply cartApply_NoDup. }
  apply H. constructor.
Qed.

Lemma find_set_first_same (key : DString) (q : Z) :
  forall l l', CartManager.set_first key q l = Some l' ->
    exists i, find (fun i => DartString.eqb (CartItem.id i) key) l = Some i /\
              find (fun i => DartString.eqb (CartItem.id i) key) l'
              = Some (CartItem.set_quantity q i).
Proof.
  induction l as [|i l IH]; intros l' H; simpl in H; [discriminate|].
  simpl. destruct (DartString.eqb (CartItem.id i) key) eqn:E.
  - injection H as <-. exists i. simpl. now rewrite E.
  - destruct (CartManager.set_first key q l) as [l1|]; [|discriminate].
    injection H as <-. simpl. rewrite E. now apply IH.
Qed.

Lemma find_set_first_other (key other : DString) (q : Z) :
  other <> key ->
  forall l l', CartManager.set_first key q l = Some l' ->
    find (fun i => DartString.eqb (CartItem.id i) other) l'
    = find (fun i => DartString.eqb (CartItem.id i) other) l.
Proof.
  intros Hne. induction l as [|i l IH]; intros l' H; simpl in H;
    [discriminate|].
  destruct (DartString.eqb (CartItem.id i) key) eqn:E.
  - injection H as <-. simpl. apply eqb_eq in E.
    replace (DartString.eqb (CartItem.id i) other) with false;
      [reflexivity|].
    symmetry. apply eqb_neq. congruence.
  - destruct (CartManager.set_first key q l) as [l1|]; [|discriminate].
    injection H as <-. simpl. now rewrite (IH l1 eq_refl).
Qed.

(** When [updateQuantity] returns, the first line with the id is the
    one it was, with the new quantity; the line found for any other id
    is the same as before, and the ids of the cart, in order, too. *)
Theorem updateQuantity_then_read
  (key : DString) (q : Z) (m m' : CartManager.t) :
  CartManager.updateQuantity key q m = Returns m' ->
  (exists old, firstLine key m = Some old /\
               firstLine key m' = Some (CartItem.set_quantity q old)) /\
  (forall other, other <> key -> firstLine other m' = firstLine other m) /\
  cartIds m' = cartIds m.
Proof.
  unfold CartManager.updateQuantity, firstLine, cartIds.
  destruct (CartManager.set_first key q (CartManager.items m))
    as [l|] eqn:E; [|discriminate].
  intros H. injection H as <-. simpl. split; [|split].
  - now apply find_set_first_same.
  - intros other Hne. now apply (find_set_first_other key other q Hne _ _ E).
  - now apply (set_first_ids key q _ l).
Qed.

Lemma updateQuantity_then_read_witness :
  firstLine (str "b") (cartOf [line "a" 2; line "b" 7]) = Some (line "b" 7).
Proof.
  assert (E : CartManager.updateQuantity (str "b") 7
                (cartOf [line "a" 2; line "b" 1])
              = Returns (cartOf [line "a" 2; line "b" 7]))
    by (vm_compute; reflexivity).
  destruct (updateQuantity_then_read _ _ _ _ E) as ((old & Hold & Hnew) & _).
  rewrite Hnew. vm_compute in Hold. injection Hold as <-. reflexivity.
Defined.

(** ** The cart page's buttons and the limit *)

Lemma unique_line_split (l : list CartItem.t) (item : CartItem.t) :
  NoDup (List.map CartItem.id l) -> In item l ->
  exists pre post,
    l = pre ++ item :: post /\
    (forall x, In x pre -> CartItem.id x <> CartItem.id item) /\
    (forall x, In x post -> CartItem.id x <> CartItem.id item).
Proof.
  intros Hnd Hin. destruct (in_split _ _ Hin) as (pre & post & ->).
  exists pre, post. split; [reflexivity|].
  rewrite map_app in Hnd. simpl in Hnd. apply NoDup_remove_2 in Hnd.
  split; intros x Hx E; apply Hnd, in_or_app; [left|right];
    rewrite <- E; now apply in_map.
Qed.

Lemma set_first_split (key : DString) (q : Z) (pre : list CartItem.t)
  (item : CartItem.t) (post : list CartItem.t) :
  (forall x, In x pre -> CartItem.id x <> key) ->
  CartItem.id item = key ->
  CartManager.set_first key q (pre ++ item :: post)
  = Some (pre ++ CartItem.set_quantity q item :: post).
Proof.
  intros Hpre Hitem. induction pre as [|x pre IH]; simpl.
  - now rewrite (proj2 (eqb_eq _ _) Hitem).
  - replace (DartString.eqb (CartItem.id x) key) with false.
    + rewrite IH; [reflexivity|]. intros y Hy. apply Hpre. now right.
    + symmetry. apply eqb_neq, Hpre. now left.
Qed.

Lemma quantitySum_middle (pre : list CartItem.t) (x : CartItem.t)
  (post : list CartItem.t) :
  quantitySum (pre ++ x :: post)
  = quantitySum pre + CartItem.quantity x + quantitySum post.
Proof. rewrite quantitySum_app. simpl. ring. Qed.

Lemma quantitySum_nonneg (l : list CartItem.t) :
  Forall (fun i => 1 <= CartItem.quantity i) l -> 0 <= quantitySum l.
Proof.
  induction 1 as [|i l Hi _ IH]; simpl; lia.
Qed.

Lemma withinLimit_set (m : CartManager.t) (pre post : list CartItem.t)
  (item : CartItem.t) (q : Z) :
  withinLimit m ->
  CartManager.items m = pre ++ item :: post ->
  1 <= q ->
  quantitySum (CartManager.items m) - CartItem.quantity item + q <= 10 ->
  withinLimit
    (CartManager.with_items m (pre ++ CartItem.set_quantity q item :: post)).
Proof.
  unfold withinLimit, cartIds. intros (Hnd & Hall & Hsum) E Hq Hnew.
  rewrite E in *. simpl. split; [|split].
  - rewrite map_app in *. exact Hnd.
  - apply Forall_app in Hall. destruct Hall as [Hpre Hpost].
    apply Forall_app. split; [exact Hpre|].
    inversion Hpost; subst. now constructor.
  - rewrite quantitySum_middle in *. simpl. lia.
Qed.

(** A cart with distinct ids, quantities of at least 1 and at most 10
    units in all stays such a cart under the cart page's plus and minus
    buttons, on whichever line they are tapped; neither button throws. *)
Theorem cart_page_keeps_the_limit (m : CartManager.t) (item : CartItem.t) :
  withinLimit m ->
  In item (CartManager.items m) ->
  (exists m' message,
      CartPage.onIncreaseTap item m = Returns (m', message) /\
      withinLimit m') /\
  (exists m' message,
      CartPage.onDecreaseTap item m = Returns (m', message) /\
      withinLimit m').
Proof.
  intros Hm Hin. pose proof Hm as (Hnd & Hall & Hsum).
  destruct (unique_line_split _ item Hnd Hin)
    as (pre & post & E & Hpre & Hpost).
  assert (Hq : 1 <= CartItem.quantity item).
  { rewrite Forall_forall in Hall. now apply Hall. }
  assert (Hparts : 0 <= quantitySum pre /\ 0 <= quantitySum post).
  { rewrite E in Hall. apply Forall_app in Hall. destruct Hall as [H1 H2].
    inversion H2; subst. split; now apply quantitySum_nonneg. }
  assert (Hmid : quantitySum (CartManager.items m)
                 = quantitySum pre + CartItem.quantity item
                   + quantitySum post)
    by (rewrite E; apply quantitySum_middle).
  assert (Htotal : CartManager.totalQuantity m
                   = quantitySum (CartManager.items m)).
  { rewrite totalQuantity_sum. apply wrap64_small. lia. }
  split.
  - unfold CartPage.onIncreaseTap. rewrite Htotal.
    destruct (Z.ltb_spec (quantitySum (CartManager.items m)) 10).
    + unfold CartManager.updateQuantity.
      rewrite E, (set_first_split _ _ pre item post Hpre eq_refl). simpl.
      eexists _, _. split; [reflexivity|].
      assert (Hadd : int_add (CartItem.quantity item) 1
                     = CartItem.quantity item + 1)
        by (apply wrap64_small; lia).
      rewrite Hadd. apply withinLimit_set; auto; lia.
    + eexists _, _. split; [reflexivity|exact Hm].
  - unfold CartPage.onDecreaseTap.
    destruct (Z.ltb_spec 1 (CartItem.quantity item)).
    + unfold CartManager.updateQuantity.
      rewrite E, (set_first_split _ _ pre item post Hpre eq_refl). simpl.
      eexists _, _. split; [reflexivity|].
      assert (Hsub : int_sub (CartItem.quantity item) 1
                     = CartItem.quantity item - 1)
        by (apply wrap64_small; lia).
      rewrite Hsub. apply withinLimit_set; auto; lia.
    + eexists _, _. split; [reflexivity|].
      unfold withinLimit, cartIds, CartManager.removeItem. simpl.
      split; [now apply cart_filter_NoDup|]. split.
      * apply Forall_forall. intros x Hx. apply filter_In in Hx.
        rewrite Forall_forall in Hall. now apply Hall.
      * rewrite E, filter_app. simpl. rewrite eqb_refl. simpl.
        rewrite (cart_filter_absent _ pre Hpre),
          (cart_filter_absent _ post Hpost), quantitySum_app. lia.
Qed.

Lemma cart_page_keeps_the_limit_witness :
  exists m' message,
    CartPage.onIncreaseTap (line "a" 2) (cartOf [line "a" 2; line "b" 7])
    = Returns (m', message) /\ withinLimit m'.
Proof.
  apply (cart_page_keeps_the_limit (cartOf [line "a" 2; line "b" 7])
           (line "a" 2)).
  - repeat split.
    + repeat constructor; simpl; intros H;
        repeat (destruct H as [H|H]; [discriminate|]); exact H.
    + repeat constructor; simpl; lia.
    + simpl. lia.
  - simpl. auto.
Defined.

(** ** Wishlist operations *)

(** [addItem] on the wishlist never stores an id twice: the entry ends
    up in the wishlist; when the id is there already the list is left as
    it is, so adding twice is adding once and the first entry's fields
    stay. *)
Theorem wishlist_addItem_once
  (item : WishlistItem.t) (w : WishlistManager.t) :
  WishlistManager.isInWishlist (WishlistItem.id item)
    (WishlistManager.addItem item w) = true /\
  (WishlistManager.isInWishlist (WishlistItem.id item) w = true ->
   WishlistManager.addItem item w = w) /\
  WishlistManager.addItem item (WishlistManager.addItem item w)
  = WishlistManager.addItem item w.
Proof.
  assert (Hpresent :
            WishlistManager.isInWishlist (WishlistItem.id item) w = true ->
            WishlistManager.addItem item w = w).
  { unfold WishlistManager.isInWishlist, WishlistManager.addItem.
    now intros ->. }
  assert (Hin : WishlistManager.isInWishlist (WishlistItem.id item)
                  (WishlistManager.addItem item w) = true).
  { destruct (WishlistManager.isInWishlist (WishlistItem.id item) w) eqn:E.
    - now rewrite (Hpresent eq_refl).
    - unfold WishlistManager.isInWishlist in *.
      unfold WishlistManager.addItem. rewrite E. simpl.
      rewrite existsb_app. simpl. now rewrite eqb_refl, orb_true_r. }
  split; [exact Hin|]. split; [exact Hpresent|].
  unfold WishlistManager.addItem at 1.
  unfold WishlistManager.isInWishlist in Hin. now rewrite Hin.
Qed.

Lemma wishlist_addItem_once_witness :
  WishlistManager.addItem
    (WishlistItem.mk (str "a") (str "other") 5 0 None (str "$"))
    [wished "a"; wished "b"]
  = [wished "a"; wished "b"].
Proof.
  apply (proj1 (proj2 (wishlist_addItem_once
                         (WishlistItem.mk (str "a") (str "other") 5 0 None
                            (str "$"))
                         [wished "a"; wished "b"]))).
  reflexivity.
Defined.

(** [removeItem] on the wishlist: afterwards the id is not in the
    wishlist and every other id is in it exactly if it was before; and
    removing an entry just added, whose id was not there, gives back the
    wishlist as it was. *)
Theorem wishlist_removeItem_undoes_addItem
  (item : WishlistItem.t) (w : WishlistManager.t) :
  (forall key,
      WishlistManager.isInWishlist key
        (WishlistManager.removeItem (WishlistItem.id item) w)
      = if DartString.eqb key (WishlistItem.id item) then false
        else WishlistManager.isInWishlist key w) /\
  (WishlistManager.isInWishlist (WishlistItem.id item) w = false ->
   WishlistManager.removeItem (WishlistItem.id item)
     (WishlistManager.addItem item w) = w).
Proof.
  split.
  - intros key. unfold WishlistManager.isInWishlist, WishlistManager.removeItem.
    destruct (DartString.eqb key (WishlistItem.id item)) eqn:E.
    + apply eqb_eq in E. subst key. apply existsb_filter_same.
    + apply existsb_filter_other. now apply eqb_neq.
  - intros H. unfold WishlistManager.isInWishlist in H.
    unfold WishlistManager.addItem, WishlistManager.removeItem.
    rewrite H. simpl. rewrite filter_app. simpl. rewrite eqb_refl. simpl.
    rewrite app_nil_r. now apply filter_absent.
Qed.

Lemma wishlist_removeItem_undoes_addItem_witness :
  WishlistManager.removeItem (str "c")
    (WishlistManager.addItem (wished "c") [wished "a"; wished "b"])
  = [wished "a"; wished "b"].
Proof.
  apply (proj2 (wishlist_removeItem_undoes_addItem (wished "c")
                  [wished "a"; wished "b"])).
  reflexivity.
Defined.

(** ** Quantity selectors *)

Lemma get_bounds (p : DString) (m : Quantities.t) (q : Z) :
  selectorBounds m -> Quantities.get p m = Some q -> 1 <= q <= 10.
Proof.
  induction 1 as [|[k v] m Hv _ IH]; simpl; [discriminate|].
  destruct (DartString.eqb k p); [|exact IH].
  intros H. injection H as <-. exact Hv.
Qed.

Lemma getProductQuantity_bounds (p : DString) (m : Quantities.t) :
  selectorBounds m -> 1 <= Quantities.getProductQuantity p m <= 10.
Proof.
  intros Hm. unfold Quantities.getProductQuantity.
  destruct (Quantities.get p m) as [q|] eqn:E; [|lia].
  exact (get_bounds p m q Hm E).
Qed.

Lemma put_bounds (p : DString) (v : Z) (m : Quantities.t) :
  1 <= v <= 10 -> selectorBounds m -> selectorBounds (Quantities.put p v m).
Proof.
  intros Hv. induction 1 as [|[k w] m Hw Hm IH]; simpl.
  - repeat constructor; simpl; lia.
  - destruct (DartString.eqb k p); constructor; auto.
Qed.

Lemma apply_bounds (m : Quantities.t) (o : Quantities.tap) :
  selectorBounds m -> selectorBounds (Quantities.apply m o).
Proof.
  intros Hm. destruct o as [p|p]; simpl;
    unfold Quantities.incrementQuantity, Quantities.decrementQuantity;
    pose proof (getProductQuantity_bounds p m Hm) as Hq.
  - destruct (Z.ltb_spec (Quantities.getProductQuantity p m) 10); [|exact Hm].
    apply put_bounds; [|exact Hm]. unfold int_add.
    rewrite wrap64_small; lia.
  - destruct (Z.ltb_spec 1 (Quantities.getProductQuantity p m)); [|exact Hm].
    apply put_bounds; [|exact Hm]. unfold int_sub.
    rewrite wrap64_small; lia.
Qed.

Lemma run_bounds (taps : list Quantities.tap) :
  selectorBounds (Quantities.run taps).
Proof.
  unfold Quantities.run.
  assert (H : forall l m, selectorBounds m ->
                          selectorBounds (fold_left Quantities.apply l m)).
  { induction l as [|o l IH]; intros m Hm; simpl; [exact Hm|].
    apply IH. now apply apply_bounds. }
  apply H. constructor.
Qed.

(** However the plus and minus of the selectors are tapped, the
    quantity shown for any product stays between 1 and 10. *)
Theorem selector_quantity_bounds
  (taps : list Quantities.tap) (productId : DString) :
  1 <= Quantities.getProductQuantity productId (Quantities.run taps) <= 10.
Proof.
  apply getProductQuantity_bounds, run_bounds.
Qed.

Lemma valuesSum_put (p : DString) (v : Z) (m : Quantities.t) :
  Quantities.valuesSum (Quantities.put p v m)
  = Quantities.valuesSum m
    - match Quantities.get p m with Some q => q | None => 0 end + v.
Proof.
  induction m as [|[k w] m IH]; simpl; [ring|].
  destruct (DartString.eqb k p); simpl; [ring|]. rewrite IH. ring.
Qed.

Lemma fold_values (l : list Z) (a : Z) :
  wrap64 (fold_left (fun sum quantity => int_add sum quantity) l a)
  = wrap64 (a + fold_right Z.add 0 l).
Proof.
  revert a. induction l as [|q l IH]; intros a; simpl.
  - f_equal. ring.
  - rewrite IH. unfold int_add. rewrite wrap64_add_l. f_equal. ring.
Qed.

Lemma fold_values_wrapped (l : list Z) (a : Z) :
  wrap64 a = a ->
  wrap64 (fold_left (fun sum quantity => int_add sum quantity) l a)
  = fold_left (fun sum quantity => int_add sum quantity) l a.
Proof.
  revert a. induction l as [|q l IH]; intros a Ha; simpl; [exact Ha|].
  apply IH. unfold int_add. apply wrap64_idem.
Qed.

Lemma valuesSum_map (m : Quantities.t) :
  fold_right Z.add 0 (List.map snd m) = Quantities.valuesSum m.
Proof.
  induction m as [|e m IH]; simpl; [reflexivity|]. now rewrite IH.
Qed.

(** What [_getTotalCartQuantity] counts: the stored quantities only. A
    product whose selector was never tapped shows 1 and counts 0, so the
    first plus on it raises the total by 2; a plus below 10 raises it by
    1 and a minus above 1 lowers it by 1; at 10 and at 1 they change
    nothing. *)
Theorem selector_total_counts_stored_quantities
  (taps : list Quantities.tap) (productId : DString) :
  Quantities.getTotalCartQuantity (Quantities.run taps)
  = wrap64 (Quantities.valuesSum (Quantities.run taps)) /\
  Quantities.valuesSum
    (Quantities.incrementQuantity productId (Quantities.run taps))
  = Quantities.valuesSum (Quantities.run taps)
    + match Quantities.get productId (Quantities.run taps) with
      | None => 2
      | Some q => if q <? 10 then 1 else 0
      end /\
  Quantities.valuesSum
    (Quantities.decrementQuantity productId (Quantities.run taps))
  = Quantities.valuesSum (Quantities.run taps)
    - match Quantities.get productId (Quantities.run taps) with
      | None => 0
      | Some q => if 1 <? q then 1 else 0
      end.
Proof.
  pose proof (run_bounds taps) as Hm.
  set (m := Quantities.run taps) in *. split; [|split].
  - unfold Quantities.getTotalCartQuantity.
    rewrite <- fold_values_wrapped by reflexivity.
    rewrite fold_values, valuesSum_map. f_equal.
  - unfold Quantities.incrementQuantity, Quantities.getProductQuantity.
    destruct (Quantities.get productId m) as [q|] eqn:E.
    + pose proof (get_bounds productId m q Hm E).
      destruct (Z.ltb_spec q 10); [|ring].
      rewrite valuesSum_put, E. unfold int_add. rewrite wrap64_small; lia.
    + simpl. rewrite valuesSum_put, E.
      replace (int_add 1 1) with 2 by reflexivity. ring.
  - unfold Quantities.decrementQuantity, Quantities.getProductQuantity.
    destruct (Quantities.get productId m) as [q|] eqn:E.
    + pose proof (get_bounds productId m q Hm E).
      destruct (Z.ltb_spec 1 q); [|ring].
      rewrite valuesSum_put, E. unfold int_sub. rewrite wrap64_small; lia.
    + simpl. ring.
Qed.

(** ** Currency detection *)

(** [detectCurrency] gives the first symbol of its list that occurs in
    the string, and the dollar sign when none does: the result is always
    one of the nine symbols, and if any of them occurs in the string, the
    result does. *)
Theorem detectCurrency_first_symbol (priceString : DString) :
  PriceUtils.detectCurrency priceString
  = match find (DartString.contains priceString) PriceUtils.currencySymbols
    with
    | Some sym => sym
    | None => PriceUtils.dollar
    end /\
  In (PriceUtils.detectCurrency priceString) PriceUtils.currencySymbols /\
  ((exists sym, In sym PriceUtils.currencySymbols /\
                DartString.contains priceString sym = true) ->
   DartString.contains priceString (PriceUtils.detectCurrency priceString)
   = true).
Proof.
  assert (H : PriceUtils.detectCurrency priceString
              = match find (DartString.contains priceString)
                        PriceUtils.currencySymbols with
                | Some sym => sym
                | None => PriceUtils.dollar
                end).
  { unfold PriceUtils.detectCurrency, PriceUtils.currencySymbols.
    cbn [find].
    repeat (match goal with
            | |- context [DartString.contains priceString ?p] =>
                destruct (DartString.contains priceString p); [reflexivity|]
            end).
    reflexivity. }
  split; [exact H|]. rewrite H.
  destruct (find (DartString.contains priceString) PriceUtils.currencySymbols)
    as [sym|] eqn:E.
  - apply find_some in E. destruct E as [Hin Hc].
    split; [exact Hin|]. intros _. exact Hc.
  - split; [simpl; tauto|]. intros (sym & Hin & Hc).
    rewrite (find_none _ _ E sym Hin) in Hc. discriminate.
Qed.

Lemma detectCurrency_first_symbol_witness :
  DartString.contains (str "10 " ++ PriceUtils.yen ++ str " or $12")
    (PriceUtils.detectCurrency
       (str "10 " ++ PriceUtils.yen ++ str " or $12")) = true.
Proof.
  apply (proj2 (proj2 (detectCurrency_first_symbol
                         (str "10 " ++ PriceUtils.yen ++ str " or $12")))).
  exists PriceUtils.yen. split; [simpl; tauto|reflexivity].
Defined.

(** ** The realtime page over time *)

Lemma step_without_socket (s : Sync.t) (i : SocketInput) :
  DynamicAppSync.socket (Sync.appSync s) = false ->
  Sync.step s (Sync.FromSocket i) = s.
Proof.
  destruct s as [cards loading err [sock conn adm closed] sub mnt n sent].
  simpl. intros ->. reflexivity.
Qed.

Lemma step_unmounted (s : Sync.t) (i : SocketInput) :
  Sync.mounted s = false ->
  exists a, Sync.step s (Sync.FromSocket i) = Sync.with_appSync a s.
Proof.
  intros Hm. unfold Sync.step.
  destruct (DynamicAppSync.onSocket i (Sync.appSync s)) as [[a [u|]]|e].
  - exists a. unfold Sync.onUpdate. simpl. rewrite Hm. simpl.
    now destruct (Sync.subscribed s).
  - now exists a.
  - exists (Sync.appSync s). now destruct s.
Qed.

(** After [dispose] no socket input changes anything on the page; and a
    page that is not mounted never sends a request or replaces its
    products, whatever the socket delivers. *)
Theorem disposed_page_ignores_the_socket
  (s : Sync.t) (inputs : list SocketInput) :
  Sync.run (Sync.dispose s) (List.map Sync.FromSocket inputs)
  = Sync.dispose s /\
  (Sync.mounted s = false ->
   Sync.requestsSent (Sync.run s (List.map Sync.FromSocket inputs))
   = Sync.requestsSent s /\
   Sync.inFlight (Sync.run s (List.map Sync.FromSocket inputs))
   = Sync.inFlight s /\
   Sync.productCards (Sync.run s (List.map Sync.FromSocket inputs))
   = Sync.productCards s).
Proof.
  split.
  - induction inputs as [|i inputs IH]; [reflexivity|].
    simpl List.map.
    change (Sync.run (Sync.dispose s)
              (Sync.FromSocket i :: List.map Sync.FromSocket inputs))
      with (Sync.run (Sync.step (Sync.dispose s) (Sync.FromSocket i))
              (List.map Sync.FromSocket inputs)).
    now rewrite step_without_socket.
  - revert s. induction inputs as [|i inputs IH]; intros s Hm; [auto|].
    simpl List.map.
    change (Sync.run s (Sync.FromSocket i :: List.map Sync.FromSocket inputs))
      with (Sync.run (Sync.step s (Sync.FromSocket i))
              (List.map Sync.FromSocket inputs)).
    destruct (step_unmounted s i Hm) as (a & ->).
    apply (IH (Sync.with_appSync a s)). exact Hm.
Qed.

Lemma disposed_page_ignores_the_socket_witness :
  Sync.requestsSent
    (Sync.run (Sync.dispose idlePage)
       (List.map Sync.FromSocket
          [SocketConnect; SocketEvent (str "home-page") DNull]))
  = Sync.requestsSent (Sync.dispose idlePage).
Proof.
  apply (proj2 (disposed_page_ignores_the_socket (Sync.dispose idlePage)
                  [SocketConnect; SocketEvent (str "home-page") DNull])).
  reflexivity.
Defined.

(** A reload that fails keeps the products: when the request fails, the
    status is not 200, the body is not JSON or its [success] is not
    true, the product list is the one before, [isLoading] is false and
    [errorMessage] records the cause. *)
Theorem reload_failure_keeps_products (s : Sync.t) (r : HttpResult) :
  Sync.inFlight s <> 0%nat ->
  (forall e, Sync.newProducts r = Throws e ->
     Sync.productCards (Sync.completeLoad r s) = Sync.productCards s /\
     Sync.errorMessage (Sync.completeLoad r s) = Some e /\
     Sync.isLoading (Sync.completeLoad r s) = false /\
     S (Sync.inFlight (Sync.completeLoad r s)) = Sync.inFlight s) /\
  Sync.newProducts RequestFails = Throws ClientException /\
  (forall code body, code <> 200 ->
     Sync.newProducts (Response code body) = Throws (Exception_HTTP code)) /\
  Sync.newProducts (Response 200 None) = Throws FormatException /\
  (forall m, Dyn.isTrue (Dyn.lookup (str "success") m) = false ->
     Sync.newProducts (Response 200 (Some (DMap m)))
     = Throws Exception_InvalidResponseFormat).
Proof.
  intros Hfly. split; [|split; [|split; [|split]]].
  - intros e He. unfold Sync.completeLoad.
    destruct (Sync.inFlight s) as [|n]; [contradiction|].
    rewrite He. simpl. auto.
  - reflexivity.
  - intros code body Hcode. simpl.
    destruct (Z.eqb_spec code 200); [contradiction|reflexivity].
  - reflexivity.
  - intros m Hm. simpl. now rewrite Hm.
Qed.

Lemma reload_failure_keeps_products_witness :
  Sync.productCards
    (Sync.completeLoad (Response 503 None)
       (Sync.loadDynamicProductData idlePage))
  = Sync.productCards (Sync.loadDynamicProductData idlePage) /\
  Sync.errorMessage
    (Sync.completeLoad (Response 503 None)
       (Sync.loadDynamicProductData idlePage))
  = Some (Exception_HTTP 503).
Proof.
  assert (Hfly : Sync.inFlight (Sync.loadDynamicProductData idlePage)
                 <> 0%nat) by discriminate.
  destruct (reload_failure_keeps_products
              (Sync.loadDynamicProductData idlePage) (Response 503 None) Hfly)
    as (Hkeep & _ & Hcode & _).
  destruct (Hkeep (Exception_HTTP 503)) as (Hp & He & _).
  - apply Hcode. discriminate.
  - split; assumption.
Defined.

(** ** Reading the products out of a response *)

Lemma forEach_maps (l : list Dyn.map) (acc : list Dyn.map) :
  forEach (fun acc x => match x with
                        | DMap m => Returns (acc ++ [m])
                        | _ => Throws TypeError
                        end) (List.map DMap l) acc
  = Returns (acc ++ l).
Proof.
  revert acc. induction l as [|m l IH]; intros acc; simpl.
  - now rewrite app_nil_r.
  - rewrite IH. now rewrite <- app_assoc.
Qed.

Lemma listOfMapsFrom_maps (l : list Dyn.map) :
  Dyn.listOfMapsFrom (DList (List.map DMap l)) = Returns l.
Proof. unfold Dyn.listOfMapsFrom. apply forEach_maps. Qed.

Lemma productsOfPage_pageOf (widgets : list (DString * list Dyn.map))
  (acc : list Dyn.map) :
  Sync.productsOfPage acc (pageOf widgets)
  = Returns (acc ++ cardsOfPage widgets).
Proof.
  unfold Sync.productsOfPage, pageOf, cardsOfPage.
  change (Dyn.index (DMap [(str "widgets", ?v)]) (str "widgets"))
    with (Returns v).
  cbn [bind Dyn.isNull Dyn.iterate].
  revert acc. induction widgets as [|[name cards] widgets IH]; intros acc.
  - simpl. now rewrite app_nil_r.
  - cbn [List.map forEach fst snd List.concat].
    change (Dyn.index (DMap (widgetOf name cards)) (str "properties"))
      with (Returns
              (DMap [(str "productCards", DList (List.map DMap cards))])).
    cbn [bind Dyn.isNull].
    change (Dyn.index
              (DMap [(str "productCards", DList (List.map DMap cards))])
              (str "productCards"))
      with (Returns (DList (List.map DMap cards))).
    cbn [bind Dyn.isNull]. rewrite listOfMapsFrom_maps. cbn [bind].
    rewrite IH. now rewrite app_assoc.
Qed.

(** The realtime reload collects the product cards of every widget of
    every page, in the order of the document, whatever the widgets are
    called. *)
Theorem reload_collects_all_pages
  (pages : list (list (DString * list Dyn.map))) :
  Sync.newProducts (formResponse pages)
  = Returns (List.concat (List.map cardsOfPage pages)).
Proof.
  unfold formResponse, Sync.newProducts.
  change (200 =? 200) with true. cbv iota.
  change (Dyn.index (DMap [(str "success", DBool true); (str "pages", ?v)])
            (str "success")) with (Returns (DBool true)).
  cbn [bind Dyn.isTrue].
  change (Dyn.index
            (DMap [(str "success", DBool true);
                   (str "pages", DList (List.map pageOf pages))])
            (str "pages")) with (Returns (DList (List.map pageOf pages))).
  cbn [bind].
  assert (H : forall l acc,
             forEach Sync.productsOfPage (List.map pageOf l) acc
             = Returns (acc ++ List.concat (List.map cardsOfPage l))).
  { induction l as [|p l IH]; intros acc; simpl.
    - now rewrite app_nil_r.
    - rewrite productsOfPage_pageOf. cbn [bind]. rewrite IH.
      now rewrite app_assoc. }
  apply (H pages []).
Qed.

Lemma widgetName_widgetOf (name : DString) (cards : list Dyn.map) :
  widgetName (widgetOf name cards) = name.
Proof. reflexivity. Qed.



(** ** The home page's configuration *)

Section HomeFacts.

Variable intParse : DString -> option Z.
Variable productCards : list Dyn.map.
Variable listSort :
  (Dyn.map -> Dyn.map -> Z) -> list Dyn.map -> list Dyn.map.
Variable toLowerCase : DString -> DString.

(** A home page load that yields no document (the request fails, the
    status is not 200, the body is not JSON, [success] is not true, or a
    widget is not a map) keeps every configuration field as it was:
    products, shown products, widgets, store info, design settings and
    background; on a mounted page [_isLoading] ends false. *)
Theorem failed_home_load_keeps_config (r : HttpResult) (st : HomePageState) :
  (forall doc, decodeConfig listSort r <> Returns (Some doc)) ->
  configFields
    (loadDynamicData intParse productCards listSort toLowerCase r st)
  = configFields st /\
  (homeMounted st = true ->
   homeIsLoading
     (loadDynamicData intParse productCards listSort toLowerCase r st)
   = false).
Proof.
  intros H.
  unfold loadDynamicData, loadDynamicDataFinish, loadDynamicDataStart,
    loadDynamicAppConfig.
  destruct (decodeConfig listSort r) as [[doc|]|e].
  - exfalso. now apply (H doc).
  - simpl. split; [now destruct (homeMounted st)|]. now intros ->.
  - simpl. split; [now destruct (homeMounted st)|]. now intros ->.
Qed.

Lemma decodeConfig_other_status (code : Z) (body : option Dyn.t) :
  code <> 200 -> decodeConfig listSort (Response code body) = Returns None.
Proof.
  intros H. simpl. destruct (Z.eqb_spec code 200); [contradiction|reflexivity].
Qed.

Lemma filterProducts_shows (query : DString) (st : HomePageState) :
  showsTheFilter toLowerCase (filterProducts toLowerCase query st).
Proof. reflexivity. Qed.

Lemma loadDynamicData_shows (r : HttpResult) (st : HomePageState) :
  showsTheFilter toLowerCase st ->
  showsTheFilter toLowerCase
    (loadDynamicData intParse productCards listSort toLowerCase r st).
Proof.
  intros H.
  unfold loadDynamicData, loadDynamicDataFinish, loadDynamicDataStart,
    loadDynamicAppConfig.
  destruct (decodeConfig listSort r) as [[doc|]|e]; simpl.
  - destruct (homeMounted st); reflexivity.
  - now destruct (homeMounted st).
  - now destruct (homeMounted st).
Qed.

(** Whatever searches are typed and loads arrive on a new home page, the
    products shown are the current products filtered by the current
    query: a load that brings new products applies the query to them. *)
Theorem home_shows_the_filtered_products (ops : list HomeOp) :
  showsTheFilter toLowerCase
    (homeRun intParse productCards listSort toLowerCase ops).
Proof.
  unfold homeRun.
  assert (H : forall l st, showsTheFilter toLowerCase st ->
              showsTheFilter toLowerCase
                (fold_left
                   (homeApply intParse productCards listSort toLowerCase)
                   l st)).
  { induction l as [|o l IH]; intros st Hst; simpl; [exact Hst|].
    apply IH. destruct o as [query|r]; simpl.
    - apply filterProducts_shows.
    - now apply loadDynamicData_shows. }
  apply H. reflexivity.
Qed.


End HomeFacts.

Lemma failed_home_load_keeps_config_witness :
  configFields
    (loadDynamicData parseHex [] insertionSort DartString.toLowerCase
       (Response 500 None)
       (filterProducts DartString.toLowerCase (str "shoe")
          (homeCreated [[(str "price", DNum (str "5"))]])))
  = configFields
      (filterProducts DartString.toLowerCase (str "shoe")
         (homeCreated [[(str "price", DNum (str "5"))]])).
Proof.
  apply (proj1 (failed_home_load_keeps_config parseHex [] insertionSort
                  DartString.toLowerCase (Response 500 None) _
                  (fun doc H => ltac:(discriminate H)))).
Defined.


(** ** The order of the home widgets *)

Lemma compareHeaderFirst_cases (a b : Dyn.map) :
  compareHeaderFirst a b <= 0 <-> (isHeader a = false -> isHeader b = false).
Proof.
  unfold compareHeaderFirst.
  destruct (isHeader a), (isHeader b); simpl; split; intros H; try lia;
    try reflexivity; try discriminate; auto.
Qed.

Lemma inOrder_headers_first (l : list Dyn.map) :
  inOrder compareHeaderFirst l = true ->
  exists headers others,
    l = headers ++ others /\
    Forall (fun w => isHeader w = true) headers /\
    Forall (fun w => isHeader w = false) others.
Proof.
  induction l as [|a l IH]; simpl; intros H.
  - exists [], []. repeat split; constructor.
  - apply andb_true_iff in H. destruct H as [Ha Hl].
    destruct (IH Hl) as (headers & others & -> & Hh & Ho).
    destruct (isHeader a) eqn:E.
    + exists (a :: headers), others. repeat split; auto.
    + exists [], (a :: headers ++ others). repeat split; [constructor|].
      constructor; [exact E|]. apply Forall_forall. intros b Hb.
      rewrite forallb_forall in Ha. specialize (Ha b Hb).
      apply Z.leb_le in Ha.
      exact (proj1 (compareHeaderFirst_cases a b) Ha E).
Qed.

Lemma Permutation_filter (f : Dyn.map -> bool) (l l' : list Dyn.map) :
  Permutation l l' -> Permutation (filter f l) (filter f l').
Proof.
  induction 1 as [|x l l' H IH|x y l|l l' l'' H1 IH1 H2 IH2]; simpl.
  - constructor.
  - destruct (f x); [now constructor|exact IH].
  - destruct (f x), (f y); try apply Permutation_refl. apply perm_swap.
  - now transitivity (filter f l').
Qed.

Lemma filter_all (f : Dyn.map -> bool) (l : list Dyn.map) :
  Forall (fun w => f w = true) l -> filter f l = l.
Proof.
  induction 1 as [|w l Hw Hl IH]; simpl; [reflexivity|].
  now rewrite Hw, IH.
Qed.

Lemma filter_none (f : Dyn.map -> bool) (l : list Dyn.map) :
  Forall (fun w => f w = false) l -> filter f l = [].
Proof.
  induction 1 as [|w l Hw Hl IH]; simpl; [reflexivity|].
  now rewrite Hw.
Qed.

(** Whatever algorithm [List.sort] runs: when it returns the widgets
    rearranged and in the order of the comparator, as a sort does, every
    [HeaderWidget] stands before every other widget, the headers are the
    headers that were loaded and the others the others that were
    loaded. The order inside the two groups is the algorithm's. *)
Theorem headers_come_first
  (listSort : (Dyn.map -> Dyn.map -> Z) -> list Dyn.map -> list Dyn.map)
  (ws : list Dyn.map) :
  Permutation ws (listSort compareHeaderFirst ws) ->
  inOrder compareHeaderFirst (listSort compareHeaderFirst ws) = true ->
  exists headers others,
    listSort compareHeaderFirst ws = headers ++ others /\
    Forall (fun w => isHeader w = true) headers /\
    Forall (fun w => isHeader w = false) others /\
    Permutation (filter isHeader ws) headers /\
    Permutation (filter (fun w => negb (isHeader w)) ws) others.
Proof.
  intros Hperm Horder.
  destruct (inOrder_headers_first _ Horder) as (headers & others & E & Hh & Ho).
  exists headers, others. rewrite E in Hperm.
  repeat split; auto.
  - rewrite (Permutation_filter isHeader _ _ Hperm), filter_app.
    rewrite (filter_all _ _ Hh), (filter_none _ _ Ho), app_nil_r.
    apply Permutation_refl.
  - rewrite (Permutation_filter (fun w => negb (isHeader w)) _ _ Hperm).
    rewrite filter_app, filter_none, filter_all; [apply Permutation_refl|..].
    + apply Forall_forall. intros w Hw.
      rewrite Forall_forall in Ho. now rewrite (Ho w Hw).
    + apply Forall_forall. intros w Hw.
      rewrite Forall_forall in Hh. now rewrite (Hh w Hw).
Qed.

Lemma headers_come_first_witness :
  exists headers others,
    insertionSort compareHeaderFirst
      [widgetOf (str "HeroBannerWidget") [];
       widgetOf (str "HeaderWidget") [];
       widgetOf (str "SmallCardWidget") []]
    = headers ++ others /\
    Forall (fun w => isHeader w = true) headers /\
    Forall (fun w => isHeader w = false) others /\
    Permutation
      (filter isHeader
         [widgetOf (str "HeroBannerWidget") [];
          widgetOf (str "HeaderWidget") [];
          widgetOf (str "SmallCardWidget") []])
      headers /\
    Permutation
      (filter (fun w => negb (isHeader w))
         [widgetOf (str "HeroBannerWidget") [];
          widgetOf (str "HeaderWidget") [];
          widgetOf (str "SmallCardWidget") []])
      others.
Proof.
  apply (headers_come_first insertionSort
           [widgetOf (str "HeroBannerWidget") [];
            widgetOf (str "HeaderWidget") [];
            widgetOf (str "SmallCardWidget") []]).
  - vm_compute. apply perm_swap.
  - vm_compute. reflexivity.
Defined.

(** ** The search of the home page *)

Lemma startsWith_app (p rest : DString) :
  DartString.startsWith p (p ++ rest) = true.
Proof.
  induction p as [|c p IH]; simpl; [reflexivity|].
  now rewrite N.eqb_refl, IH.
Qed.

Lemma contains_app (before word after : DString) :
  DartString.contains (before ++ word ++ after) word = true.
Proof.
  induction before as [|c before IH].
  - simpl. destruct (word ++ after) eqn:E; simpl; rewrite <- ?E;
      now rewrite startsWith_app.
  - cbn [app DartString.contains]. rewrite IH. apply orb_true_r.
Qed.

Section Search.

Variable toLowerCase : DString -> DString.

Lemma matchesQuery_same_lower (query other : DString) (p : Dyn.map) :
  toLowerCase other = toLowerCase query ->
  matchesQuery toLowerCase other p = matchesQuery toLowerCase query p.
Proof. intros H. unfold matchesQuery. now rewrite H. Qed.

Lemma matchesQuery_field (query key : DString) (p : Dyn.map) :
  In key [str "productName"; str "price"; str "discountPrice"] ->
  DartString.contains (fieldLower toLowerCase key p) (toLowerCase query)
  = true ->
  matchesQuery toLowerCase query p = true.
Proof.
  intros Hkey H. unfold matchesQuery. simpl in Hkey.
  destruct Hkey as [<-|[<-|[<-|[]]]]; rewrite H;
    rewrite ?orb_true_r; reflexivity.
Qed.

End Search.

(** The search ignores letter case, with the SDK's [toLowerCase] as it
    is: two non-empty queries with the same lower-case form show the
    same products; a product is shown when its name, price or discount
    price holds a run of characters with the lower-case form of the
    query, provided that lower-casing the field lower-cases that run in
    its place; and only current products are shown, in their order. *)
Theorem search_ignores_letter_case
  (toLowerCase : DString -> DString) (query : DString)
  (st : HomePageState) :
  query <> [] ->
  (forall other,
      other <> [] -> toLowerCase other = toLowerCase query ->
      filteredProducts (filterProducts toLowerCase other st)
      = filteredProducts (filterProducts toLowerCase query st)) /\
  (forall p key before word after,
      In p (dynamicProductCards st) ->
      In key [str "productName"; str "price"; str "discountPrice"] ->
      Dyn.toString (Dyn.orElse (Dyn.lookup key p) (DStr []))
      = before ++ word ++ after ->
      toLowerCase (before ++ word ++ after)
      = toLowerCase before ++ toLowerCase word ++ toLowerCase after ->
      toLowerCase word = toLowerCase query ->
      In p (filteredProducts (filterProducts toLowerCase query st))) /\
  (exists keep,
      filteredProducts (filterProducts toLowerCase query st)
      = filter keep (dynamicProductCards st)).
Proof.
  intros Hq. split; [|split].
  - intros other Ho Hlower. simpl.
    destruct query as [|c query]; [contradiction|].
    destruct other as [|d other]; [contradiction|]. simpl.
    apply filter_ext. intros p. now apply matchesQuery_same_lower.
  - intros p key before word after Hp Hkey Hfield Hmorph Hword. simpl.
    destruct query as [|c query]; [contradiction|]. simpl.
    apply filter_In. split; [exact Hp|].
    apply (matchesQuery_field toLowerCase _ key); [exact Hkey|].
    unfold fieldLower. rewrite Hfield, Hmorph, <- Hword.
    apply contains_app.
  - destruct query as [|c query]; [contradiction|].
    now exists (matchesQuery toLowerCase (c :: query)).
Qed.

Lemma search_ignores_letter_case_witness :
  In [(str "productName", DStr (str "Blue COFFEE Mug"))]
    (filteredProducts
       (filterProducts DartString.toLowerCase (str "Coffee")
          (homeCreated
             [[(str "productName", DStr (str "Tea Cup"))];
              [(str "productName", DStr (str "Blue COFFEE Mug"))]]))).
Proof.
  apply (proj1 (proj2 (search_ignores_letter_case DartString.toLowerCase
                         (str "Coffee")
                         (homeCreated
                            [[(str "productName", DStr (str "Tea Cup"))];
                             [(str "productName",
                               DStr (str "Blue COFFEE Mug"))]])
                         ltac:(discriminate)))
           [(str "productName", DStr (str "Blue COFFEE Mug"))]
           (str "productName") (str "Blue ") (str "COFFEE") (str " Mug"));
    try reflexivity.
  - right. now left.
  - now left.
Defined.

(** ** Widget names *)

(** Resolution gives the empty box for exactly the names outside the
    nine the [switch] knows; and a widget called [ProductGridWidget] is
    one of them, although the home page load collects its product
    cards. *)
Theorem empty_box_exactly_for_unknown_names
  (intParse : DString -> option Z)
  (base64Decode : DString -> option (list N))
  (st : HomePageState) (widgetData : Dyn.map) :
  (buildHomeWidgetFromConfig intParse base64Decode st widgetData
   = Returns SizedBoxShrink <->
   ~ In (widgetName widgetData) knownWidgetNames) /\
  (widgetName widgetData = str "ProductGridWidget" ->
   carriesProducts widgetData = true /\
   buildHomeWidgetFromConfig intParse base64Decode st widgetData
   = Returns SizedBoxShrink).
Proof.
  split; [split; [|apply unknown_name_default]|].
  - intros H Hin. unfold buildHomeWidgetFromConfig in H.
    unfold knownWidgetNames in Hin. simpl in Hin.
    repeat (destruct Hin as [Hin|Hin];
            [rewrite <- Hin in H;
             repeat match type of H with
                    | context [DartString.eqb ?a ?b] =>
                        let c := eval vm_compute in (DartString.eqb a b) in
                        change (DartString.eqb a b) with c in H; cbv iota in H
                    end;
             repeat match type of H with
                    | bind ?x _ = _ => destruct x; cbn [bind] in H
                    | match ?x with _ => _ end = _ => destruct x
                    end;
             discriminate|]).
    exact Hin.
  - intros Hname. split.
    + unfold carriesProducts. now rewrite Hname.
    + apply unknown_name_default. rewrite Hname. simpl. intros H.
      repeat (destruct H as [H|H]; [discriminate|]). exact H.
Qed.

Lemma empty_box_exactly_for_unknown_names_witness :
  carriesProducts (widgetOf (str "ProductGridWidget") []) = true /\
  buildHomeWidgetFromConfig parseHex base64Unused (homeCreated [])
    (widgetOf (str "ProductGridWidget") [])
  = Returns SizedBoxShrink.
Proof.
  apply (proj2 (empty_box_exactly_for_unknown_names parseHex base64Unused
                  (homeCreated [])
                  (widgetOf (str "ProductGridWidget") []))).
  reflexivity.
Defined.

(** ** [ApiService]'s stream *)

Lemma api_step_stream (s : ApiService.t) (i : SocketInput) :
  ApiService.socket s = true ->
  ApiService.controllerClosed s = false ->
  ApiService.socket (ApiRealtime.step s i) = true /\
  ApiService.controllerClosed (ApiRealtime.step s i) = false /\
  ApiService.realTimeUpdates (ApiRealtime.step s i)
  = ApiService.realTimeUpdates s ++ ApiRealtime.forwarded i.
Proof.
  destruct s as [sock conn closed updates]. simpl. intros -> ->.
  unfold ApiRealtime.step, ApiService.onSocket. simpl.
  destruct i as [| |kind data]; simpl; try (now rewrite app_nil_r).
  destruct (ApiService.forwards kind).
  - destruct data; simpl; try (now rewrite app_nil_r). auto.
  - simpl. destruct data; now rewrite app_nil_r.
Qed.

Lemma api_step_closed (s : ApiService.t) (i : SocketInput) :
  ApiService.controllerClosed s = true ->
  ApiService.controllerClosed (ApiRealtime.step s i) = true /\
  ApiService.realTimeUpdates (ApiRealtime.step s i)
  = ApiService.realTimeUpdates s.
Proof.
  destruct s as [sock conn closed updates]. simpl. intros ->.
  unfold ApiRealtime.step, ApiService.onSocket. simpl.
  destruct sock; simpl; [|auto].
  destruct i as [| |kind data]; simpl; auto.
  destruct (ApiService.forwards kind); simpl; [|auto].
  destruct data; simpl; auto.
Qed.

Lemma api_run_closed (inputs : list SocketInput) :
  forall t, ApiService.controllerClosed t = true ->
            ApiService.realTimeUpdates (ApiRealtime.run t inputs)
            = ApiService.realTimeUpdates t.
Proof.
  induction inputs as [|i inputs IH]; intros t Ht; [reflexivity|].
  destruct (api_step_closed t i Ht) as [Hc Hu].
  change (ApiRealtime.run t (i :: inputs))
    with (ApiRealtime.run (ApiRealtime.step t i) inputs).
  now rewrite (IH _ Hc).
Qed.

(** While [ApiService] has a socket and its controller is open, its
    stream receives, in the order of arrival, the map payloads of the
    events of the seven forwarded kinds and nothing else. Once the
    controller is closed nothing is added any more, also after
    [dispose] and a new [initializeRealTimeUpdates], where the
    listeners' [add] throws. And once [disconnectRealTimeUpdates] has
    run, no socket input changes the service. *)
Theorem api_stream_in_arrival_order
  (s : ApiService.t) (inputs : list SocketInput) :
  (ApiService.socket s = true ->
   ApiService.controllerClosed s = false ->
   ApiService.realTimeUpdates (ApiRealtime.run s inputs)
   = ApiService.realTimeUpdates s ++ flat_map ApiRealtime.forwarded inputs) /\
  (ApiService.controllerClosed s = true ->
   ApiService.realTimeUpdates (ApiRealtime.run s inputs)
   = ApiService.realTimeUpdates s) /\
  ApiService.realTimeUpdates
    (ApiRealtime.run
       (ApiRealtime.initializeRealTimeUpdates (ApiRealtime.dispose s))
       inputs)
  = ApiService.realTimeUpdates s /\
  ApiRealtime.run (ApiRealtime.disconnectRealTimeUpdates s) inputs
  = ApiRealtime.disconnectRealTimeUpdates s.
Proof.
  split; [|split; [|split]].
  - revert s. induction inputs as [|i inputs IH]; intros s Hs Hc; simpl.
    + now rewrite app_nil_r.
    + destruct (api_step_stream s i Hs Hc) as (Hsock & Hopen & Hstream).
      change (ApiRealtime.run s (i :: inputs))
        with (ApiRealtime.run (ApiRealtime.step s i) inputs).
      rewrite (IH _ Hsock Hopen), Hstream.
      now rewrite app_assoc.
  - apply api_run_closed.
  - rewrite api_run_closed; [|reflexivity].
    unfold ApiRealtime.dispose, ApiRealtime.disconnectRealTimeUpdates.
    now destruct (ApiService.socket s).
  - assert (H : forall t, ApiService.socket t = false ->
                          ApiRealtime.run t inputs = t).
    { induction inputs as [|i inputs IH]; intros t Ht; [reflexivity|].
      unfold ApiRealtime.run in *. simpl.
      assert (E : ApiRealtime.step t i = t).
      { unfold ApiRealtime.step, ApiService.onSocket. now rewrite Ht. }
      rewrite E. now apply IH. }
    apply H. unfold ApiRealtime.disconnectRealTimeUpdates.
    destruct (ApiService.socket s) eqn:E; [reflexivity|exact E].
Qed.

Lemma api_stream_in_arrival_order_witness :
  ApiService.realTimeUpdates
    (ApiRealtime.run
       (ApiRealtime.initializeRealTimeUpdates
          (ApiService.mk false false false []))
       [SocketEvent (str "room-joined") (payload "x");
        SocketEvent (str "app-info") (payload "a");
        SocketEvent (str "foo") (payload "f");
        SocketEvent (str "home-page") (payload "h")])
  = [payload "a"; payload "h"].
Proof.
  rewrite (proj1 (api_stream_in_arrival_order
                    (ApiRealtime.initializeRealTimeUpdates
                       (ApiService.mk false false false []))
                    [SocketEvent (str "room-joined") (payload "x");
                     SocketEvent (str "app-info") (payload "a");
                     SocketEvent (str "foo") (payload "f");
                     SocketEvent (str "home-page") (payload "h")])
             eq_refl eq_refl).
  reflexivity.
Defined.

(** ** The account form *)

Lemma plus_spec (c : N -> bool) (k : DString -> bool) :
  forall s,
    Regex.plus c s k = true <->
    exists w rest, s = w ++ rest /\ w <> [] /\
                   Forall (fun x => c x = true) w /\ k rest = true.
Proof.
  induction s as [|x s IH]; simpl.
  - split; [discriminate|].
    intros (w & rest & E & Hw & _). destruct w; [contradiction|discriminate].
  - rewrite andb_true_iff, orb_true_iff, IH. split.
    + intros [Hx [(w & rest & -> & _ & Hall & Hk)|Hk]].
      * exists (x :: w), rest. repeat split; auto. discriminate.
      * exists [x], s. repeat split; auto. discriminate.
    + intros (w & rest & E & Hw & Hall & Hk).
      destruct w as [|y w]; [contradiction|].
      simpl in E. injection E as <- ->. inversion Hall; subst.
      split; [assumption|].
      destruct w as [|z w]; [now right|].
      left. exists (z :: w), rest. repeat split; auto. discriminate.
Qed.

Lemma exactly_spec (c : N -> bool) (k : DString -> bool) :
  forall n s,
    Regex.exactly c n s k = true <->
    exists w rest, s = w ++ rest /\ List.length w = n /\
                   Forall (fun x => c x = true) w /\ k rest = true.
Proof.
  induction n as [|n IH]; intros s; simpl.
  - split.
    + intros Hk. exists [], s. repeat split; auto.
    + intros (w & rest & -> & Hlen & _ & Hk).
      now destruct w; [|discriminate].
  - destruct s as [|x s].
    + split; [discriminate|].
      intros (w & rest & E & Hlen & _). destruct w; discriminate.
    + rewrite andb_true_iff, IH. split.
      * intros [Hx (w & rest & -> & <- & Hall & Hk)].
        exists (x :: w), rest. repeat split; auto.
      * intros (w & rest & E & Hlen & Hall & Hk).
        destruct w as [|y w]; [discriminate|].
        simpl in E, Hlen. injection E as <- ->. injection Hlen as <-.
        inversion Hall; subst. split; [assumption|].
        exists w, rest. repeat split; auto.
Qed.

Lemma atMost_spec (c : N -> bool) (k : DString -> bool) :
  forall n s,
    Regex.atMost c n s k = true <->
    exists w rest, s = w ++ rest /\ (List.length w <= n)%nat /\
                   Forall (fun x => c x = true) w /\ k rest = true.
Proof.
  induction n as [|n IH]; intros s; simpl.
  - split.
    + intros Hk. exists [], s. repeat split; auto.
    + intros (w & rest & -> & Hlen & _ & Hk).
      destruct w; [exact Hk|simpl in Hlen; lia].
  - destruct s as [|x s].
    + split.
      * intros Hk. exists [], []. repeat split; auto. simpl. lia.
      * intros (w & rest & E & _ & _ & Hk).
        symmetry in E. apply app_eq_nil in E. destruct E as [_ ->].
        exact Hk.
    + rewrite orb_true_iff, andb_true_iff, IH. split.
      * intros [[Hx (w & rest & -> & Hlen & Hall & Hk)]|Hk].
        -- exists (x :: w), rest. repeat split; auto. simpl. lia.
        -- exists [], (x :: s). repeat split; auto. simpl. lia.
      * intros (w & rest & E & Hlen & Hall & Hk).
        destruct w as [|y w].
        -- right. simpl in E. now subst.
        -- left. simpl in E, Hlen. injection E as <- ->.
           inversion Hall; subst. split; [assumption|].
           exists w, rest. repeat split; auto. lia.
Qed.

(** The matcher and the strings of a pattern agree. *)
Lemma matchK_spec (r : Regex.t) :
  forall s k,
    Regex.matchK r s k = true <->
    exists w rest, s = w ++ rest /\ Regex.lang r w /\ k rest = true.
Proof.
  induction r as [c|r1 IH1 r2 IH2|c|c lo hi]; intros s k; simpl.
  - destruct s as [|x s].
    + split; [discriminate|].
      intros (w & rest & E & (y & -> & _) & _). discriminate.
    + rewrite andb_true_iff. split.
      * intros [Hx Hk]. exists [x], s. repeat split; eauto.
      * intros (w & rest & E & (y & -> & Hy) & Hk).
        simpl in E. injection E as -> ->. auto.
  - rewrite IH1. split.
    + intros (w1 & rest1 & -> & H1 & H2). apply IH2 in H2.
      destruct H2 as (w2 & rest & -> & H2 & Hk).
      exists (w1 ++ w2), rest. rewrite app_assoc. repeat split; eauto.
    + intros (w & rest & -> & (w1 & w2 & -> & H1 & H2) & Hk).
      exists w1, (w2 ++ rest). rewrite app_assoc. repeat split; auto.
      apply IH2. eauto.
  - rewrite plus_spec. split.
    + intros (w & rest & -> & Hw & Hall & Hk). exists w, rest. auto.
    + intros (w & rest & -> & (Hw & Hall) & Hk). exists w, rest. auto.
  - rewrite exactly_spec. split.
    + intros (w1 & rest1 & -> & Hlen & Hall1 & H2). apply atMost_spec in H2.
      destruct H2 as (w2 & rest & -> & Hlen2 & Hall2 & Hk).
      exists (w1 ++ w2), rest. rewrite app_assoc. repeat split; auto.
      * rewrite length_app. lia.
      * rewrite length_app. lia.
      * apply Forall_app. auto.
    + intros (w & rest & -> & ((Hlo & Hhi) & Hall) & Hk).
      exists (firstn lo w), (skipn lo w ++ rest).
      rewrite app_assoc, firstn_skipn. repeat split.
      * apply firstn_length_le. exact Hlo.
      * rewrite <- (firstn_skipn lo w) in Hall.
        now apply Forall_app in Hall.
      * apply atMost_spec. exists (skipn lo w), rest. repeat split; auto.
        -- rewrite length_skipn. lia.
        -- rewrite <- (firstn_skipn lo w) in Hall.
           now apply Forall_app in Hall.
Qed.

Lemma hasFullMatch_spec (r : Regex.t) (s : DString) :
  Regex.hasFullMatch r s = true <-> Regex.lang r s.
Proof.
  unfold Regex.hasFullMatch. rewrite matchK_spec. split.
  - intros (w & rest & -> & Hw & Hk). destruct rest; [|discriminate].
    now rewrite app_nil_r.
  - intros H. exists s, []. rewrite app_nil_r. auto.
Qed.

Lemma validatePhone_spec (phone : DString) :
  CreateAccount.validatePhone phone = true <->
  List.length phone = 10%nat /\
  Forall (fun c => (48 <= c <= 57)%N) phone.
Proof.
  unfold CreateAccount.validatePhone. rewrite hasFullMatch_spec. simpl.
  assert (Hd : forall c, Regex.digit c = true <-> (48 <= c <= 57)%N).
  { intros c. unfold Regex.digit, Regex.inRange.
    rewrite andb_true_iff, !N.leb_le. tauto. }
  split.
  - intros [Hlen Hall]. split; [lia|].
    eapply Forall_impl; [|exact Hall]. intros c. apply Hd.
  - intros [Hlen Hall]. split; [lia|].
    eapply Forall_impl; [|exact Hall]. intros c. apply Hd.
Qed.

Lemma validateEmail_spec (email : DString) :
  CreateAccount.validateEmail email = true <->
  exists name domain c ending,
    email = name ++ [64%N] ++ domain ++ [c] ++ ending /\
    name <> [] /\ Forall (fun x => Regex.localUnit x = true) name /\
    domain <> [] /\ Forall (fun x => Regex.domainUnit x = true) domain /\
    Regex.anyUnit c = true /\
    (2 <= List.length ending <= 4)%nat /\
    Forall (fun x => Regex.letter x = true) ending.
Proof.
  unfold CreateAccount.validateEmail. rewrite hasFullMatch_spec. simpl.
  split.
  - intros (name & w1 & -> & (Hn & Hname) &
            at' & w2 & -> & (a & -> & Ha) &
            domain & w3 & -> & (Hd & Hdomain) &
            dot & ending & -> & (c & -> & Hc) & (Hlen & Hending)).
    apply N.eqb_eq in Ha. subst a.
    exists name, domain, c, ending. repeat split; auto; lia.
  - intros (name & domain & c & ending & -> & Hn & Hname & Hd & Hdomain &
            Hc & Hlen & Hending).
    exists name, ([64%N] ++ domain ++ [c] ++ ending).
    split; [reflexivity|]. split; [auto|].
    exists [64%N], (domain ++ [c] ++ ending).
    split; [reflexivity|]. split; [exists 64%N; auto|].
    exists domain, ([c] ++ ending).
    split; [reflexivity|]. split; [auto|].
    exists [c], ending.
    split; [reflexivity|]. split; [exists c; auto|].
    split; [lia|exact Hending].
Qed.

(** [_validatePhone] accepts exactly the strings of ten ASCII digits. *)
Theorem phone_is_ten_digits (phone : DString) :
  CreateAccount.validatePhone phone = true <->
  List.length phone = 10%nat /\
  Forall (fun c => (48 <= c <= 57)%N) phone.
Proof. apply validatePhone_spec. Qed.

(** [_validateEmail] accepts exactly the strings made of a name (one or
    more letters, digits, points, underscores, hyphens), an [@], a domain
    (one or more letters, digits, points, hyphens), one more code unit
    and two to four letters. The code unit before the final letters can
    be any but a line terminator: the point of the pattern is not
    escaped, so a point is not required there. *)
Theorem email_shape (email : DString) :
  CreateAccount.validateEmail email = true <->
  exists name domain c ending,
    email = name ++ [64%N] ++ domain ++ [c] ++ ending /\
    name <> [] /\ Forall (fun x => Regex.localUnit x = true) name /\
    domain <> [] /\ Forall (fun x => Regex.domainUnit x = true) domain /\
    Regex.anyUnit c = true /\
    (2 <= List.length ending <= 4)%nat /\
    Forall (fun x => Regex.letter x = true) ending.
Proof. apply validateEmail_spec. Qed.

(** [_createAccount] sends its request only for a form that passes all
    four checks: then the names, the email and the phone go out trimmed,
    the phone is ten digits, the email has the shape [_validateEmail]
    accepts, with an [@] in it, and the password, which is not trimmed,
    has at least six code units. *)
Theorem signup_request_is_checked
  (f : CreateAccount.Form) (request : CreateAccount.Signup) :
  CreateAccount.check f = inl request ->
  CreateAccount.firstName request
  = DoubleParse.trim (CreateAccount.firstNameText f) /\
  CreateAccount.firstName request <> [] /\
  CreateAccount.lastName request <> [] /\
  CreateAccount.email request
  = DoubleParse.trim (CreateAccount.emailText f) /\
  CreateAccount.validateEmail (CreateAccount.email request) = true /\
  In 64%N (CreateAccount.email request) /\
  List.length (CreateAccount.phone request) = 10%nat /\
  Forall (fun c => (48 <= c <= 57)%N) (CreateAccount.phone request) /\
  CreateAccount.password request = CreateAccount.passwordText f /\
  (6 <= List.length (CreateAccount.password request))%nat.
Proof.
  unfold CreateAccount.check.
  destruct (DartString.isEmpty (DoubleParse.trim (CreateAccount.firstNameText f)))
    eqn:E1; [discriminate|].
  destruct (DartString.isEmpty (DoubleParse.trim (CreateAccount.lastNameText f)))
    eqn:E2; [discriminate|].
  destruct (DartString.isEmpty (DoubleParse.trim (CreateAccount.emailText f)))
    eqn:E3; [discriminate|].
  destruct (DartString.isEmpty (DoubleParse.trim (CreateAccount.phoneText f)))
    eqn:E4; [discriminate|].
  destruct (DartString.isEmpty (CreateAccount.passwordText f))
    eqn:E5; [discriminate|].
  simpl orb. cbv iota.
  destruct (CreateAccount.validateEmail
              (DoubleParse.trim (CreateAccount.emailText f))) eqn:Ve;
    [|discriminate].
  destruct (CreateAccount.validatePhone
              (DoubleParse.trim (CreateAccount.phoneText f))) eqn:Vp;
    [|discriminate].
  destruct (CreateAccount.validatePassword (CreateAccount.passwordText f))
    eqn:Vw; [|discriminate].
  simpl negb. cbv iota. intros H. injection H as <-. simpl.
  apply validatePhone_spec in Vp. destruct Vp as [Hlen Hdigits].
  pose proof Ve as Hshape. apply validateEmail_spec in Hshape.
  destruct Hshape as (name & domain & c & ending & Hemail & _).
  repeat split; auto.
  - intros H. now rewrite H in E1.
  - intros H. now rewrite H in E2.
  - rewrite Hemail. apply in_or_app. right. now left.
  - now apply Nat.leb_le.
Qed.

Lemma signup_request_is_checked_witness :
  List.length
    (CreateAccount.phone
       (CreateAccount.mkSignup (str "Ann") (str "Lee") (str "ann@shopXcom")
          (str "0123456789") (str "secret")))
  = 10%nat.
Proof.
  apply (signup_request_is_checked
           (CreateAccount.mkForm (str " Ann ") (str "Lee")
              (str "ann@shopXcom ") (str "0123456789") (str "secret"))).
  vm_compute. reflexivity.
Defined.

(** ** The subscription check *)

Section SubscriptionFacts.

Variable parseDate : DString -> option Z.
Variable now : Z.

Lemma verdict_counts (subscription : Dyn.t) :
  verdict parseDate now subscription = CountsAsActive ->
  exists m, subscription = DMap m /\ activeOrApproved (statusOf m) = true.
Proof.
  destruct subscription as [|b|shown|s|l|m]; simpl; try discriminate.
  destruct (activeOrApproved (statusOf m)) eqn:E; [|discriminate].
  intros _. exists m. auto.
Qed.

Lemma anyActive_true (subscriptions : list Dyn.t) :
  anyActive parseDate now subscriptions = Some true ->
  listedAsActive subscriptions.
Proof.
  induction subscriptions as [|s rest IH]; simpl; [discriminate|].
  destruct (verdict parseDate now s) eqn:V.
  - intros _. destruct (verdict_counts s V) as (m & -> & Hm).
    exists m. split; [now left|exact Hm].
  - intros H. destruct (IH H) as (m & Hin & Hm).
    exists m. split; [now right|exact Hm].
  - discriminate.
Qed.

Lemma anyActive_result_true (subscriptions : list Dyn.t) :
  match anyActive parseDate now subscriptions with
  | Some b => b
  | None => false
  end = true ->
  listedAsActive subscriptions.
Proof.
  destruct (anyActive parseDate now subscriptions) as [[|]|] eqn:E;
    try discriminate.
  intros _. now apply anyActive_true.
Qed.

Lemma fallbackCheck_true (token : option DString) (r : HttpResult) :
  fallbackCheck parseDate now token r = true ->
  token <> None /\ listedAsActive (listedSubscriptions r).
Proof.
  unfold fallbackCheck, authorizedGet.
  destruct token as [t|]; [|discriminate].
  destruct r as [|code body]; [discriminate|].
  destruct (code =? 401); [discriminate|].
  destruct (code =? 200); [|discriminate].
  destruct body as [[|b|shown|s|l|m]|]; try discriminate; simpl.
  - intros H. split; [discriminate|]. now apply anyActive_result_true.
  - destruct (Dyn.lookup (str "subscriptions") m); try discriminate.
    intros H. split; [discriminate|]. now apply anyActive_result_true.
Qed.

(** [hasActiveSubscription] answers true only with a stored user id and
    token, and only when the current subscription's status is [active]
    or the list of the second response has a subscription whose status
    is [active] or [approved]; a 404 to the first request is false at
    once, whatever the second would say. *)
Theorem active_subscription_only_if
  (userId token : option DString) (current fallback : HttpResult) :
  (hasActiveSubscription parseDate now userId token current fallback = true ->
   userId <> None /\ token <> None /\
   (currentStatus current = Some (str "active") \/
    listedAsActive (listedSubscriptions fallback))) /\
  (forall body,
      hasActiveSubscription parseDate now userId token (Response 404 body)
        fallback = false).
Proof.
  split.
  - unfold hasActiveSubscription.
    destruct userId as [u|]; [|discriminate].
    destruct (authorizedGet token current) as [[code body]|] eqn:G;
      [|discriminate].
    assert (Ht : token <> None).
    { unfold authorizedGet in G. now destruct token. }
    assert (Hfall : fallbackCheck parseDate now token fallback = true ->
                    listedAsActive (listedSubscriptions fallback)).
    { intros H. now apply fallbackCheck_true in H. }
    assert (Hrest : forall P : Prop,
               fallbackCheck parseDate now token fallback = true ->
               Some u <> None /\ token <> None /\
               (P \/ listedAsActive (listedSubscriptions fallback))).
    { intros P H. split; [discriminate|]. split; [exact Ht|].
      right. now apply Hfall. }
    destruct (code =? 200) eqn:E200.
    + unfold authorizedGet in G. destruct token as [t|]; [|discriminate].
      destruct current as [|code' body']; [discriminate|].
      destruct (code' =? 401); [discriminate|].
      injection G as -> ->.
      destruct body as [[|b|shown|s|l|m]|]; try discriminate.
      simpl currentStatus.
      destruct (Dyn.lookup (str "subscription") m)
        as [|b|shown|s|l|subscription]; try discriminate.
      * apply Hrest.
      * destruct (statusOf subscription) as [status|]; [|apply Hrest].
        destruct (DartString.eqb status (str "active")) eqn:Es;
          [|apply Hrest].
        intros _. apply eqb_eq in Es. subst status.
        split; [discriminate|]. split; [discriminate|]. now left.
    + destruct (code =? 404); [discriminate|apply Hrest].
  - intros body. unfold hasActiveSubscription.
    destruct userId; [|reflexivity].
    unfold authorizedGet. destruct token; reflexivity.
Qed.

(** An active or approved subscription whose end date does not parse
    counts as active: when the first request gives neither 200, 401 nor
    404 and such a subscription heads the list of the second response,
    the answer is true. *)
Theorem unparseable_end_date_counts_as_active
  (u t : DString) (code : Z) (body : option Dyn.t)
  (m : Dyn.map) (rest : list Dyn.t) (text : DString) :
  code <> 200 -> code <> 401 -> code <> 404 ->
  activeOrApproved (statusOf m) = true ->
  Dyn.lookup (str "endDate") m = DStr text ->
  parseDate text = None ->
  hasActiveSubscription parseDate now (Some u) (Some t)
    (Response code body) (Response 200 (Some (DList (DMap m :: rest))))
  = true.
Proof.
  intros H200 H401 H404 Hstatus Hend Hparse.
  unfold hasActiveSubscription, authorizedGet.
  destruct (Z.eqb_spec code 401); [contradiction|].
  destruct (Z.eqb_spec code 200); [contradiction|].
  destruct (Z.eqb_spec code 404); [contradiction|].
  unfold fallbackCheck, authorizedGet. simpl.
  rewrite Hstatus, Hend. simpl. now rewrite Hparse.
Qed.

End SubscriptionFacts.

Lemma active_subscription_only_if_witness :
  listedAsActive
    (listedSubscriptions
       (Response 200
          (Some (DList [DMap [(str "status", DStr (str "Approved"))]])))).
Proof.
  destruct (proj1 (active_subscription_only_if (fun _ => None) 0
                     (Some (str "u1")) (Some (str "tok"))
                     (Response 500 None)
                     (Response 200
                        (Some (DList [DMap [(str "status",
                                             DStr (str "Approved"))]]))))
              eq_refl) as (_ & _ & [H|H]).
  - discriminate H.
  - exact H.
Defined.

Lemma unparseable_end_date_counts_as_active_witness :
  hasActiveSubscription (fun _ => None) 0 (Some (str "u1")) (Some (str "tok"))
    (Response 500 None)
    (Response 200
       (Some (DList [DMap [(str "status", DStr (str "approved"));
                           (str "endDate", DStr (str "soon"))]])))
  = true.
Proof.
  apply (unparseable_end_date_counts_as_active (fun _ => None) 0
           (str "u1") (str "tok") 500 None
           [(str "status", DStr (str "approved"));
            (str "endDate", DStr (str "soon"))] [] (str "soon"));
    try discriminate; reflexivity.
Defined.
